(** * Medical scraper service: search providers, normalization and aggregation

    A shallow embedding of [studio/scraper/scraper_service.py]: the six
    search providers of [MedicalScraper], the two login operations and the
    [/search/aggregate] endpoint.

    Conventions of the embedding.
    - A parsed JSON body (and every Python value built from one) is a [json]
      value; a dict is the association list of its items in insertion order
      and lookup takes the first binding of a key.
    - Python [str] is [string]; characters are 8-bit.
    - A Python exception is a value of [exn]; code that can raise returns an
      [outcome].  Only subclasses of [Exception] are represented
      (cancellation and interpreter exit are not).
    - The outside world (environment variables, HTTP peers, the browser, the
      HTML parser, the clock) is a record of oracles, [World].  An oracle that
      can answer differently over time is indexed by the number of effects
      the process has issued so far.
    - Methods of [MedicalScraper] and the endpoints run in the monad [M]:
      state (the scraper object and the trace of issued effects) plus
      exceptions. *)

From Stdlib Require Import List String Ascii ZArith QArith Bool Lia Arith.
From Stdlib Require Import DecimalString DecimalNat DecimalZ.
Import ListNotations.
Local Close Scope Q_scope.
Local Open Scope string_scope.

Set Implicit Arguments.

(** ** Python values *)

#[warnings="-register-all"] Inductive json : Type :=
| JNull
| JBool (b : bool)
| JInt (n : Z)
| JFloat (q : Q)
| JStr (s : string)
| JArr (l : list json)
| JObj (items : list (string * json)).

Inductive exn : Type :=
| HTTPException (status_code : Z) (detail : string)
| RequestError (message : string)            (* httpx.RequestError *)
| PyError (cls : string) (message : string). (* any other Exception *)

Inductive outcome (A : Type) : Type :=
| Ok (a : A)
| Raise (e : exn).
Arguments Ok {A} a.
Arguments Raise {A} e.

Definition obind {A B} (c : outcome A) (f : A -> outcome B) : outcome B :=
  match c with
  | Ok a => f a
  | Raise e => Raise e
  end.

Declare Scope exc_scope.
Delimit Scope exc_scope with exc.
Notation "x <- c ;; k" := (obind c (fun x => k))
  (at level 61, c at next level, right associativity) : exc_scope.
Notation "' pat <- c ;; k" := (obind c (fun x => match x with pat => k end))
  (at level 61, pat pattern, c at next level, right associativity) : exc_scope.

(** [for x in xs: acc = body(acc, x)] where the body may raise. *)
Fixpoint ofold {A B} (body : A -> B -> outcome A) (xs : list B) (acc : A)
  : outcome A :=
  match xs with
  | [] => Ok acc
  | x :: xs' => obind (body acc x) (ofold body xs')
  end.

(** [[f(i, x) for i, x in enumerate(xs)]], counting from [i]. *)
Fixpoint omap_enum {A B} (f : nat -> A -> outcome B) (i : nat) (xs : list A)
  : outcome (list B) :=
  match xs with
  | [] => Ok []
  | x :: xs' =>
      obind (f i x) (fun y =>
      obind (omap_enum f (S i) xs') (fun ys => Ok (y :: ys)))
  end.

Definition omap {A B} (f : A -> outcome B) (xs : list A) : outcome (list B) :=
  omap_enum (fun _ => f) 0 xs.

(** ** Text helpers *)

(** [str(n)] for a non-negative and for an arbitrary integer. *)
Definition str_nat (n : nat) : string := NilEmpty.string_of_uint (Nat.to_uint n).
Definition str_int (z : Z) : string := NilEmpty.string_of_int (Z.to_int z).

(** [sep.join(parts)] *)
Definition join (sep : string) (parts : list string) : string :=
  String.concat sep parts.

(** [s[:n]] on a [str], [n >= 0]. *)
Definition str_slice_to (n : nat) (s : string) : string := substring 0 n s.

(** [l[:n]] on a list for an arbitrary integer [n]: a negative bound counts
    from the end. *)
Definition list_slice_to {A} (n : Z) (l : list A) : list A :=
  if (0 <=? n)%Z then firstn (Z.to_nat n) l
  else firstn (List.length l - Z.to_nat (- n)) l.

Fixpoint chars (s : string) : list string :=
  match s with
  | EmptyString => []
  | String c s' => String c EmptyString :: chars s'
  end.

(** [s.split(sep)] for a one-character separator: the pieces between
    occurrences, [[""]] for the empty string. *)
Fixpoint split_on (sep : ascii) (s : string) : list string :=
  match s with
  | EmptyString => [EmptyString]
  | String c s' =>
      if Ascii.eqb c sep then EmptyString :: split_on sep s'
      else match split_on sep s' with
           | [] => [String c EmptyString]
           | w :: ws => String c w :: ws
           end
  end.

Definition is_space (c : ascii) : bool :=
  let n := nat_of_ascii c in
  (((9 <=? n) && (n <=? 13)) || ((28 <=? n) && (n <=? 32)))%nat.

(** [s.split()]: maximal runs of non-whitespace characters. *)
Fixpoint split_ws_aux (cur : string) (s : string) : list string :=
  match s with
  | EmptyString => match cur with EmptyString => [] | _ => [cur] end
  | String c s' =>
      if is_space c then
        match cur with
        | EmptyString => split_ws_aux EmptyString s'
        | _ => cur :: split_ws_aux EmptyString s'
        end
      else split_ws_aux (cur ++ String c EmptyString) s'
  end.
Definition split_ws (s : string) : list string := split_ws_aux EmptyString s.

Definition is_digit (c : ascii) : bool :=
  let n := nat_of_ascii c in ((48 <=? n) && (n <=? 57))%nat.

Fixpoint all_digits (s : string) : bool :=
  match s with
  | EmptyString => true
  | String c s' => is_digit c && all_digits s'
  end.

(** [s.isdigit()] *)
Definition isdigit (s : string) : bool :=
  match s with EmptyString => false | _ => all_digits s end.

(** [int(s)] for a string of decimal digits. *)
Fixpoint int_of_digits (acc : Z) (s : string) : Z :=
  match s with
  | EmptyString => acc
  | String c s' => int_of_digits (10 * acc + (Z.of_nat (nat_of_ascii c) - 48)) s'
  end.

(** [s.startswith(p)] *)
Definition startswith (p s : string) : bool := String.prefix p s.

(** [s.replace(' ', '+')] *)
Fixpoint replace_space_plus (s : string) : string :=
  match s with
  | EmptyString => EmptyString
  | String c s' =>
      String (if Ascii.eqb c " " then "+"%char else c) (replace_space_plus s')
  end.

Definition is_lower (c : ascii) : bool :=
  let n := nat_of_ascii c in ((97 <=? n) && (n <=? 122))%nat.
Definition is_upper (c : ascii) : bool :=
  let n := nat_of_ascii c in ((65 <=? n) && (n <=? 90))%nat.
Definition to_upper (c : ascii) : ascii :=
  if is_lower c then ascii_of_nat (nat_of_ascii c - 32) else c.
Definition to_lower (c : ascii) : ascii :=
  if is_upper c then ascii_of_nat (nat_of_ascii c + 32) else c.

(** [s.title()]: a letter is upper-cased after a non-letter and lower-cased
    after a letter. *)
Fixpoint title_aux (prev_cased : bool) (s : string) : string :=
  match s with
  | EmptyString => EmptyString
  | String c s' =>
      let cased := is_lower c || is_upper c in
      String (if prev_cased then to_lower c else to_upper c) (title_aux cased s')
  end.
Definition str_title (s : string) : string := title_aux false s.

(** [s.lower()] *)
Fixpoint lower (s : string) : string :=
  match s with
  | EmptyString => EmptyString
  | String c s' => String (to_lower c) (lower s')
  end.

(** [needle in s] *)
Fixpoint contains (needle s : string) : bool :=
  String.prefix needle s ||
  match s with
  | EmptyString => false
  | String _ s' => contains needle s'
  end.

(** ** Operations of the interpreter on JSON-shaped values *)

Definition type_name (v : json) : string :=
  match v with
  | JNull => "NoneType"
  | JBool _ => "bool"
  | JInt _ => "int"
  | JFloat _ => "float"
  | JStr _ => "str"
  | JArr _ => "list"
  | JObj _ => "dict"
  end.

Definition AttributeError {A} (v : json) (attr : string) : outcome A :=
  Raise (PyError "AttributeError"
           ("'" ++ type_name v ++ "' object has no attribute '" ++ attr ++ "'")).

Definition TypeError {A} (message : string) : outcome A :=
  Raise (PyError "TypeError" message).

Definition IndexError {A} (message : string) : outcome A :=
  Raise (PyError "IndexError" message).

(** pydantic's error when a field does not validate. *)
Definition ValidationError {A} (field : string) : outcome A :=
  Raise (PyError "ValidationError" ("validation error for field " ++ field)).

Fixpoint assoc {V} (k : string) (d : list (string * V)) : option V :=
  match d with
  | [] => None
  | (k', v) :: d' => if String.eqb k k' then Some v else assoc k d'
  end.

(** [bool(v)] *)
Definition truthy (v : json) : bool :=
  match v with
  | JNull => false
  | JBool b => b
  | JInt n => negb (n =? 0)%Z
  | JFloat q => negb (Qeq_bool q 0)
  | JStr s => negb (String.eqb s "")
  | JArr l => match l with [] => false | _ => true end
  | JObj d => match d with [] => false | _ => true end
  end.

(** [v.get(k, default)]: only a dict has the method. *)
Definition py_get (v : json) (k : string) (default : json) : outcome json :=
  match v with
  | JObj d => Ok (match assoc k d with Some x => x | None => default end)
  | _ => AttributeError v "get"
  end.

(** [v[i]] for a literal index [i >= 0]. *)
Definition py_index (v : json) (i : nat) : outcome json :=
  match v with
  | JArr l =>
      match nth_error l i with
      | Some x => Ok x
      | None => IndexError "list index out of range"
      end
  | JStr s =>
      match String.get i s with
      | Some c => Ok (JStr (String c EmptyString))
      | None => IndexError "string index out of range"
      end
  | JObj _ => Raise (PyError "KeyError" (str_nat i))
  | _ => TypeError ("'" ++ type_name v ++ "' object is not subscriptable")
  end.

(** [v[:n]] for a literal bound [n >= 0]. *)
Definition py_slice_to (v : json) (n : nat) : outcome json :=
  match v with
  | JArr l => Ok (JArr (firstn n l))
  | JStr s => Ok (JStr (str_slice_to n s))
  | JObj _ => Raise (PyError "KeyError" "slice(None, n, None)")
  | _ => TypeError ("'" ++ type_name v ++ "' object is not subscriptable")
  end.

(** [iter(v)]: the elements of a list, the characters of a string, the keys
    of a dict. *)
Definition py_iter (v : json) : outcome (list json) :=
  match v with
  | JArr l => Ok l
  | JStr s => Ok (map JStr (chars s))
  | JObj d => Ok (map (fun kv => JStr (fst kv)) d)
  | _ => TypeError ("'" ++ type_name v ++ "' object is not iterable")
  end.

(** The items of [v] when [sep.join(v)] accepts it: an iterable of [str]. *)
Definition py_join_items (v : json) : outcome (list string) :=
  obind (py_iter v) (fun items =>
  ofold (fun acc x =>
           match x with
           | JStr s => Ok (acc ++ [s])%list
           | _ => TypeError ("sequence item: expected str instance, "
                             ++ type_name x ++ " found")
           end) items []).

(** [v.split(sep)] and [v.split()]: only a [str] has the method. *)
Definition py_split_on (sep : ascii) (v : json) : outcome (list string) :=
  match v with
  | JStr s => Ok (split_on sep s)
  | _ => AttributeError v "split"
  end.

Definition py_split_ws (v : json) : outcome (list string) :=
  match v with
  | JStr s => Ok (split_ws s)
  | _ => AttributeError v "split"
  end.

Definition list_index {A} (l : list A) (i : nat) : outcome A :=
  match nth_error l i with
  | Some x => Ok x
  | None => IndexError "list index out of range"
  end.

(** [repr] of a [str]: quoted, with the quote, the backslash and the common
    control characters escaped. *)
Fixpoint escape (quote : ascii) (s : string) : string :=
  match s with
  | EmptyString => EmptyString
  | String c s' =>
      (if Ascii.eqb c quote then String "\"%char (String c EmptyString)
       else if Ascii.eqb c "\"%char then "\\"
       else if Ascii.eqb c "010"%char then "\n"
       else if Ascii.eqb c "013"%char then "\r"
       else if Ascii.eqb c "009"%char then "\t"
       else String c EmptyString) ++ escape quote s'
  end.

Definition dquote : ascii := ascii_of_nat 34.

Definition repr_str (s : string) : string :=
  if contains "'" s && negb (contains (String dquote EmptyString) s)
  then String dquote (escape dquote s) ++ String dquote EmptyString
  else "'" ++ escape "'"%char s ++ "'".

Section Formatting.
(** [repr] of a float (the shortest decimal that reads back) is left to
    the platform. *)
Variable float_repr : Q -> string.

Fixpoint py_repr (v : json) : string :=
  match v with
  | JNull => "None"
  | JBool true => "True"
  | JBool false => "False"
  | JInt n => str_int n
  | JFloat q => float_repr q
  | JStr s => repr_str s
  | JArr l => "[" ++ join ", " (map py_repr l) ++ "]"
  | JObj d =>
      "{" ++ join ", " (map (fun kv => repr_str (fst kv) ++ ": " ++ py_repr (snd kv)) d)
          ++ "}"
  end.

(** [str(v)], as an f-string placeholder formats [v]. *)
Definition py_str (v : json) : string :=
  match v with
  | JStr s => s
  | _ => py_repr v
  end.
End Formatting.

(** ** Models (the pydantic classes) *)

(** [SearchRequest] *)
Record SearchRequest := {
  query : string;
  max_results : Z;
  include_domains : option (list string);
  perplexity_model : string
}.

(** [LoginCredentials] *)
Record LoginCredentials := {
  username : string;
  password : string;
  target : string
}.

(** [Citation] *)
Record Citation := {
  id : string;
  title : string;
  authors : option (list string);
  source : string;
  year : option Z;
  url : option string;
  pmid : option string;
  snippet : option string
}.

(** [SearchResponse]; its [query] field is [sr_query] here. *)
Record SearchResponse := {
  provider : string;
  sr_query : string;
  content : string;
  citations : list Citation;
  timestamp : Z
}.

(** The dict returned by [aggregate_search]; [sources] and [errors] are
    dicts in insertion order. *)
Record AggregateResponse := {
  agg_query : string;
  sources : list (string * SearchResponse);
  errors : list (string * string);
  combined_content : string;
  all_citations : list Citation;
  agg_timestamp : Z
}.

(** Field validation done by the model constructors: a [str] field accepts
    only a string, an [Optional[str]] field also [None], a [List[str]] field
    a list of strings. *)
Definition validate_str (field : string) (v : json) : outcome string :=
  match v with
  | JStr s => Ok s
  | _ => ValidationError field
  end.

Definition validate_opt_str (field : string) (v : json) : outcome (option string) :=
  match v with
  | JNull => Ok None
  | JStr s => Ok (Some s)
  | _ => ValidationError field
  end.

Definition validate_str_list (field : string) (vs : list json)
  : outcome (list string) :=
  omap (validate_str field) vs.

(** ** Configuration *)

Definition USER_AGENTS : list string := [
  "Mozilla/5.0 (Macintosh; Intel Mac OS X 10_15_7) AppleWebKit/537.36 (KHTML, like Gecko) Chrome/120.0.0.0 Safari/537.36";
  "Mozilla/5.0 (Windows NT 10.0; Win64; x64) AppleWebKit/537.36 (KHTML, like Gecko) Chrome/120.0.0.0 Safari/537.36";
  "Mozilla/5.0 (Macintosh; Intel Mac OS X 10_15_7) AppleWebKit/605.1.15 (KHTML, like Gecko) Version/17.2 Safari/605.1.15"
].

Definition MEDICAL_DOMAINS : list string := [
  "ncbi.nlm.nih.gov";
  "pubmed.ncbi.nlm.nih.gov";
  "uptodate.com";
  "nejm.org";
  "jamanetwork.com";
  "thelancet.com";
  "cochrane.org";
  "mayoclinic.org";
  "acponline.org"
].

(** ** The outside world *)

Inductive http_method := GET | POST.

Record HttpRequest := {
  req_method : http_method;
  req_url : string;
  req_headers : list (string * string);
  req_params : list (string * json);   (* query parameters of a GET *)
  req_json : option json               (* JSON body of a POST *)
}.

(** What the client hands back: the status and the body, [None] when the
    body is not JSON (then [response.json()] raises). *)
Record HttpResponse := {
  resp_status : Z;
  resp_json : option json
}.

(** Calls into the Playwright browser. *)
Inductive BrowserCall :=
| PlaywrightStart
| Launch (headless : bool)
| NewContext (user_agent : string)
| NewPage
| Goto (target : string)
| WaitForLoadState (state : string)
| WaitForSelector (selector : string) (timeout : Z)
| Fill (selector value : string)
| Press (selector key : string)
| Click (selector : string)
| IsVisible (selector : string)
| Count (selector : string)
| PageContent.

(** What the code observes of a BeautifulSoup element. *)
Record Tag := {
  tag_name : string;               (* result.name *)
  tag_href : option string;        (* its href attribute *)
  tag_heading : option string;     (* text of find(['h2','h3','a','span']) *)
  tag_link : option string;        (* href of find('a', href=True) *)
  tag_text : string;               (* get_text(strip=True) *)
  tag_parent_text : option string  (* text of find_parent(['div','li','article']) *)
}.

Record World := {
  (* process environment and import-time flags *)
  environ : string -> option string;
  PLAYWRIGHT_AVAILABLE : bool;
  SCRAPING_LIBS_AVAILABLE : bool;
  (* time.time() * 1000, truncated *)
  clock_ms : nat -> Z;
  (* random.choice over a list of the given length *)
  random_index : nat -> nat -> nat;
  float_repr : Q -> string;
  (* httpx: the response to a request, or the exception of the transport *)
  http : nat -> HttpRequest -> outcome HttpResponse;
  (* Playwright: [None] when the call completes *)
  browser_call : nat -> BrowserCall -> option exn;
  browser_is_visible : nat -> string -> outcome bool;
  browser_count : nat -> string -> outcome nat;
  browser_content : nat -> outcome string;
  browser_url : nat -> string;
  (* BeautifulSoup over a page source, html2text *)
  soup_select : string -> string -> list Tag;
  soup_anchors : string -> list Tag;
  soup_find_div_class : string -> (string -> bool) -> option string;
  soup_find : string -> string -> option string;
  html2text : string -> string
}.

(** ** Process state and the monad of effects *)

(** The attributes of the [MedicalScraper] object; [playwright], [browser],
    [context] and [page] record whether the attribute holds an object. *)
Record Scraper := {
  playwright : bool;
  browser : bool;
  context : bool;
  page : bool;
  logged_in_uptodate : bool;
  logged_in_mksap : bool
}.

Inductive Event :=
| EvHttp (r : HttpRequest)
| EvBrowser (c : BrowserCall)
| EvPrint (line : string).

Record Proc := {
  scraper : Scraper;
  trace : list Event
}.

Definition M (A : Type) : Type := Proc -> outcome A * Proc.

Definition ret {A} (a : A) : M A := fun p => (Ok a, p).

Definition raise {A} (e : exn) : M A := fun p => (Raise e, p).

Definition bind {A B} (c : M A) (f : A -> M B) : M B :=
  fun p =>
    match c p with
    | (Ok a, p') => f a p'
    | (Raise e, p') => (Raise e, p')
    end.

(** [try: c  except Exception as e: h(e)]; what [c] did to the state before
    raising stays done. *)
Definition try_except {A} (c : M A) (h : exn -> M A) : M A :=
  fun p =>
    match c p with
    | (Ok a, p') => (Ok a, p')
    | (Raise e, p') => h e p'
    end.

(** A pure computation that may raise. *)
Definition lift {A} (o : outcome A) : M A := fun p => (o, p).

Declare Scope proc_scope.
Delimit Scope proc_scope with proc.
Notation "x <- c ;; k" := (bind c (fun x => k))
  (at level 61, c at next level, right associativity) : proc_scope.
Notation "' pat <- c ;; k" := (bind c (fun x => match x with pat => k end))
  (at level 61, pat pattern, c at next level, right associativity) : proc_scope.
Notation "c ;;; k" := (bind c (fun _ => k))
  (at level 61, right associativity) : proc_scope.

Definition get_scraper : M Scraper := fun p => (Ok (scraper p), p).

Definition set_scraper (s : Scraper) : M unit :=
  fun p => (Ok tt, {| scraper := s; trace := trace p |}).

Definition emit (e : Event) : M unit :=
  fun p => (Ok tt, {| scraper := scraper p; trace := (trace p ++ [e])%list |}).

(** The number of effects issued so far, the index of the next oracle
    answer. *)
Definition now : M nat := fun p => (Ok (List.length (trace p)), p).

(** [print(line)] *)
Definition print (line : string) : M unit := emit (EvPrint line).

(** [await asyncio.sleep(seconds)] *)
Definition sleep (seconds : Z) : M unit := ret tt.

(** [str(e)]; an [HTTPException] prints as its status and detail. *)
Definition str_exn (e : exn) : string :=
  match e with
  | HTTPException code detail => str_int code ++ ": " ++ detail
  | RequestError message => message
  | PyError _ message => message
  end.

Definition nl : string := String (ascii_of_nat 10) EmptyString.

(** The divider between per-result blocks. *)
Definition divider : string := nl ++ nl ++ "---" ++ nl ++ nl.

(** [a or b] on values of [os.getenv]: [a] when it is set and non-empty. *)
Definition env_truthy (v : option string) : bool :=
  match v with
  | Some s => negb (String.eqb s "")
  | None => false
  end.

Definition env_or (a b : option string) : option string :=
  if env_truthy a then a else b.

Definition with_playwright (s : Scraper) : Scraper :=
  {| playwright := true; browser := browser s; context := context s;
     page := page s; logged_in_uptodate := logged_in_uptodate s;
     logged_in_mksap := logged_in_mksap s |}.

Definition with_browser (s : Scraper) : Scraper :=
  {| playwright := playwright s; browser := true; context := context s;
     page := page s; logged_in_uptodate := logged_in_uptodate s;
     logged_in_mksap := logged_in_mksap s |}.

Definition with_context (s : Scraper) : Scraper :=
  {| playwright := playwright s; browser := browser s; context := true;
     page := page s; logged_in_uptodate := logged_in_uptodate s;
     logged_in_mksap := logged_in_mksap s |}.

Definition with_page (s : Scraper) : Scraper :=
  {| playwright := playwright s; browser := browser s; context := context s;
     page := true; logged_in_uptodate := logged_in_uptodate s;
     logged_in_mksap := logged_in_mksap s |}.

Definition with_logged_in_uptodate (s : Scraper) : Scraper :=
  {| playwright := playwright s; browser := browser s; context := context s;
     page := page s; logged_in_uptodate := true;
     logged_in_mksap := logged_in_mksap s |}.

Definition with_logged_in_mksap (s : Scraper) : Scraper :=
  {| playwright := playwright s; browser := browser s; context := context s;
     page := page s; logged_in_uptodate := logged_in_uptodate s;
     logged_in_mksap := true |}.

Definition modify (f : Scraper -> Scraper) : M unit :=
  fun p => (Ok tt, {| scraper := f (scraper p); trace := trace p |}).

(** [MedicalScraper.__init__] *)
Definition new_scraper : Scraper :=
  {| playwright := false; browser := false; context := false; page := false;
     logged_in_uptodate := false; logged_in_mksap := false |}.

Definition method_name (c : BrowserCall) : string :=
  match c with
  | PlaywrightStart => "start"
  | Launch _ => "launch"
  | NewContext _ => "new_context"
  | NewPage => "new_page"
  | Goto _ => "goto"
  | WaitForLoadState _ => "wait_for_load_state"
  | WaitForSelector _ _ => "wait_for_selector"
  | Fill _ _ => "fill"
  | Press _ _ => "press"
  | Click _ => "click"
  | IsVisible _ => "locator"
  | Count _ => "locator"
  | PageContent => "content"
  end.

(** [Citation(id=..., title=..., ...)]: the fields that come from upstream
    data are validated, an omitted optional field is [None]. *)
Definition Citation_new (id_ : string) (title_ : json)
    (authors_ : option (list json)) (source_ : json) (year_ : option Z)
    (url_ : json) (pmid_ : option string) (snippet_ : json) : outcome Citation :=
  (t <- validate_str "title" title_ ;;
   a <- match authors_ with
        | None => Ok None
        | Some l => l' <- validate_str_list "authors" l ;; Ok (Some l')
        end ;;
   s <- validate_str "source" source_ ;;
   u <- validate_opt_str "url" url_ ;;
   sn <- validate_opt_str "snippet" snippet_ ;;
   Ok {| id := id_; title := t; authors := a; source := s; year := year_;
         url := u; pmid := pmid_; snippet := sn |})%exc.

(** [SearchResponse(provider=..., query=..., content=..., ...)] *)
Definition SearchResponse_new (provider_ query_ : string) (content_ : json)
    (citations_ : list Citation) (timestamp_ : Z) : outcome SearchResponse :=
  (c <- validate_str "content" content_ ;;
   Ok {| provider := provider_; sr_query := query_; content := c;
         citations := citations_; timestamp := timestamp_ |})%exc.

(** [d[k] = v] on a dict kept in insertion order. *)
Fixpoint dict_set {V} (k : string) (v : V) (d : list (string * V))
  : list (string * V) :=
  match d with
  | [] => [(k, v)]
  | (k', v') :: d' =>
      if String.eqb k k' then (k, v) :: d' else (k', v') :: dict_set k v d'
  end.

Definition keys {V} (d : list (string * V)) : list string := map fst d.

Section Service.
Variable w : World.
Local Open Scope proc_scope.

Definition getenv (name : string) : option string := environ w name.

(** [int(time.time() * 1000)] *)
Definition time_ms : M Z := n <- now ;; ret (clock_ms w n).

(** [await self.http_client.get/post(...)] *)
Definition http_send (r : HttpRequest) : M HttpResponse :=
  n <- now ;; emit (EvHttp r) ;;; lift (http w n r).

(** [response.json()] *)
Definition response_json (r : HttpResponse) : outcome json :=
  match resp_json r with
  | Some v => Ok v
  | None => Raise (PyError "JSONDecodeError" "Expecting value")
  end.

(** A browser call that returns nothing of interest. *)
Definition browser_do (c : BrowserCall) : M unit :=
  n <- now ;;
  emit (EvBrowser c) ;;;
  match browser_call w n c with
  | None => ret tt
  | Some e => raise e
  end.

(** A method of [self.page]; with no page the attribute lookup on [None]
    fails. *)
Definition on_page {A} (c : BrowserCall) (call : M A) : M A :=
  s <- get_scraper ;;
  if page s then call else lift (AttributeError JNull (method_name c)).

Definition page_do (c : BrowserCall) : M unit := on_page c (browser_do c).

Definition page_is_visible (selector : string) : M bool :=
  on_page (IsVisible selector)
    (n <- now ;; emit (EvBrowser (IsVisible selector)) ;;;
     lift (browser_is_visible w n selector)).

Definition page_count (selector : string) : M nat :=
  on_page (Count selector)
    (n <- now ;; emit (EvBrowser (Count selector)) ;;;
     lift (browser_count w n selector)).

Definition page_content : M string :=
  on_page PageContent
    (n <- now ;; emit (EvBrowser PageContent) ;;; lift (browser_content w n)).

Definition page_url : M string :=
  s <- get_scraper ;;
  if page s then (n <- now ;; ret (browser_url w n))
  else lift (AttributeError JNull "url").

(** [MedicalScraper.start_browser] *)
Definition start_browser (headless : bool) : M bool :=
  if negb (PLAYWRIGHT_AVAILABLE w) then ret false
  else
    s <- get_scraper ;;
    if browser s then ret true
    else
      try_except
        (browser_do PlaywrightStart ;;;
         modify with_playwright ;;;
         browser_do (Launch headless) ;;;
         modify with_browser ;;;
         n <- now ;;
         browser_do (NewContext
                       (nth (random_index w n (List.length USER_AGENTS)
                             mod List.length USER_AGENTS)
                            USER_AGENTS "")) ;;;
         modify with_context ;;;
         browser_do NewPage ;;;
         modify with_page ;;;
         ret true)
        (fun e =>
           print ("Failed to start browser: " ++ str_exn e) ;;;
           ret false).

(** [MedicalScraper.html_to_markdown] *)
Definition html_to_markdown (html_content : string) : string :=
  if negb (SCRAPING_LIBS_AVAILABLE w) then html_content
  else html2text w html_content.

(** [BeautifulSoup(html, 'html.parser')]: the name is unbound when the
    import failed.  The soup is kept as the source it was built from. *)
Definition BeautifulSoup (html : string) : outcome string :=
  if SCRAPING_LIBS_AVAILABLE w then Ok html
  else Raise (PyError "NameError" "name 'BeautifulSoup' is not defined").

(** *** Logins *)

(** The [try] block of [login_uptodate]. *)
Definition login_uptodate_body (username password : string) : M bool :=
  let login_url := "https://www.uptodate.com/login" in
  page_do (Goto login_url) ;;;
  page_do (WaitForLoadState "networkidle") ;;;
  sleep 2 ;;;
  visible <- page_is_visible "button#signInAnotherWayBtn" ;;
  (if visible : bool
   then page_do (Click "button#signInAnotherWayBtn") ;;; sleep 2
   else ret tt) ;;;
  page_do (WaitForSelector "input#userName" 15000) ;;;
  page_do (Fill "input#userName" username) ;;;
  page_do (Press "input#userName" "Enter") ;;;
  sleep 3 ;;;
  page_do (WaitForSelector "input#password" 15000) ;;;
  page_do (Fill "input#password" password) ;;;
  page_do (Press "input#password" "Enter") ;;;
  page_do (WaitForLoadState "networkidle") ;;;
  sleep 3 ;;;
  modify with_logged_in_uptodate ;;;
  ret true.

(** [MedicalScraper.login_uptodate] *)
Definition login_uptodate (username password : string) : M bool :=
  started <- start_browser true ;;
  if negb started then ret false
  else
    try_except
      (login_uptodate_body username password)
      (fun e => print ("UpToDate login failed: " ++ str_exn e) ;;; ret false).

(** [for selector in selectors: try: if count > 0: act; break
     except: continue] *)
Fixpoint first_matching (act : string -> M unit) (selectors : list string)
  : M unit :=
  match selectors with
  | [] => ret tt
  | selector :: rest =>
      done <- try_except
                (n <- page_count selector ;;
                 if (0 <? n)%nat then act selector ;;; ret true
                 else ret false)
                (fun _ => ret false) ;;
      if done : bool then ret tt else first_matching act rest
  end.

Definition username_selectors : list string := [
  "input[name='username']";
  "input[id='username']";
  "input[name='email']";
  "input[id='email']";
  "input[type='email']";
  "input[name*='sername']";
  "input[id*='sername']"
].

Definition password_selectors : list string := [
  "input[name='password']";
  "input[id='password']";
  "input[type='password']";
  "input[name*='assword']";
  "input[id*='assword']"
].

Definition submit_selectors : list string := [
  "button[type='submit']";
  "input[type='submit']";
  "button:has-text('Sign In')";
  "button:has-text('Log In')";
  "button:has-text('Login')"
].

(** The [try] block of [login_mksap]. *)
Definition login_mksap_body (username password : string) : M bool :=
  let login_url := "https://mksap19.acponline.org/" in
  page_do (Goto login_url) ;;;
  page_do (WaitForLoadState "networkidle") ;;;
  sleep 2 ;;;
  first_matching (fun selector => page_do (Fill selector username))
                 username_selectors ;;;
  first_matching (fun selector => page_do (Fill selector password))
                 password_selectors ;;;
  first_matching (fun selector => page_do (Click selector))
                 submit_selectors ;;;
  page_do (WaitForLoadState "networkidle") ;;;
  sleep 3 ;;;
  current_url <- page_url ;;
  if contains "mksap19" current_url || contains "dashboard" (lower current_url)
  then modify with_logged_in_mksap ;;; ret true
  else modify with_logged_in_mksap ;;; ret true.  (* assume success if no error *)

(** [MedicalScraper.login_mksap] *)
Definition login_mksap (username password : string) : M bool :=
  started <- start_browser true ;;
  if negb started then ret false
  else
    try_except
      (login_mksap_body username password)
      (fun e => print ("MKSAP login failed: " ++ str_exn e) ;;; ret false).

(** *** Perplexity *)

Definition system_prompts (medical_focus : bool) : list (string * string) := [
  ("sonar-pro",
   if medical_focus then
     "You are a medical education researcher. Provide comprehensive, evidence-based information "
     ++ "with specific citations. Focus on current guidelines, landmark studies, and clinical pearls. "
     ++ "Always cite sources with author, year, and journal/guideline name."
   else "You are a helpful research assistant.");
  ("sonar-reasoning-pro",
   if medical_focus then
     "You are an expert clinical educator. Think through this medical topic step-by-step, "
     ++ "explaining your clinical reasoning. Consider differential diagnoses, pathophysiology, "
     ++ "and evidence-based management. Cite guidelines and landmark trials. Show your reasoning process."
   else "You are an analytical researcher. Think step-by-step and show your reasoning.");
  ("sonar-deep-research",
   if medical_focus then
     "You are a medical literature researcher conducting an exhaustive review. Synthesize "
     ++ "information from multiple high-quality sources including guidelines, systematic reviews, "
     ++ "and landmark trials. Provide a comprehensive analysis with extensive citations."
   else "Conduct exhaustive research and provide comprehensive synthesis.")
].

(** [system_prompts.get(model, system_prompts["sonar-pro"])] *)
Definition system_prompt (medical_focus : bool) (model : string) : string :=
  let prompts := system_prompts medical_focus in
  match assoc model prompts with
  | Some prompt => prompt
  | None => match assoc "sonar-pro" prompts with
            | Some prompt => prompt
            | None => ""
            end
  end.

(** [0.1 if model == "sonar-reasoning-pro" else 0.2]; the literals are kept
    as the rationals they denote. *)
Definition temperature (model : string) : Q :=
  if String.eqb model "sonar-reasoning-pro" then (1 # 10)%Q else (2 # 10)%Q.

Definition perplexity_request (api_key query : string) (medical_focus : bool)
    (model : string) : HttpRequest :=
  {| req_method := POST;
     req_url := "https://api.perplexity.ai/chat/completions";
     req_headers := [("Authorization", "Bearer " ++ api_key);
                     ("Content-Type", "application/json")];
     req_params := [];
     req_json := Some (JObj [
       ("model", JStr model);
       ("messages", JArr [
          JObj [("role", JStr "system");
                ("content", JStr (system_prompt medical_focus model))];
          JObj [("role", JStr "user"); ("content", JStr query)]]);
       ("temperature", JFloat (temperature model));
       ("return_citations", JBool true);
       ("search_domain_filter",
        if medical_focus then JArr (map JStr MEDICAL_DOMAINS) else JNull)]) |}.

Definition perplexity_citation (i : nat) (c : json) : outcome Citation :=
  (t <- match c with
        | JStr _ => Ok c
        | _ => py_get c "title" (JStr ("Source " ++ str_nat (i + 1)))
        end ;;
   u <- match c with
        | JStr _ => Ok c
        | _ => py_get c "url" (JStr "")
        end ;;
   Citation_new ("pplx-" ++ str_nat i) t None (JStr "Perplexity") None u None
                JNull)%exc.

(** The normalization of a Perplexity body: the answer text and the
    citations. *)
Definition perplexity_normalize (data : json) : outcome (json * list Citation) :=
  (choices <- py_get data "choices" (JArr [JObj []]) ;;
   first <- py_index choices 0 ;;
   message <- py_get first "message" (JObj []) ;;
   content_ <- py_get message "content" (JStr "") ;;
   raw_citations <- py_get data "citations" (JArr []) ;;
   items <- py_iter raw_citations ;;
   citations_ <- omap_enum perplexity_citation 0 items ;;
   Ok (content_, citations_))%exc.

(** [MedicalScraper.search_perplexity] *)
Definition search_perplexity (query_ : string) (medical_focus : bool)
    (model : string) : M SearchResponse :=
  let api_key := env_or (getenv "PERPLEXITY_API_KEY")
                        (getenv "VITE_PERPLEXITY_API_KEY") in
  match api_key with
  | Some key =>
      if String.eqb key "" then
        raise (HTTPException 400 "PERPLEXITY_API_KEY not configured")
      else
        try_except
          (response <- http_send
                         (perplexity_request key query_ medical_focus model) ;;
           if negb (resp_status response =? 200)%Z then
             raise (HTTPException (resp_status response) "Perplexity API error")
           else
             data <- lift (response_json response) ;;
             ' (content_, citations_) <- lift (perplexity_normalize data) ;;
             ts <- time_ms ;;
             lift (SearchResponse_new "perplexity" query_ content_ citations_ ts))
          (fun e =>
             match e with
             | RequestError _ =>
                 raise (HTTPException 500
                          ("Perplexity request failed: " ++ str_exn e))
             | _ => raise e
             end)
  | None => raise (HTTPException 400 "PERPLEXITY_API_KEY not configured")
  end.

(** *** Exa *)

Definition exa_request (api_key query_ : string) (max_results_ : Z)
  : HttpRequest :=
  {| req_method := POST;
     req_url := "https://api.exa.ai/search";
     req_headers := [("Authorization", "Bearer " ++ api_key);
                     ("Content-Type", "application/json")];
     req_params := [];
     req_json := Some (JObj [
       ("query", JStr ("medical education " ++ query_));
       ("numResults", JInt max_results_);
       ("useAutoprompt", JBool true);
       ("type", JStr "neural");
       ("contents", JObj [
          ("text", JObj [("maxCharacters", JInt 2000)]);
          ("highlights", JObj [("numSentences", JInt 3)])]);
       ("includeDomains", JArr (map JStr MEDICAL_DOMAINS))]) |}.

(** The source of a search hit: the third piece of its URL split at the
    slashes, or the provider's name when there is no URL. *)
Definition url_source (r : json) (fallback : string) : outcome string :=
  (present <- py_get r "url" JNull ;;
   if truthy present then
     u <- py_get r "url" (JStr "") ;;
     pieces <- py_split_on "/" u ;;
     list_index pieces 2
   else Ok fallback)%exc.

Definition exa_citation (i : nat) (r : json) : outcome Citation :=
  (t <- py_get r "title" (JStr "Untitled") ;;
   src <- url_source r "Exa" ;;
   u <- py_get r "url" (JStr "") ;;
   highlights <- py_get r "highlights" JNull ;;
   sn <- (if truthy highlights then
            hs <- py_get r "highlights" (JArr [JStr ""]) ;; py_index hs 0
          else
            text <- py_get r "text" (JStr "") ;; py_slice_to text 300) ;;
   Citation_new ("exa-" ++ str_nat i) t None (JStr src) None u None sn)%exc.

Definition exa_block (r : json) : outcome string :=
  (t <- py_get r "title" (JStr "Untitled") ;;
   highlights <- py_get r "highlights" JNull ;;
   default <- (if truthy highlights then
                 hs <- py_get r "highlights" (JArr [JStr ""]) ;; py_index hs 0
               else Ok (JStr "")) ;;
   text <- py_get r "text" default ;;
   Ok ("## " ++ py_str (float_repr w) t ++ nl ++ py_str (float_repr w) text))%exc.

(** The normalization of an Exa body: the combined content and the
    citations. *)
Definition exa_normalize (data : json) : outcome (string * list Citation) :=
  (results <- py_get data "results" (JArr []) ;;
   items <- py_iter results ;;
   citations_ <- omap_enum exa_citation 0 items ;;
   blocks <- omap exa_block items ;;
   Ok (join divider blocks, citations_))%exc.

(** [MedicalScraper.search_exa] *)
Definition search_exa (query_ : string) (max_results_ : Z) : M SearchResponse :=
  let api_key := env_or (getenv "EXA_API_KEY") (getenv "VITE_EXA_API_KEY") in
  match api_key with
  | Some key =>
      if String.eqb key "" then
        raise (HTTPException 400 "EXA_API_KEY not configured")
      else
        try_except
          (response <- http_send (exa_request key query_ max_results_) ;;
           if negb (resp_status response =? 200)%Z then
             raise (HTTPException (resp_status response) "Exa API error")
           else
             data <- lift (response_json response) ;;
             ' (content_, citations_) <- lift (exa_normalize data) ;;
             ts <- time_ms ;;
             lift (SearchResponse_new "exa" query_ (JStr content_) citations_ ts))
          (fun e =>
             match e with
             | RequestError _ =>
                 raise (HTTPException 500 ("Exa request failed: " ++ str_exn e))
             | _ => raise e
             end)
  | None => raise (HTTPException 400 "EXA_API_KEY not configured")
  end.

(** *** Tavily *)

Definition tavily_request (api_key query_ : string) (max_results_ : Z)
  : HttpRequest :=
  {| req_method := POST;
     req_url := "https://api.tavily.com/search";
     req_headers := [];
     req_params := [];
     req_json := Some (JObj [
       ("api_key", JStr api_key);
       ("query", JStr (query_ ++ " medical guidelines evidence-based"));
       ("search_depth", JStr "advanced");
       ("include_domains", JArr (map JStr MEDICAL_DOMAINS));
       ("max_results", JInt max_results_);
       ("include_answer", JBool true)]) |}.

Definition tavily_citation (i : nat) (r : json) : outcome Citation :=
  (t <- py_get r "title" (JStr "Untitled") ;;
   src <- url_source r "Tavily" ;;
   u <- py_get r "url" (JStr "") ;;
   body <- py_get r "content" (JStr "") ;;
   sn <- py_slice_to body 300 ;;
   Citation_new ("tavily-" ++ str_nat i) t None (JStr src) None u None sn)%exc.

(** The normalization of a Tavily body: the answer and the citations. *)
Definition tavily_normalize (data : json) : outcome (json * list Citation) :=
  (results <- py_get data "results" (JArr []) ;;
   answer <- py_get data "answer" (JStr "") ;;
   items <- py_iter results ;;
   citations_ <- omap_enum tavily_citation 0 items ;;
   Ok (answer, citations_))%exc.

(** [MedicalScraper.search_tavily] *)
Definition search_tavily (query_ : string) (max_results_ : Z)
  : M SearchResponse :=
  let api_key := env_or (getenv "TAVILY_API_KEY")
                        (getenv "VITE_TAVILY_API_KEY") in
  match api_key with
  | Some key =>
      if String.eqb key "" then
        raise (HTTPException 400 "TAVILY_API_KEY not configured")
      else
        try_except
          (response <- http_send (tavily_request key query_ max_results_) ;;
           if negb (resp_status response =? 200)%Z then
             raise (HTTPException (resp_status response) "Tavily API error")
           else
             data <- lift (response_json response) ;;
             ' (answer, citations_) <- lift (tavily_normalize data) ;;
             ts <- time_ms ;;
             lift (SearchResponse_new "tavily" query_ answer citations_ ts))
          (fun e =>
             match e with
             | RequestError _ =>
                 raise (HTTPException 500
                          ("Tavily request failed: " ++ str_exn e))
             | _ => raise e
             end)
  | None => raise (HTTPException 400 "TAVILY_API_KEY not configured")
  end.

(** *** PubMed *)

Definition pubmed_search_request (query_ : string) (max_results_ : Z)
  : HttpRequest :=
  {| req_method := GET;
     req_url := "https://eutils.ncbi.nlm.nih.gov/entrez/eutils/esearch.fcgi";
     req_headers := [];
     req_params := [("db", JStr "pubmed"); ("term", JStr query_);
                    ("retmax", JInt max_results_); ("retmode", JStr "json")];
     req_json := None |}.

Definition pubmed_fetch_request (ids : list string) : HttpRequest :=
  {| req_method := GET;
     req_url := "https://eutils.ncbi.nlm.nih.gov/entrez/eutils/esummary.fcgi";
     req_headers := [];
     req_params := [("db", JStr "pubmed"); ("id", JStr (join "," ids));
                    ("retmode", JStr "json")];
     req_json := None |}.

(** [search_data.get("esearchresult", {}).get("idlist", [])] *)
Definition pubmed_idlist (search_data : json) : outcome json :=
  (esearchresult <- py_get search_data "esearchresult" (JObj []) ;;
   py_get esearchresult "idlist" (JArr []))%exc.

(** [int(pubdate.split()[0]) if pubdate and pubdate.split()[0].isdigit()
     else None] *)
Definition pubmed_year (pubdate : json) : outcome (option Z) :=
  (if truthy pubdate then
     words <- py_split_ws pubdate ;;
     first <- list_index words 0 ;;
     if isdigit first then Ok (Some (int_of_digits 0 first)) else Ok None
   else Ok None)%exc.

(** One turn of [for pmid in ids]. *)
Definition pubmed_article (result_data : json)
    (acc : list Citation * list string) (pmid_ : string)
  : outcome (list Citation * list string) :=
  (article <- py_get result_data pmid_ (JObj []) ;;
   match article with
   | JObj (_ :: _) =>
       title_ <- py_get article "title" (JStr "Untitled") ;;
       listed <- py_get article "authors" (JArr []) ;;
       leading <- py_slice_to listed 3 ;;
       people <- py_iter leading ;;
       authors_ <- omap (fun a => py_get a "name" (JStr "")) people ;;
       source_ <- py_get article "source" (JStr "") ;;
       pubdate <- py_get article "pubdate" (JStr "") ;;
       year_ <- pubmed_year pubdate ;;
       c <- Citation_new ("pubmed-" ++ pmid_) title_ (Some authors_) source_
              year_ (JStr ("https://pubmed.ncbi.nlm.nih.gov/" ++ pmid_ ++ "/"))
              (Some pmid_) JNull ;;
       let author_str :=
         match authors c with
         | Some (a :: rest) => join ", " (a :: rest) ++ " et al."
         | _ => ""
         end in
       let block := "**" ++ title c ++ "**" ++ nl ++ author_str ++ " - "
                    ++ source c ++ " (" ++ py_str (float_repr w) pubdate ++ ")" in
       Ok (List.app (fst acc) [c], List.app (snd acc) [block])
   | _ => Ok acc
   end)%exc.

(** The normalization of the summaries of the identifiers [ids]. *)
Definition pubmed_normalize (fetch_data : json) (ids : list string)
  : outcome (list Citation * list string) :=
  (result_data <- py_get fetch_data "result" (JObj []) ;;
   ofold (pubmed_article result_data) ids ([], []))%exc.

(** [MedicalScraper.search_pubmed] *)
Definition search_pubmed (query_ : string) (max_results_ : Z)
  : M SearchResponse :=
  try_except
    (search_response <- http_send (pubmed_search_request query_ max_results_) ;;
     search_data <- lift (response_json search_response) ;;
     ids <- lift (pubmed_idlist search_data) ;;
     if negb (truthy ids) then
       ts <- time_ms ;;
       ret {| provider := "pubmed"; sr_query := query_;
              content := "No results found."; citations := [];
              timestamp := ts |}
     else
       id_strings <- lift (py_join_items ids) ;;
       fetch_response <- http_send (pubmed_fetch_request id_strings) ;;
       fetch_data <- lift (response_json fetch_response) ;;
       ' (citations_, content_parts) <-
           lift (pubmed_normalize fetch_data id_strings) ;;
       ts <- time_ms ;;
       ret {| provider := "pubmed"; sr_query := query_;
              content := join (nl ++ nl) content_parts;
              citations := citations_; timestamp := ts |})
    (fun e =>
       raise (HTTPException 500 ("PubMed search failed: " ++ str_exn e))).

(** *** UpToDate *)

Definition result_selectors : list string := [
  "div[class*='search-result']";
  "div[class*='result-item']";
  "a[class*='search-result']";
  "li[class*='search-result']"
].

(** [for selector in result_selectors: results = soup.select(selector);
     if results: break] *)
Fixpoint select_first (soup : string) (selectors : list string) : list Tag :=
  match selectors with
  | [] => []
  | selector :: rest =>
      match soup_select w soup selector with
      | [] => select_first soup rest
      | results => results
      end
  end.

(** [soup.find_all('a', href=test)]: the anchors whose [href] passes. *)
Definition find_all_a (soup : string) (test : string -> bool) : list Tag :=
  filter (fun t => match tag_href t with
                   | Some h => test h
                   | None => false
                   end) (soup_anchors w soup).

Definition uptodate_results (soup : string) (max_results_ : Z) : list Tag :=
  match select_first soup result_selectors with
  | [] => list_slice_to max_results_
            (find_all_a soup (fun x => negb (String.eqb x "")
                                       && contains "/contents/" x))
  | results => results
  end.

Definition absolute (base url_ : string) : string :=
  if negb (String.eqb url_ "") && negb (startswith "http" url_)
  then base ++ url_ else url_.

(** One turn of [for i, result in enumerate(results[:max_results])]. *)
Definition uptodate_hit (i : nat) (result : Tag) : Citation * string :=
  let title_ := match tag_heading result with
                | Some text => text
                | None => "UpToDate Result " ++ str_nat (i + 1)
                end in
  let link := if String.eqb (tag_name result) "a"
              then match tag_href result with Some h => h | None => "" end
              else match tag_link result with Some h => h | None => "" end in
  let url_ := absolute "https://www.uptodate.com" link in
  let snippet_ := str_slice_to 300 (tag_text result) in
  ({| id := "uptodate-" ++ str_nat i; title := str_slice_to 200 title_;
      authors := None; source := "UpToDate"; year := None;
      url := Some url_; pmid := None; snippet := Some snippet_ |},
   "**" ++ title_ ++ "**" ++ nl ++ snippet_).

Fixpoint map_enum {A B} (f : nat -> A -> B) (i : nat) (xs : list A) : list B :=
  match xs with
  | [] => []
  | x :: xs' => f i x :: map_enum f (S i) xs'
  end.

(** The [try] block around the fetch of the first hit's article; its
    value is the new [first_content]. *)
#[warnings="-abstract-large-number"] Definition uptodate_article (target : string) : M string :=
  page_do (Goto target) ;;;
  page_do (WaitForLoadState "networkidle") ;;;
  sleep 2 ;;;
  article_html <- page_content ;;
  article_soup <- lift (BeautifulSoup article_html) ;;
  let main_content :=
    match soup_find_div_class w article_soup
            (fun x => negb (String.eqb x "")
                      && contains "topic-content" (lower x)) with
    | Some m => Some m
    | None => match soup_find w article_soup "article" with
              | Some m => Some m
              | None => soup_find w article_soup "main"
              end
    end in
  match main_content with
  | Some m => ret (str_slice_to 8000 (html_to_markdown m))
  | None => ret ""
  end.

(** [if citations and citations[0].url: try: ... except Exception: print] *)
Definition uptodate_first_content (citations_ : list Citation) : M string :=
  match citations_ with
  | c :: _ =>
      match url c with
      | Some target =>
          if String.eqb target "" then ret ""
          else
            try_except (uptodate_article target)
              (fun e =>
                 print ("Failed to fetch UpToDate article content: "
                        ++ str_exn e) ;;;
                 ret "")
      | None => ret ""
      end
  | [] => ret ""
  end.

(** The search of the first phase: the page of hits, turned into citations
    and snippet blocks. *)
Definition uptodate_hits (query_ : string) (max_results_ : Z)
  : M (list Citation * list string) :=
  let search_url := "https://www.uptodate.com/contents/search?search="
                    ++ replace_space_plus query_ ++ "&source=SEARCH_RESULT" in
  page_do (Goto search_url) ;;;
  page_do (WaitForLoadState "networkidle") ;;;
  sleep 2 ;;;
  content_html <- page_content ;;
  soup <- lift (BeautifulSoup content_html) ;;
  let results := uptodate_results soup max_results_ in
  let hits := map_enum uptodate_hit 0 (list_slice_to max_results_ results) in
  ret (map fst hits, map snd hits).

(** [MedicalScraper.search_uptodate] *)
Definition search_uptodate (query_ : string) (max_results_ : Z)
  : M SearchResponse :=
  s <- get_scraper ;;
  if negb (logged_in_uptodate s) then
    raise (HTTPException 401 "Not logged into UpToDate. Please login first.")
  else
    started <- start_browser true ;;
    if negb started then raise (HTTPException 500 "Browser not available")
    else
      try_except
        (' (citations_, content_parts) <- uptodate_hits query_ max_results_ ;;
         first_content <- uptodate_first_content citations_ ;;
         let combined_content_ :=
           if negb (String.eqb first_content "") then first_content
           else join divider content_parts in
         ts <- time_ms ;;
         ret {| provider := "uptodate"; sr_query := query_;
                content := combined_content_; citations := citations_;
                timestamp := ts |})
        (fun e =>
           raise (HTTPException 500 ("UpToDate search failed: " ++ str_exn e))).

(** *** MKSAP *)

Definition mksap_hit (i : nat) (result : Tag) : Citation * string :=
  let title_ := str_slice_to 200 (tag_text result) in
  let url_ := absolute "https://mksap19.acponline.org"
                (match tag_href result with Some h => h | None => "" end) in
  let snippet_ := match tag_parent_text result with
                  | Some text => str_slice_to 300 text
                  | None => title_
                  end in
  ({| id := "mksap-" ++ str_nat i; title := title_; authors := None;
      source := "MKSAP 19"; year := None; url := Some url_; pmid := None;
      snippet := Some snippet_ |},
   "**" ++ title_ ++ "**" ++ nl ++ snippet_).

(** [MedicalScraper.search_mksap] *)
Definition search_mksap (query_ : string) (max_results_ : Z)
  : M SearchResponse :=
  s <- get_scraper ;;
  if negb (logged_in_mksap s) then
    raise (HTTPException 401 "Not logged into MKSAP. Please login first.")
  else
    started <- start_browser true ;;
    if negb started then raise (HTTPException 500 "Browser not available")
    else
      try_except
        (let search_url := "https://mksap19.acponline.org/search?q="
                           ++ replace_space_plus query_ in
         page_do (Goto search_url) ;;;
         page_do (WaitForLoadState "networkidle") ;;;
         sleep 2 ;;;
         content_html <- page_content ;;
         soup <- lift (BeautifulSoup content_html) ;;
         let results :=
           list_slice_to max_results_
             (find_all_a soup
                (fun x => negb (String.eqb x "")
                          && (contains "section" (lower x)
                              || contains "chapter" (lower x)
                              || contains "question" (lower x)))) in
         let hits := map_enum mksap_hit 0 results in
         ts <- time_ms ;;
         ret {| provider := "mksap"; sr_query := query_;
                content := join divider (map snd hits);
                citations := map fst hits; timestamp := ts |})
        (fun e =>
           raise (HTTPException 500 ("MKSAP search failed: " ++ str_exn e))).

(** *** Endpoints *)

(** [POST /login] *)
Definition endpoint_login (credentials : LoginCredentials) : M json :=
  success <-
    (if String.eqb (target credentials) "uptodate" then
       login_uptodate (username credentials) (password credentials)
     else if String.eqb (target credentials) "mksap" then
       login_mksap (username credentials) (password credentials)
     else raise (HTTPException 400
                   ("Unknown target: " ++ target credentials))) ;;
  if negb success then raise (HTTPException 401 "Login failed")
  else ret (JObj [("status", JStr "logged_in");
                  ("target", JStr (target credentials))]).

(** [POST /search/perplexity] *)
Definition endpoint_search_perplexity (request : SearchRequest)
  : M SearchResponse :=
  search_perplexity (query request) true (perplexity_model request).

(** [POST /search/exa] *)
Definition endpoint_search_exa (request : SearchRequest) : M SearchResponse :=
  search_exa (query request) (max_results request).

(** [POST /search/tavily] *)
Definition endpoint_search_tavily (request : SearchRequest)
  : M SearchResponse :=
  search_tavily (query request) (max_results request).

(** [POST /search/pubmed] *)
Definition endpoint_search_pubmed (request : SearchRequest)
  : M SearchResponse :=
  search_pubmed (query request) (max_results request).

(** [POST /search/uptodate] *)
Definition endpoint_search_uptodate (request : SearchRequest)
  : M SearchResponse :=
  search_uptodate (query request) (max_results request).

(** [POST /search/mksap] *)
Definition endpoint_search_mksap (request : SearchRequest)
  : M SearchResponse :=
  search_mksap (query request) (max_results request).

(** *** Aggregation *)

(** [os.getenv(a) or os.getenv(b)] as a condition. *)
Definition key_configured (a b : string) : bool :=
  env_truthy (env_or (getenv a) (getenv b)).

(** The list [tasks] of [aggregate_search]: the provider's name and the
    search that is run when the task is awaited. *)
Definition aggregate_tasks (request : SearchRequest)
  : list (string * M SearchResponse) :=
  (("pubmed", search_pubmed (query request) (max_results request))
   :: (if key_configured "PERPLEXITY_API_KEY" "VITE_PERPLEXITY_API_KEY"
       then [("perplexity",
              search_perplexity (query request) true (perplexity_model request))]
       else [])
   ++ (if key_configured "EXA_API_KEY" "VITE_EXA_API_KEY"
       then [("exa", search_exa (query request) (max_results request))]
       else [])
   ++ (if key_configured "TAVILY_API_KEY" "VITE_TAVILY_API_KEY"
       then [("tavily", search_tavily (query request) (max_results request))]
       else []))%list.

(** [for provider, task in tasks: try: results[provider] = (await task)
     .model_dump()  except Exception as e: errors[provider] = str(e)].
    The dumped dict has the fields of the response and is kept as the
    response. *)
Fixpoint run_tasks (tasks : list (string * M SearchResponse))
    (results : list (string * SearchResponse))
    (errors_ : list (string * string))
  : M (list (string * SearchResponse) * list (string * string)) :=
  match tasks with
  | [] => ret (results, errors_)
  | (provider_, task) :: rest =>
      ' (results', errors') <-
          try_except
            (result <- task ;; ret (dict_set provider_ result results, errors_))
            (fun e => ret (results, dict_set provider_ (str_exn e) errors_)) ;;
      run_tasks rest results' errors'
  end.

(** The section of [combined_content] of one successful provider. *)
Definition content_section (entry : string * SearchResponse) : list string :=
  if negb (String.eqb (content (snd entry)) "")
  then ["## From " ++ str_title (fst entry) ++ nl ++ nl ++ content (snd entry)]
  else [].

(** [POST /search/aggregate] *)
Definition aggregate_search (request : SearchRequest) : M AggregateResponse :=
  ' (results, errors_) <- run_tasks (aggregate_tasks request) [] [] ;;
  let all_citations_ := flat_map (fun entry => citations (snd entry)) results in
  let all_content := flat_map content_section results in
  ts <- time_ms ;;
  ret {| agg_query := query request;
         sources := results;
         errors := errors_;
         combined_content := join divider all_content;
         all_citations := all_citations_;
         agg_timestamp := ts |}.

End Service.

(** ** Sample worlds *)

(** A process with no API key, an unreachable network, a browser that does
    whatever it is asked and pages with nothing on them. *)
Definition bare_world : World :=
  {| environ := fun _ => None;
     PLAYWRIGHT_AVAILABLE := true;
     SCRAPING_LIBS_AVAILABLE := true;
     clock_ms := fun n => (1700000000000 + Z.of_nat n)%Z;
     random_index := fun _ _ => 0%nat;
     float_repr := fun _ => "0.0";
     http := fun _ _ => Raise (RequestError "All connection attempts failed");
     browser_call := fun _ _ => None;
     browser_is_visible := fun _ _ => Ok false;
     browser_count := fun _ _ => Ok 0%nat;
     browser_content := fun _ => Ok "";
     browser_url := fun _ => "about:blank";
     soup_select := fun _ _ => [];
     soup_anchors := fun _ => [];
     soup_find_div_class := fun _ _ => None;
     soup_find := fun _ _ => None;
     html2text := fun html => html |}.

Definition with_environ (env : string -> option string) (w : World) : World :=
  {| environ := env;
     PLAYWRIGHT_AVAILABLE := PLAYWRIGHT_AVAILABLE w;
     SCRAPING_LIBS_AVAILABLE := SCRAPING_LIBS_AVAILABLE w;
     clock_ms := clock_ms w; random_index := random_index w;
     float_repr := float_repr w; http := http w;
     browser_call := browser_call w;
     browser_is_visible := browser_is_visible w;
     browser_count := browser_count w;
     browser_content := browser_content w; browser_url := browser_url w;
     soup_select := soup_select w; soup_anchors := soup_anchors w;
     soup_find_div_class := soup_find_div_class w; soup_find := soup_find w;
     html2text := html2text w |}.

Definition with_http (peer : nat -> HttpRequest -> outcome HttpResponse)
    (w : World) : World :=
  {| environ := environ w;
     PLAYWRIGHT_AVAILABLE := PLAYWRIGHT_AVAILABLE w;
     SCRAPING_LIBS_AVAILABLE := SCRAPING_LIBS_AVAILABLE w;
     clock_ms := clock_ms w; random_index := random_index w;
     float_repr := float_repr w; http := peer;
     browser_call := browser_call w;
     browser_is_visible := browser_is_visible w;
     browser_count := browser_count w;
     browser_content := browser_content w; browser_url := browser_url w;
     soup_select := soup_select w; soup_anchors := soup_anchors w;
     soup_find_div_class := soup_find_div_class w; soup_find := soup_find w;
     html2text := html2text w |}.

(** Every request is answered with status 200 and the body [body]. *)
Definition answering (body : json) : nat -> HttpRequest -> outcome HttpResponse :=
  fun _ _ => Ok {| resp_status := 200; resp_json := Some body |}.

(** An environment with the single variable [name] set to [value]. *)
Definition env_with (name value : string) : string -> option string :=
  fun n => if String.eqb n name then Some value else None.

(** A fresh process: a new scraper object and no effect issued yet. *)
Definition fresh : Proc := {| scraper := new_scraper; trace := [] |}.

Definition sample_request : SearchRequest :=
  {| query := "sepsis"; max_results := 5; include_domains := None;
     perplexity_model := "sonar-pro" |}.

(** The request [request] with another [max_results]. *)
Definition with_max_results (n : Z) (request : SearchRequest) : SearchRequest :=
  {| query := query request; max_results := n;
     include_domains := include_domains request;
     perplexity_model := perplexity_model request |}.

(** ** Notions used by the statements *)

(** The two session flags of a process. *)
Definition flags (p : Proc) : bool * bool :=
  (logged_in_uptodate (scraper p), logged_in_mksap (scraper p)).

(** No element of the page matches any selector. *)
Definition no_selector_matches (w : World) : Prop :=
  forall n selector, browser_count w n selector = Ok 0%nat.

(** Whether an event enters text into the page or clicks on it. *)
Definition is_input (e : Event) : bool :=
  match e with
  | EvBrowser (Fill _ _) | EvBrowser (Click _) | EvBrowser (Press _ _) => true
  | _ => false
  end.

(** A computation that leaves the session flags as they are, whatever its
    outcome. *)
Definition keeps_flags {A} (c : M A) : Prop :=
  forall p, flags (snd (c p)) = flags p.

(** A computation that returns normally from every state. *)
Definition total {A} (c : M A) : Prop :=
  forall p, exists a, fst (c p) = Ok a.

(** What a [try] block of a login does to the flags: [set] them when it
    returns, and then it returns [True]; nothing when it raises. *)
Definition login_body (set : bool * bool -> bool * bool) (body : M bool) : Prop :=
  forall p,
    match body p with
    | (Ok b, p') => b = true /\ flags p' = set (flags p)
    | (Raise _, p') => flags p' = flags p
    end.

(** A process whose UpToDate session is open. *)
Definition signed_in_uptodate : Proc :=
  {| scraper := with_logged_in_uptodate new_scraper; trace := [] |}.

Definition sepsis_hit : Tag :=
  {| tag_name := "div"; tag_href := None;
     tag_heading := Some "Sepsis in adults";
     tag_link := Some "/contents/sepsis-in-adults";
     tag_text := "Sepsis in adults: evaluation and management";
     tag_parent_text := None |}.

(** UpToDate lists one hit for every search and times out on the page of
    the article. *)
Definition article_timeout_world : World :=
  {| environ := fun _ => None;
     PLAYWRIGHT_AVAILABLE := true;
     SCRAPING_LIBS_AVAILABLE := true;
     clock_ms := fun n => (1700000000000 + Z.of_nat n)%Z;
     random_index := fun _ _ => 0%nat;
     float_repr := fun _ => "0.0";
     http := fun _ _ => Raise (RequestError "All connection attempts failed");
     browser_call := fun _ c =>
       match c with
       | Goto target =>
           if String.eqb target "https://www.uptodate.com/contents/sepsis-in-adults"
           then Some (PyError "TimeoutError" "Timeout 30000ms exceeded.")
           else None
       | _ => None
       end;
     browser_is_visible := fun _ _ => Ok false;
     browser_count := fun _ _ => Ok 0%nat;
     browser_content := fun _ => Ok "<html></html>";
     browser_url := fun _ => "about:blank";
     soup_select := fun _ selector =>
       if String.eqb selector "div[class*='search-result']" then [sepsis_hit]
       else [];
     soup_anchors := fun _ => [];
     soup_find_div_class := fun _ _ => None;
     soup_find := fun _ _ => None;
     html2text := fun html => html |}.

(** The providers that [aggregate_search] attempts, in order. *)
Definition attempted (w : World) (request : SearchRequest) : list string :=
  map fst (aggregate_tasks w request).

(** The eligibility rule in the words of the specification, to be compared
    with [attempted]: PubMed always; Perplexity, Exa and Tavily when their
    key is configured; UpToDate and MKSAP when their session is signed in. *)
Definition spec_eligible (w : World) (s : Scraper) (name : string) : bool :=
  if String.eqb name "pubmed" then true
  else if String.eqb name "perplexity" then
    key_configured w "PERPLEXITY_API_KEY" "VITE_PERPLEXITY_API_KEY"
  else if String.eqb name "exa" then
    key_configured w "EXA_API_KEY" "VITE_EXA_API_KEY"
  else if String.eqb name "tavily" then
    key_configured w "TAVILY_API_KEY" "VITE_TAVILY_API_KEY"
  else if String.eqb name "uptodate" then logged_in_uptodate s
  else if String.eqb name "mksap" then logged_in_mksap s
  else false.

(** The prefix under which a provider synthesizes the ids of its
    citations. *)
Definition id_prefix (name : string) : string :=
  if String.eqb name "pubmed" then "pubmed-"
  else if String.eqb name "perplexity" then "pplx-"
  else if String.eqb name "exa" then "exa-"
  else if String.eqb name "tavily" then "tavily-"
  else "".

(** The citation ids of a response are pairwise distinct and carry the
    prefix of the provider [name]. *)
Definition namespaced (name : string) (r : SearchResponse) : Prop :=
  NoDup (map id (citations r))
  /\ Forall (fun c => exists rest, id c = id_prefix name ++ rest) (citations r).

(** The identifiers that the identifier search of a PubMed call started in
    [p] is answered with; none when the call does not get that far. *)
Definition pubmed_ids (w : World) (query_ : string) (max_results_ : Z)
    (p : Proc) : list string :=
  match http w (List.length (trace p))
             (pubmed_search_request query_ max_results_) with
  | Ok response =>
      match obind (response_json response) pubmed_idlist with
      | Ok ids => if truthy ids
                  then match py_join_items ids with
                       | Ok id_strings => id_strings
                       | Raise _ => []
                       end
                  else []
      | Raise _ => []
      end
  | Raise _ => []
  end.

(** PubMed answers the identifier search with [ids] and knows the article
    31452104; Perplexity is configured and cites two pages. *)
Definition literature_peer (ids : list string)
  : nat -> HttpRequest -> outcome HttpResponse :=
  fun _ r =>
    let body :=
      if String.eqb (req_url r)
           "https://eutils.ncbi.nlm.nih.gov/entrez/eutils/esearch.fcgi"
      then JObj [("esearchresult", JObj [("idlist", JArr (map JStr ids))])]
      else if String.eqb (req_url r)
                "https://eutils.ncbi.nlm.nih.gov/entrez/eutils/esummary.fcgi"
      then JObj [("result",
                  JObj [("uids", JArr (map JStr ids));
                        ("31452104",
                         JObj [("title", JStr "Sepsis and septic shock");
                               ("source", JStr "Lancet");
                               ("pubdate", JStr "2018 Jul 7");
                               ("authors",
                                JArr [JObj [("name", JStr "Cecconi M")]])])])]
      else JObj [("choices",
                  JArr [JObj [("message",
                               JObj [("content", JStr "Sepsis is ...")])]]);
                 ("citations",
                  JArr [JStr "https://www.nejm.org/a";
                        JStr "https://jamanetwork.com/b"])] in
    Ok {| resp_status := 200; resp_json := Some body |}.

Definition literature_world (ids : list string) : World :=
  with_environ (env_with "PERPLEXITY_API_KEY" "key")
    (with_http (literature_peer ids) bare_world).

(** ** Notions used by the further properties *)

(** The process [p] after it has issued the events [events]. *)
Definition after (p : Proc) (events : list Event) : Proc :=
  {| scraper := scraper p; trace := (trace p ++ events)%list |}.

(** The value of [os.getenv(a) or os.getenv(b)] when it is a usable key. *)
Definition configured_key (w : World) (a b : string) : option string :=
  match env_or (environ w a) (environ w b) with
  | Some key => if String.eqb key "" then None else Some key
  | None => None
  end.

(** What [except httpx.RequestError as e: raise HTTPException(500,
    label + str(e))] makes of an outcome. *)
Definition translate_transport {A} (label : string) (o : outcome A) : outcome A :=
  match o with
  | Raise (RequestError message) =>
      Raise (HTTPException 500 (label ++ message))
  | _ => o
  end.

(** Every request is answered with the status [status] and the body
    [body]. *)
Definition answering_with (status : Z) (body : json)
  : nat -> HttpRequest -> outcome HttpResponse :=
  fun _ _ => Ok {| resp_status := status; resp_json := Some body |}.

(** What [except Exception as e: raise HTTPException(500, label + str(e))]
    makes of an outcome. *)
Definition wrap_500 {A} (label : string) (o : outcome A) : outcome A :=
  match o with
  | Raise e => Raise (HTTPException 500 (label ++ str_exn e))
  | Ok a => Ok a
  end.

(** The world [w] with the status of every HTTP answer replaced by
    [status]. *)
Definition with_every_status (status : Z) (w : World) : World :=
  with_http (fun n r =>
               match http w n r with
               | Ok response =>
                   Ok {| resp_status := status;
                         resp_json := resp_json response |}
               | Raise e => Raise e
               end) w.

(** A computation that leaves the scraper object alone and whose only
    effects are HTTP requests, at most [limit] of them. *)
Definition only_requests {A} (limit : nat) (c : M A) : Prop :=
  forall p, exists requests,
    snd (c p) = after p (map EvHttp requests)
    /\ (List.length requests <= limit)%nat.

(** [sub] is [l] with some elements left out, the order kept. *)
Inductive subsequence {A : Type} : list A -> list A -> Prop :=
| subsequence_nil : subsequence [] []
| subsequence_skip x sub l : subsequence sub l -> subsequence sub (x :: l)
| subsequence_take x sub l : subsequence sub l -> subsequence (x :: sub) (x :: l).

(** The number of occurrences of the character [c] in [s]. *)
Fixpoint count_char (c : ascii) (s : string) : nat :=
  match s with
  | EmptyString => 0
  | String x s' => (if Ascii.eqb x c then 1 else 0) + count_char c s'
  end.
(** The citation Perplexity builds from the link at position [i]. *)
Definition link_citation (i : nat) (link : string) : Citation :=
  {| id := "pplx-" ++ str_nat i; title := link; authors := None;
     source := "Perplexity"; year := None; url := Some link; pmid := None;
     snippet := None |}.

(** What every citation of PubMed looks like: built around one identifier,
    with at most three authors and no snippet. *)
Definition pubmed_shaped (c : Citation) : Prop :=
  exists x,
    pmid c = Some x
    /\ id c = "pubmed-" ++ x
    /\ url c = Some ("https://pubmed.ncbi.nlm.nih.gov/" ++ x ++ "/")
    /\ snippet c = None
    /\ exists names, authors c = Some names /\ (List.length names <= 3)%nat.

(** Whether the summaries [result_data] hold a non-empty dict for the
    identifier [x]. *)
Definition has_summary (result_data : json) (x : string) : bool :=
  match py_get result_data x (JObj []) with
  | Ok (JObj (_ :: _)) => true
  | _ => false
  end.

(** What every citation of UpToDate and of MKSAP looks like: the site as
    source, a title of at most 200 and a snippet of at most 300 characters,
    a URL that is empty or absolute, and nothing else. *)
Definition site_shaped (site : string) (c : Citation) : Prop :=
  source c = site
  /\ (String.length (title c) <= 200)%nat
  /\ (exists u, url c = Some u /\ (u = "" \/ startswith "http" u = true))
  /\ (exists s, snippet c = Some s /\ (String.length s <= 300)%nat)
  /\ authors c = None /\ year c = None /\ pmid c = None.

(** UpToDate lists one hit for every search and serves the article. *)
Definition article_world : World :=
  {| environ := fun _ => None;
     PLAYWRIGHT_AVAILABLE := true;
     SCRAPING_LIBS_AVAILABLE := true;
     clock_ms := fun n => (1700000000000 + Z.of_nat n)%Z;
     random_index := fun _ _ => 0%nat;
     float_repr := fun _ => "0.0";
     http := fun _ _ => Raise (RequestError "All connection attempts failed");
     browser_call := fun _ _ => None;
     browser_is_visible := fun _ _ => Ok false;
     browser_count := fun _ _ => Ok 0%nat;
     browser_content := fun _ => Ok "<html></html>";
     browser_url := fun _ => "about:blank";
     soup_select := fun _ selector =>
       if String.eqb selector "div[class*='search-result']" then [sepsis_hit]
       else [];
     soup_anchors := fun _ => [];
     soup_find_div_class := fun _ _ => None;
     soup_find := fun _ name =>
       if String.eqb name "article"
       then Some "<article>Sepsis is a syndrome.</article>" else None;
     html2text := fun html => html |}.

(** The launch of the browser works and the opening of a context fails. *)
Definition context_failure_world : World :=
  {| environ := fun _ => None;
     PLAYWRIGHT_AVAILABLE := true;
     SCRAPING_LIBS_AVAILABLE := true;
     clock_ms := fun n => (1700000000000 + Z.of_nat n)%Z;
     random_index := fun _ _ => 0%nat;
     float_repr := fun _ => "0.0";
     http := fun _ _ => Raise (RequestError "All connection attempts failed");
     browser_call := fun _ c =>
       match c with
       | NewContext _ => Some (PyError "Error" "Target closed")
       | _ => None
       end;
     browser_is_visible := fun _ _ => Ok false;
     browser_count := fun _ _ => Ok 0%nat;
     browser_content := fun _ => Ok "";
     browser_url := fun _ => "about:blank";
     soup_select := fun _ _ => [];
     soup_anchors := fun _ => [];
     soup_find_div_class := fun _ _ => None;
     soup_find := fun _ _ => None;
     html2text := fun html => html |}.

(** The dict [/login] answers with on success. *)
Definition logged_in_answer (credentials : LoginCredentials) : json :=
  JObj [("status", JStr "logged_in"); ("target", JStr (target credentials))].

(** A computation whose whole effect on the process is to append events to
    the trace: the attributes of the scraper are what they were. *)
Definition appends {A} (c : M A) : Prop :=
  forall p, exists events, snd (c p) = after p events.

(** What a [try] block of a login does to the scraper object: [set] its
    flag when it returns, nothing when it raises. *)
Definition login_sets (set : Scraper -> Scraper) (body : M bool) : Prop :=
  forall p,
    match body p with
    | (Ok _, p') => scraper p' = set (scraper p)
    | (Raise _, p') => scraper p' = scraper p
    end.

(** The address [search_uptodate] opens. *)
Definition uptodate_search_url (query_ : string) : string :=
  "https://www.uptodate.com/contents/search?search="
  ++ replace_space_plus query_ ++ "&source=SEARCH_RESULT".

(** The address [search_mksap] opens. *)
Definition mksap_search_url (query_ : string) : string :=
  "https://mksap19.acponline.org/search?q=" ++ replace_space_plus query_.

(** An exception is the 500 error whose detail starts with [label]. *)
Definition is_500 (label : string) (e : exn) : Prop :=
  exists message, e = HTTPException 500 (label ++ message).

(** The first thing [c] does from [p] is [e]. *)
Definition begins {A} (e : Event) (c : M A) (p : Proc) : Prop :=
  exists rest, snd (c p) = after p (e :: rest).

(** ** Scraping of a page *)

(** [ScrapeRequest] *)
Record ScrapeRequest := {
  request_url : string;
  use_login : bool;
  extract_related : bool
}.

(** What [scrape_url] reads off the soup of a page once the [script],
    [style], [nav], [footer], [header] and [aside] elements are removed. *)
Record Scraped := {
  page_h1 : option string;              (* get_text(strip=True) of find('h1') *)
  page_title : option (option string);  (* soup.title, and its .string *)
  page_source : string;                 (* str(soup) *)
  page_references : list Tag            (* find_all(['cite', 'a'], class_=...) *)
}.

(** [await asyncio.sleep(random.uniform(a, b))] *)
Definition sleep_uniform (a b : Z) : M unit := ret tt.

(** One turn of [for i, ref in enumerate(refs[:20])]. *)
Definition scrape_citation (url_ : string) (i : nat) (ref : Tag) : json :=
  JObj [("id", JStr ("ref-" ++ str_nat i));
        ("title", JStr (str_slice_to 200 (tag_text ref)));
        ("source", JStr url_);
        ("url", JStr (match tag_href ref with Some h => h | None => "" end))].

Section Scraping.
Variable w : World.
Variable cleaned : string -> Scraped.
Local Open Scope proc_scope.

(** [MedicalScraper.scrape_url] *)
Definition scrape_url (url_ : string) : M json :=
  started <- start_browser w true ;;
  if negb started then raise (HTTPException 500 "Browser not available")
  else
    try_except
      (sleep_uniform 1 3 ;;;
       page_do w (Goto url_) ;;;
       page_do w (WaitForLoadState "domcontentloaded") ;;;
       sleep 2 ;;;
       content_html <- page_content w ;;
       soup <- lift (BeautifulSoup w content_html) ;;
       let soup := cleaned soup in
       let title_ :=
         match page_h1 soup with
         | Some text => text
         | None => match page_title soup with
                   | Some (Some s) => s
                   | _ => ""
                   end
         end in
       let markdown := html_to_markdown w (page_source soup) in
       let citations_ :=
         map_enum (scrape_citation url_) 0
                  (list_slice_to 20 (page_references soup)) in
       ret (JObj [("title", JStr title_);
                  ("content", JStr markdown);
                  ("citations", JArr citations_);
                  ("url", JStr url_)]))
      (fun e => raise (HTTPException 500 ("Scraping failed: " ++ str_exn e))).

(** [POST /scrape] *)
Definition endpoint_scrape (request : ScrapeRequest) : M json :=
  scrape_url (request_url request).

End Scraping.

(** The [i]-th entry of the citations of a scraped page. *)
Definition reference_shaped (url_ : string) (i : nat) (c : json) : Prop :=
  exists title_ href,
    c = JObj [("id", JStr ("ref-" ++ str_nat i)); ("title", JStr title_);
              ("source", JStr url_); ("url", JStr href)]
    /\ (String.length title_ <= 200)%nat.

(** A page with a heading and two marked references. *)
Definition sample_page (html : string) : Scraped :=
  {| page_h1 := Some "Sepsis";
     page_title := Some (Some "Sepsis | Example");
     page_source := html;
     page_references := [
       {| tag_name := "a"; tag_href := Some "#ref1"; tag_heading := None;
          tag_link := None; tag_text := "Singer M, et al. JAMA 2016";
          tag_parent_text := None |};
       {| tag_name := "cite"; tag_href := None; tag_heading := None;
          tag_link := None; tag_text := "Evans L, et al. Crit Care Med 2021";
          tag_parent_text := None |}] |}.

(** * Verification *)

(** ** Checks of the primitives on literals *)

Example split_on_url :
  split_on "/" "https://nejm.org/a" = ["https:"; ""; "nejm.org"; "a"]
  /\ split_on "/" "example.com" = ["example.com"]
  /\ split_on "/" "" = [""].
Proof. repeat split. Qed.

Example split_ws_pubdate :
  split_ws "  2018 Jul 7 " = ["2018"; "Jul"; "7"] /\ split_ws "   " = [].
Proof. repeat split. Qed.

Example str_title_provider :
  str_title "pubmed" = "Pubmed" /\ str_title "mksap 19 x-ray" = "Mksap 19 X-Ray".
Proof. repeat split. Qed.

Example list_slice_to_bounds :
  list_slice_to 2 [1; 2; 3]%nat = [1; 2]%nat
  /\ list_slice_to (-1) [1; 2; 3]%nat = [1; 2]%nat
  /\ list_slice_to (-5) [1; 2; 3]%nat = [].
Proof. repeat split. Qed.

Example unknown_login_target :
  fst (endpoint_login bare_world
         {| username := "user"; password := "secret"; target := "other" |} fresh)
  = Raise (HTTPException 400 "Unknown target: other").
Proof. vm_compute. reflexivity. Qed.

(** ** Perplexity model tiers *)

(** C9.  The three Perplexity tiers have pairwise distinct system prompts
    (with and without the medical focus); the reasoning tier samples at 0.1,
    strictly below the 0.2 of the other two; a model name that is none of the
    three gets the prompt of [sonar-pro]; the prompt and the temperature are
    what the request carries upstream. *)
Theorem C9_perplexity_model_tiers :
  forall (medical_focus : bool) (api_key query_ : string),
    let fast := "sonar-pro" in
    let reasoning := "sonar-reasoning-pro" in
    let research := "sonar-deep-research" in
    (system_prompt medical_focus fast <> system_prompt medical_focus reasoning
     /\ system_prompt medical_focus fast <> system_prompt medical_focus research
     /\ system_prompt medical_focus reasoning
        <> system_prompt medical_focus research)
    /\ (temperature reasoning = (1 # 10)%Q
        /\ temperature fast = (2 # 10)%Q
        /\ temperature research = (2 # 10)%Q
        /\ (temperature reasoning < temperature fast)%Q
        /\ (temperature reasoning < temperature research)%Q)
    /\ (forall model,
          model <> fast -> model <> reasoning -> model <> research ->
          system_prompt medical_focus model = system_prompt medical_focus fast)
    /\ (forall model,
          exists rest,
            req_json (perplexity_request api_key query_ medical_focus model)
            = Some (JObj (("model", JStr model)
                          :: ("messages",
                              JArr [JObj [("role", JStr "system");
                                          ("content",
                                           JStr (system_prompt medical_focus model))];
                                    JObj [("role", JStr "user");
                                          ("content", JStr query_)]])
                          :: ("temperature", JFloat (temperature model))
                          :: rest))).
Proof.
  intros medical_focus api_key query_ fast reasoning research.
  repeat split.
  - destruct medical_focus; vm_compute; discriminate.
  - destruct medical_focus; vm_compute; discriminate.
  - destruct medical_focus; vm_compute; discriminate.
  - intros model Hf Hr Hd.
    unfold system_prompt, system_prompts; cbn [assoc].
    destruct (String.eqb_spec model "sonar-pro"); [contradiction |].
    destruct (String.eqb_spec model "sonar-reasoning-pro"); [contradiction |].
    destruct (String.eqb_spec model "sonar-deep-research"); [contradiction |].
    reflexivity.
  - intros model. eexists. reflexivity.
Qed.

(** C9 at a model name that is none of the three tiers. *)
Lemma C9_perplexity_tiers_witness :
  system_prompt true "sonar" = system_prompt true "sonar-pro".
Proof.
  apply (proj1 (proj2 (proj2 (C9_perplexity_model_tiers true "key" "sepsis"))));
    discriminate.
Defined.

(** ** Running the monad *)

Lemma bind_ok_inv {A B} (c : M A) (k : A -> M B) p b p' :
  bind c k p = (Ok b, p') ->
  exists a p1, c p = (Ok a, p1) /\ k a p1 = (Ok b, p').
Proof.
  unfold bind. destruct (c p) as [[a | e] p1]; intros H.
  - exists a, p1. auto.
  - discriminate.
Qed.

Lemma bind_step {A B} (c : M A) (k : A -> M B) p a p1 :
  c p = (Ok a, p1) -> bind c k p = k a p1.
Proof. unfold bind. intros ->. reflexivity. Qed.

Lemma try_except_raise {A} (c : M A) (h : exn -> M A) p e p1 :
  c p = (Raise e, p1) -> try_except c h p = h e p1.
Proof. unfold try_except. intros ->. reflexivity. Qed.

(** ** Result normalization on a URL without a scheme *)

(** C5.  The Exa and the Tavily normalization raise [IndexError] on a
    well-formed body whose only hit has the URL [example.com]: the URL
    splits at the slashes into one piece and the code takes the third.
    The exception is not a transport error, so [search_exa] and
    [search_tavily] let it through. *)
Theorem C5_schemeless_url_raises :
  let hit := JObj [("title", JStr "Sepsis"); ("url", JStr "example.com")] in
  let body := JObj [("results", JArr [hit])] in
  let index_error := PyError "IndexError" "list index out of range" in
  (forall w, exa_normalize w body = Raise index_error)
  /\ tavily_normalize body = Raise index_error
  /\ fst (search_exa
            (with_environ (env_with "EXA_API_KEY" "key")
               (with_http (answering body) bare_world)) "sepsis" 5 fresh)
     = Raise index_error
  /\ fst (search_tavily
            (with_environ (env_with "TAVILY_API_KEY" "key")
               (with_http (answering body) bare_world)) "sepsis" 5 fresh)
     = Raise index_error.
Proof.
  cbv zeta. repeat split.
Qed.

(** ** The searches that need a session *)

(** C6.  With the session flag of the target unset, [search_uptodate] and
    [search_mksap] raise the 401 error and leave the process as it was: the
    trace has no new event, so no browser call and no request was issued. *)
Theorem C6_unauthenticated_search_is_rejected :
  forall w query_ max_results_ p,
    (logged_in_uptodate (scraper p) = false ->
     search_uptodate w query_ max_results_ p
     = (Raise (HTTPException 401
                 "Not logged into UpToDate. Please login first."), p))
    /\ (logged_in_mksap (scraper p) = false ->
        search_mksap w query_ max_results_ p
        = (Raise (HTTPException 401
                    "Not logged into MKSAP. Please login first."), p)).
Proof.
  intros w query_ max_results_ p. split; intros H.
  - unfold search_uptodate, bind, get_scraper. rewrite H. reflexivity.
  - unfold search_mksap, bind, get_scraper. rewrite H. reflexivity.
Qed.

Lemma C6_unauthenticated_search_witness :
  search_uptodate bare_world "sepsis" 5 fresh
  = (Raise (HTTPException 401
              "Not logged into UpToDate. Please login first."), fresh)
  /\ search_mksap bare_world "sepsis" 5 fresh
     = (Raise (HTTPException 401
                 "Not logged into MKSAP. Please login first."), fresh).
Proof.
  split.
  - apply (proj1 (C6_unauthenticated_search_is_rejected
                    bare_world "sepsis" 5 fresh)). reflexivity.
  - apply (proj2 (C6_unauthenticated_search_is_rejected
                    bare_world "sepsis" 5 fresh)). reflexivity.
Defined.

(** ** PubMed with no identifier *)

(** C7.  When the identifier search is answered with a body whose id list
    is empty, [search_pubmed] returns the response with the content
    [No results found.] and no citation, and the only effect it issued is
    the identifier request: the summary request is never sent. *)
Theorem C7_pubmed_no_identifier :
  forall w query_ max_results_ p response body,
    http w (List.length (trace p)) (pubmed_search_request query_ max_results_)
    = Ok response ->
    resp_json response = Some body ->
    pubmed_idlist body = Ok (JArr []) ->
    search_pubmed w query_ max_results_ p
    = (Ok {| provider := "pubmed"; sr_query := query_;
             content := "No results found."; citations := [];
             timestamp := clock_ms w (S (List.length (trace p))) |},
       {| scraper := scraper p;
          trace := (trace p
                    ++ [EvHttp (pubmed_search_request query_ max_results_)])%list |}).
Proof.
  intros w query_ max_results_ p response body Hhttp Hjson Hids.
  unfold search_pubmed, try_except, bind, http_send, now, emit, lift, bind,
    response_json, time_ms, now, ret.
  cbn [trace scraper]. rewrite Hhttp, Hjson, Hids. cbn.
  rewrite length_app. cbn. rewrite Nat.add_1_r. reflexivity.
Qed.

(** C7 at a concrete answer of the identifier search. *)
Lemma C7_pubmed_no_identifier_witness :
  let body := JObj [("esearchresult", JObj [("count", JStr "0"); ("idlist", JArr [])])] in
  let w := with_http (answering body) bare_world in
  search_pubmed w "sepsis" 5 fresh
  = (Ok {| provider := "pubmed"; sr_query := "sepsis";
           content := "No results found."; citations := [];
           timestamp := clock_ms w 1 |},
     {| scraper := new_scraper;
        trace := [EvHttp (pubmed_search_request "sepsis" 5)] |}).
Proof.
  intros body w.
  apply (C7_pubmed_no_identifier w "sepsis" 5 fresh
           (response := {| resp_status := 200; resp_json := Some body |})
           (body := body)); reflexivity.
Defined.

(** ** Perplexity and the result count *)


(** ** Perplexity and the result count *)

Lemma omap_enum_length {A B} (f : nat -> A -> outcome B) xs :
  forall i ys, omap_enum f i xs = Ok ys -> List.length ys = List.length xs.
Proof.
  induction xs as [| x xs IH]; intros i ys H; cbn in H.
  - injection H as <-. reflexivity.
  - destruct (f i x) as [y | e]; cbn in H; [| discriminate].
    destruct (omap_enum f (S i) xs) as [ys' | e] eqn:E; cbn in H; [| discriminate].
    injection H as <-. cbn. f_equal. eapply IH. exact E.
Qed.

Lemma perplexity_citations_of_links (link : string) n :
  forall i, exists cs,
    omap_enum perplexity_citation i (repeat (JStr link) n) = Ok cs.
Proof.
  induction n as [| n IH]; intros i; cbn.
  - eexists. reflexivity.
  - destruct (IH (S i)) as [cs ->]. cbn. eexists. reflexivity.
Qed.


(** Unfold the plumbing of the monad and reduce what has become a redex. *)
Ltac mrun :=
  cbv beta iota zeta delta
    [bind try_except lift ret raise now emit print modify sleep time_ms
     http_send get_scraper set_scraper];
  cbn [trace scraper fst snd obind].

(** A run of [search_perplexity] in which everything goes well. *)
Lemma search_perplexity_ok w query_ medical_focus model p key response data
      answer cs :
  env_or (environ w "PERPLEXITY_API_KEY") (environ w "VITE_PERPLEXITY_API_KEY")
  = Some key ->
  key <> "" ->
  http w (List.length (trace p))
       (perplexity_request key query_ medical_focus model) = Ok response ->
  resp_status response = 200%Z ->
  resp_json response = Some data ->
  perplexity_normalize data = Ok (JStr answer, cs) ->
  fst (search_perplexity w query_ medical_focus model p)
  = Ok {| provider := "perplexity"; sr_query := query_; content := answer;
          citations := cs;
          timestamp := clock_ms w (S (List.length (trace p))) |}.
Proof.
  intros Hkey Hne Hhttp Hstatus Hjson Hnorm.
  unfold search_perplexity, getenv. rewrite Hkey.
  destruct (String.eqb_spec key ""); [contradiction |].
  mrun. rewrite Hhttp. mrun. rewrite Hstatus. cbn [negb Z.eqb Pos.eqb].
  unfold response_json. rewrite Hjson. mrun. rewrite Hnorm. mrun.
  cbn [SearchResponse_new validate_str obind fst].
  rewrite length_app. cbn [List.length]. rewrite Nat.add_1_r. reflexivity.
Qed.

(** C10.  The Perplexity endpoint does not look at [max_results]: its run
    is the same for every value of it; the request body has the five keys
    model, messages, temperature, return_citations and search_domain_filter
    and none for a result count; the normalization returns one citation per
    upstream citation, so for every request and every [n] some upstream
    answer makes the result carry [n] citations.  The Exa, Tavily and PubMed
    requests carry [max_results] as numResults, max_results and retmax. *)
Theorem C10_perplexity_ignores_max_results :
  (forall w request n,
      endpoint_search_perplexity w (with_max_results n request)
      = endpoint_search_perplexity w request)
  /\ (forall api_key query_ medical_focus model,
        exists body,
          req_json (perplexity_request api_key query_ medical_focus model)
          = Some (JObj body)
          /\ keys body = ["model"; "messages"; "temperature";
                          "return_citations"; "search_domain_filter"])
  /\ (forall data answer cs raw items,
        perplexity_normalize data = Ok (answer, cs) ->
        py_get data "citations" (JArr []) = Ok raw ->
        py_iter raw = Ok items ->
        List.length cs = List.length items)
  /\ (forall request (n : nat),
        let body := JObj [("citations", JArr (repeat (JStr "https://nejm.org/a") n))] in
        let w := with_environ (env_with "PERPLEXITY_API_KEY" "key")
                   (with_http (answering body) bare_world) in
        exists response,
          fst (endpoint_search_perplexity w request fresh) = Ok response
          /\ List.length (citations response) = n)
  /\ (forall api_key query_ n,
        (exists body,
            req_json (exa_request api_key query_ n) = Some (JObj body)
            /\ assoc "numResults" body = Some (JInt n))
        /\ (exists body,
               req_json (tavily_request api_key query_ n) = Some (JObj body)
               /\ assoc "max_results" body = Some (JInt n))
        /\ assoc "retmax" (req_params (pubmed_search_request query_ n))
           = Some (JInt n)).
Proof.
  split; [| split; [| split; [| split]]].
  - intros w request n. reflexivity.
  - intros. eexists. split; reflexivity.
  - intros data answer cs raw items Hn Hraw Hitems.
    unfold perplexity_normalize in Hn.
    destruct (py_get data "choices" (JArr [JObj []])) as [choices | e];
      cbn [obind] in Hn; [| discriminate].
    destruct (py_index choices 0) as [first | e]; cbn [obind] in Hn; [| discriminate].
    destruct (py_get first "message" (JObj [])) as [message | e];
      cbn [obind] in Hn; [| discriminate].
    destruct (py_get message "content" (JStr "")) as [content_ | e];
      cbn [obind] in Hn; [| discriminate].
    rewrite Hraw in Hn; cbn [obind] in Hn. rewrite Hitems in Hn; cbn [obind] in Hn.
    destruct (omap_enum perplexity_citation 0 items) as [cs' | e] eqn:E;
      cbn [obind] in Hn; [| discriminate].
    injection Hn as _ <-. eapply omap_enum_length. exact E.
  - intros request n body w.
    destruct (perplexity_citations_of_links "https://nejm.org/a" n 0) as [cs Hcs].
    exists {| provider := "perplexity"; sr_query := query request; content := "";
              citations := cs; timestamp := clock_ms w 1 |}.
    split.
    + unfold endpoint_search_perplexity.
      apply (search_perplexity_ok w (query request) true
               (perplexity_model request) fresh (key := "key")
               (response := {| resp_status := 200; resp_json := Some body |})
               (data := body));
        try reflexivity; try discriminate.
      unfold perplexity_normalize, body.
      cbn [py_get assoc String.eqb Ascii.eqb Bool.eqb obind py_index nth_error
           py_iter].
      rewrite Hcs. reflexivity.
    + cbn [citations]. apply omap_enum_length in Hcs. rewrite Hcs.
      apply repeat_length.
  - intros api_key query_ n. split; [| split].
    + eexists. split; reflexivity.
    + eexists. split; reflexivity.
    + reflexivity.
Qed.


(** C10 at a body with three citations. *)
Lemma C10_perplexity_witness :
  let data := JObj [("citations", JArr [JStr "a"; JStr "b"; JStr "c"])] in
  exists cs,
    perplexity_normalize data = Ok (JStr "", cs) /\ List.length cs = 3%nat.
Proof.
  intros data. eexists. split.
  - vm_compute. reflexivity.
  - eapply (proj1 (proj2 (proj2 C10_perplexity_ignores_max_results))
              data (JStr "") _ (JArr [JStr "a"; JStr "b"; JStr "c"])
              [JStr "a"; JStr "b"; JStr "c"]); reflexivity.
Defined.

(** ** Logins *)

Lemma keeps_ret {A} (a : A) : keeps_flags (ret a).
Proof. intros p. reflexivity. Qed.

Lemma keeps_lift {A} (o : outcome A) : keeps_flags (lift o).
Proof. intros p. reflexivity. Qed.

Lemma keeps_raise {A} (e : exn) : keeps_flags (@raise A e).
Proof. intros p. reflexivity. Qed.

Lemma keeps_now : keeps_flags now.
Proof. intros p. reflexivity. Qed.

Lemma keeps_get_scraper : keeps_flags get_scraper.
Proof. intros p. reflexivity. Qed.

Lemma keeps_emit e : keeps_flags (emit e).
Proof. intros p. reflexivity. Qed.

Lemma keeps_print line : keeps_flags (print line).
Proof. apply keeps_emit. Qed.

Lemma keeps_sleep n : keeps_flags (sleep n).
Proof. intros p. reflexivity. Qed.

Lemma keeps_modify f :
  (forall s, logged_in_uptodate (f s) = logged_in_uptodate s
             /\ logged_in_mksap (f s) = logged_in_mksap s) ->
  keeps_flags (modify f).
Proof.
  intros Hf p. unfold flags, modify. cbn.
  destruct (Hf (scraper p)) as [-> ->]. reflexivity.
Qed.

Lemma keeps_bind {A B} (c : M A) (k : A -> M B) :
  keeps_flags c -> (forall a, keeps_flags (k a)) -> keeps_flags (bind c k).
Proof.
  intros Hc Hk p. unfold bind. specialize (Hc p).
  destruct (c p) as [[a | e] p1]; cbn in Hc.
  - rewrite Hk. exact Hc.
  - exact Hc.
Qed.

Lemma keeps_try_except {A} (c : M A) (h : exn -> M A) :
  keeps_flags c -> (forall e, keeps_flags (h e)) -> keeps_flags (try_except c h).
Proof.
  intros Hc Hh p. unfold try_except. specialize (Hc p).
  destruct (c p) as [[a | e] p1]; cbn in Hc.
  - exact Hc.
  - rewrite Hh. exact Hc.
Qed.

Create HintDb keeps.
#[local] Hint Resolve keeps_ret keeps_lift keeps_raise keeps_now
  keeps_get_scraper keeps_emit keeps_print keeps_sleep : keeps.

Ltac keeps :=
  repeat first
    [ progress auto with keeps
    | apply keeps_bind; [| intros ?]
    | apply keeps_try_except; [| intros ?]
    | apply keeps_modify; intros ?; split; reflexivity
    | match goal with
      | |- keeps_flags (if ?b then _ else _) => destruct b
      | |- keeps_flags (match ?o with Some _ => _ | None => _ end) => destruct o
      end ].

Lemma keeps_browser_do w c : keeps_flags (browser_do w c).
Proof. unfold browser_do. keeps. Qed.

Lemma keeps_on_page {A} c (call : M A) :
  keeps_flags call -> keeps_flags (on_page c call).
Proof. intros H. unfold on_page, AttributeError. keeps. Qed.

Lemma keeps_page_do w c : keeps_flags (page_do w c).
Proof. apply keeps_on_page, keeps_browser_do. Qed.

Lemma keeps_page_is_visible w selector : keeps_flags (page_is_visible w selector).
Proof. apply keeps_on_page. keeps. Qed.

Lemma keeps_page_count w selector : keeps_flags (page_count w selector).
Proof. apply keeps_on_page. keeps. Qed.

Lemma keeps_page_url w : keeps_flags (page_url w).
Proof. unfold page_url, AttributeError. keeps. Qed.

#[local] Hint Resolve keeps_browser_do keeps_page_do keeps_page_is_visible
  keeps_page_count keeps_page_url : keeps.

Lemma keeps_start_browser w headless : keeps_flags (start_browser w headless).
Proof. unfold start_browser. keeps. Qed.

Lemma keeps_first_matching w act selectors :
  (forall selector, keeps_flags (act selector)) ->
  keeps_flags (first_matching w act selectors).
Proof.
  intros Hact. induction selectors as [| selector rest IH]; cbn [first_matching].
  - keeps.
  - keeps.
Qed.

(** The probing of a list of selectors never raises: a selector that is
    absent, or whose lookup or action fails, is passed over. *)
Lemma total_first_matching w act selectors : total (first_matching w act selectors).
Proof.
  induction selectors as [| selector rest IH]; intros p; cbn [first_matching].
  - exists tt. reflexivity.
  - unfold bind at 1. unfold try_except.
    destruct (bind (page_count w selector) _ p) as [[[|] | e] p1]; cbn.
    + exists tt. reflexivity.
    + apply IH.
    + apply IH.
Qed.

Lemma total_start_browser w headless : total (start_browser w headless).
Proof.
  intros p. unfold start_browser.
  destruct (PLAYWRIGHT_AVAILABLE w); cbn [negb]; [| exists false; reflexivity].
  unfold bind at 1, get_scraper.
  destruct (browser (scraper p)); [exists true; reflexivity |].
  unfold try_except.
  match goal with |- context [match ?c p with _ => _ end] => destruct (c p) as [[b | e] p1] end.
  - exists b. reflexivity.
  - exists false. reflexivity.
Qed.

Lemma login_body_bind {A} set (c : M A) (k : A -> M bool) :
  keeps_flags c -> (forall a, login_body set (k a)) -> login_body set (bind c k).
Proof.
  intros Hc Hk p. unfold bind. specialize (Hc p).
  destruct (c p) as [[a | e] p1]; cbn in Hc.
  - specialize (Hk a p1). rewrite Hc in Hk. exact Hk.
  - exact Hc.
Qed.

Lemma login_body_uptodate w username password :
  login_body (fun f => (true, snd f)) (login_uptodate_body w username password).
Proof.
  unfold login_uptodate_body.
  repeat (apply login_body_bind; [solve [keeps] | intros ?]).
  intros p. cbn. auto.
Qed.

Lemma login_body_mksap w username password :
  login_body (fun f => (fst f, true)) (login_mksap_body w username password).
Proof.
  unfold login_mksap_body.
  repeat (apply login_body_bind;
          [first [ solve [keeps]
                 | apply keeps_first_matching; intros ?; solve [keeps] ]
          | intros ?]).
  match goal with |- login_body _ (if ?b then _ else _) => destruct b end;
    intros p; cbn; auto.
Qed.

(** A login wraps its [try] block: it starts the browser, runs the block and
    turns an exception into [False]. *)
Lemma login_wrapper w set (body : M bool) (label : string) p :
  login_body set body ->
  let login :=
    bind (start_browser w true) (fun started =>
      if negb started then ret false
      else try_except body
             (fun e => bind (print (label ++ str_exn e)) (fun _ => ret false))) in
  exists b p',
    login p = (Ok b, p')
    /\ flags p' = (if b then set (flags p) else flags p)
    /\ (b = true <->
        exists p1 p2, start_browser w true p = (Ok true, p1)
                      /\ body p1 = (Ok true, p2)).
Proof.
  intros Hbody login. unfold login, bind at 1.
  destruct (total_start_browser w true p) as [started Hstarted].
  pose proof (keeps_start_browser w true p) as Hflags.
  destruct (start_browser w true p) as [r p1]. cbn in Hstarted, Hflags.
  subst r. destruct started; cbn [negb].
  - unfold try_except. specialize (Hbody p1).
    destruct (body p1) as [[b | e] p2] eqn:Eb.
    + destruct Hbody as [-> Hset]. exists true, p2. rewrite Hflags in Hset.
      split; [reflexivity | split; [exact Hset |]].
      split; [intros _; exists p1, p2; auto | auto].
    + eexists false, _. split; [reflexivity |]. split.
      * cbn. unfold flags in *. cbn. congruence.
      * split; [discriminate |].
        intros (q1 & q2 & Hq & Hb). injection Hq as <-.
        rewrite Eb in Hb. discriminate Hb.
  - exists false, p1. split; [reflexivity | split; [exact Hflags |]].
    split; [discriminate |]. intros (q1 & q2 & Hq & _). discriminate Hq.
Qed.

(** C4, as the code has it.  [login_uptodate] and [login_mksap] never raise.
    They return [True] exactly when the browser starts and the sign-in
    sequence runs to its end without an exception, and the flag of the
    target is then set; otherwise they return [False] and both flags are
    what they were.  In the MKSAP sequence the probing of the selectors
    never raises, so a missing field is not a failure. *)
Theorem C4_login_reports_by_boolean :
  forall w username password p,
    (exists b p',
        login_uptodate w username password p = (Ok b, p')
        /\ flags p' = (if b then (true, snd (flags p)) else flags p)
        /\ (b = true <->
            exists p1 p2,
              start_browser w true p = (Ok true, p1)
              /\ login_uptodate_body w username password p1 = (Ok true, p2)))
    /\ (exists b p',
           login_mksap w username password p = (Ok b, p')
           /\ flags p' = (if b then (fst (flags p), true) else flags p)
           /\ (b = true <->
               exists p1 p2,
                 start_browser w true p = (Ok true, p1)
                 /\ login_mksap_body w username password p1 = (Ok true, p2)))
    /\ (forall act selectors, total (first_matching w act selectors)).
Proof.
  intros w username password p. split; [| split].
  - exact (login_wrapper w "UpToDate login failed: " p
             (login_body_uptodate w username password)).
  - exact (login_wrapper w "MKSAP login failed: " p
             (login_body_mksap w username password)).
  - intros act selectors. apply total_first_matching.
Qed.

(** C4 at a browser that does whatever it is asked. *)
Lemma C4_login_witness :
  exists b p',
    login_uptodate bare_world "user" "secret" fresh = (Ok b, p')
    /\ flags p' = (if b then (true, snd (flags fresh)) else flags fresh)
    /\ (b = true <->
        exists p1 p2,
          start_browser bare_world true fresh = (Ok true, p1)
          /\ login_uptodate_body bare_world "user" "secret" p1 = (Ok true, p2)).
Proof.
  exact (proj1 (C4_login_reports_by_boolean bare_world "user" "secret" fresh)).
Defined.

(** C4 as stated fails on a selector mismatch: on a page where no selector
    matches anything, [login_mksap] enters no credential and still returns
    [True]. *)
Lemma C4_counterexample_selector_mismatch :
  ~ (forall w username password p,
        no_selector_matches w ->
        fst (login_mksap w username password p) = Ok false).
Proof.
  intros claim.
  specialize (claim bare_world "user" "secret" fresh (fun _ _ => eq_refl)).
  vm_compute in claim. discriminate claim.
Qed.

(** The run behind the counterexample: [True], the flag set, and no input
    event in the trace. *)
Lemma login_mksap_on_empty_page :
  let run := login_mksap bare_world "user" "secret" fresh in
  fst run = Ok true
  /\ logged_in_mksap (scraper (snd run)) = true
  /\ existsb is_input (trace (snd run)) = false.
Proof. vm_compute. auto. Qed.

(** ** UpToDate: the article cannot be fetched *)

(** C8.  In a signed-in process with a running browser, when the search
    page yields hits, the first of them has a URL and the fetch of its
    article raises, [search_uptodate] still returns a response: its content
    is the snippet blocks of the hits joined by the divider and its
    citations are the hits; the failure is only printed. *)
Theorem C8_uptodate_falls_back_to_snippets :
  forall w query_ max_results_ p p1 c rest content_parts p2 target e p3,
    logged_in_uptodate (scraper p) = true ->
    start_browser w true p = (Ok true, p1) ->
    uptodate_hits w query_ max_results_ p1 = (Ok (c :: rest, content_parts), p2) ->
    url c = Some target ->
    target <> "" ->
    uptodate_article w target p2 = (Raise e, p3) ->
    search_uptodate w query_ max_results_ p
    = (Ok {| provider := "uptodate"; sr_query := query_;
             content := join divider content_parts;
             citations := c :: rest;
             timestamp := clock_ms w (S (List.length (trace p3))) |},
       {| scraper := scraper p3;
          trace := (trace p3
                    ++ [EvPrint ("Failed to fetch UpToDate article content: "
                                 ++ str_exn e)])%list |}).
Proof.
  intros w query_ max_results_ p p1 c rest content_parts p2 target e p3
         Hflag Hstart Hhits Hurl Htarget Harticle.
  unfold search_uptodate.
  unfold bind at 1, get_scraper. rewrite Hflag. cbn [negb].
  erewrite bind_step by exact Hstart. cbn [negb].
  unfold try_except at 1.
  erewrite bind_step by exact Hhits.
  unfold uptodate_first_content. rewrite Hurl.
  destruct (String.eqb_spec target ""); [contradiction |].
  unfold bind at 1. erewrite try_except_raise by exact Harticle.
  mrun. cbn [String.eqb negb].
  rewrite length_app. cbn [List.length]. rewrite Nat.add_1_r. reflexivity.
Qed.

(** C8 at a search with one hit whose article page times out. *)
Lemma C8_uptodate_fallback_witness :
  let w := article_timeout_world in
  fst (search_uptodate w "sepsis" 5 signed_in_uptodate)
  = Ok {| provider := "uptodate"; sr_query := "sepsis";
          content := "**Sepsis in adults**" ++ nl
                     ++ "Sepsis in adults: evaluation and management";
          citations :=
            [{| id := "uptodate-0"; title := "Sepsis in adults"; authors := None;
                source := "UpToDate"; year := None;
                url := Some "https://www.uptodate.com/contents/sepsis-in-adults";
                pmid := None;
                snippet := Some "Sepsis in adults: evaluation and management" |}];
          timestamp := 1700000000009 |}.
Proof.
  intros w.
  pose (p1 := snd (start_browser w true signed_in_uptodate)).
  pose (p2 := snd (uptodate_hits w "sepsis" 5 p1)).
  pose (target := "https://www.uptodate.com/contents/sepsis-in-adults").
  pose (p3 := snd (uptodate_article w target p2)).
  rewrite (C8_uptodate_falls_back_to_snippets w "sepsis" 5 signed_in_uptodate
             (p1 := p1) (p2 := p2) (p3 := p3) (target := target)
             (c := {| id := "uptodate-0"; title := "Sepsis in adults";
                      authors := None; source := "UpToDate"; year := None;
                      url := Some target; pmid := None;
                      snippet := Some "Sepsis in adults: evaluation and management" |})
             (rest := [])
             (content_parts := ["**Sepsis in adults**" ++ nl
                                ++ "Sepsis in adults: evaluation and management"])
             (e := PyError "TimeoutError" "Timeout 30000ms exceeded."));
    try (vm_compute; reflexivity).
  vm_compute. discriminate.
Defined.

(** ** Aggregation: the partition of the attempted providers *)

Lemma keys_app {V} (d1 d2 : list (string * V)) :
  keys (d1 ++ d2) = (keys d1 ++ keys d2)%list.
Proof. apply map_app. Qed.

Lemma dict_set_fresh {V} (k : string) (v : V) d :
  ~ In k (keys d) -> dict_set k v d = (d ++ [(k, v)])%list.
Proof.
  induction d as [| [k' v'] d IH]; cbn; intros Hk.
  - reflexivity.
  - destruct (String.eqb_spec k k') as [-> | _].
    + exfalso. apply Hk. now left.
    + f_equal. apply IH. intros Hin. apply Hk. now right.
Qed.

(** The loop over the tasks always completes; it extends [results] by the
    tasks that returned and [errors] by those that raised, each task in
    exactly one of the two; [good] is any property that the result of a
    task has whenever the task returns. *)
Lemma run_tasks_inv (good : string -> SearchResponse -> Prop) tasks :
  forall results errors_ p,
    NoDup (map fst tasks) ->
    (forall k, In k (map fst tasks) ->
               ~ In k (keys results) /\ ~ In k (keys errors_)) ->
    (forall k task q r q',
        In (k, task) tasks -> task q = (Ok r, q') -> good k r) ->
    exists succeeded failed p',
      run_tasks tasks results errors_ p
      = (Ok ((results ++ succeeded)%list, (errors_ ++ failed)%list), p')
      /\ Forall (fun entry => good (fst entry) (snd entry)) succeeded
      /\ (forall k, In k (map fst tasks)
                    <-> In k (keys succeeded) \/ In k (keys failed))
      /\ (forall k, In k (keys succeeded) -> ~ In k (keys failed))
      /\ NoDup (keys succeeded)
      /\ NoDup (keys failed).
Proof.
  induction tasks as [| [k task] rest IH]; intros results errors_ p Hnodup Hfresh Hgood.
  - exists [], [], p. cbn. rewrite !app_nil_r.
    repeat split; try constructor; try tauto; intros [[] | []].
  - cbn [map fst] in Hnodup. apply NoDup_cons_iff in Hnodup as [Hk Hrest].
    destruct (Hfresh k (or_introl eq_refl)) as [Hkr Hke].
    cbn [run_tasks]. unfold bind at 1, try_except, bind at 1, ret.
    destruct (task p) as [[r | e] p1] eqn:Etask.
    + rewrite dict_set_fresh by exact Hkr.
      destruct (IH (results ++ [(k, r)])%list errors_ p1 Hrest)
        as (succeeded & failed & p' & Hrun & Hall & Hiff & Hdisj & Hnd1 & Hnd2).
      * intros k' Hk'. destruct (Hfresh k' (or_intror Hk')) as [H1 H2].
        split; [| exact H2]. rewrite keys_app, in_app_iff. cbn.
        intros [? | [-> | []]]; [tauto | contradiction].
      * intros k' task' q r' q' Hin. apply Hgood. now right.
      * exists ((k, r) :: succeeded), failed, p'.
        rewrite Hrun, <- app_assoc. cbn [app].
        assert (Hkf : ~ In k (keys failed)).
        { intros Hin. apply Hk, Hiff. now right. }
        assert (Hks : ~ In k (keys succeeded)).
        { intros Hin. apply Hk, Hiff. now left. }
        split; [reflexivity |]. split.
        { constructor; [| exact Hall]. cbn.
          eapply Hgood; [now left | exact Etask]. }
        split.
        { intros k'. cbn [map fst In keys]. rewrite Hiff. unfold keys. tauto. }
        split.
        { intros k' [<- | Hin]; [exact Hkf | now apply Hdisj]. }
        split; [| exact Hnd2].
        cbn [keys map fst]. constructor; assumption.
    + rewrite dict_set_fresh by exact Hke.
      destruct (IH results (errors_ ++ [(k, str_exn e)])%list p1 Hrest)
        as (succeeded & failed & p' & Hrun & Hall & Hiff & Hdisj & Hnd1 & Hnd2).
      * intros k' Hk'. destruct (Hfresh k' (or_intror Hk')) as [H1 H2].
        split; [exact H1 |]. rewrite keys_app, in_app_iff. cbn.
        intros [? | [-> | []]]; [tauto | contradiction].
      * intros k' task' q r' q' Hin. apply Hgood. now right.
      * exists succeeded, ((k, str_exn e) :: failed), p'.
        rewrite Hrun, <- app_assoc. cbn [app].
        assert (Hkf : ~ In k (keys failed)).
        { intros Hin. apply Hk, Hiff. now right. }
        assert (Hks : ~ In k (keys succeeded)).
        { intros Hin. apply Hk, Hiff. now left. }
        split; [reflexivity |]. split; [exact Hall |].
        split.
        { intros k'. cbn [map fst In keys]. rewrite Hiff. unfold keys. tauto. }
        split.
        { intros k' Hin [<- | Hin']; [contradiction | now apply (Hdisj k')]. }
        split; [exact Hnd1 |].
        cbn [keys map fst]. constructor; assumption.
Qed.

(** The names of the tasks, spelled out. *)
Lemma attempted_names w request :
  attempted w request
  = ("pubmed"
     :: (if key_configured w "PERPLEXITY_API_KEY" "VITE_PERPLEXITY_API_KEY"
         then ["perplexity"] else [])
     ++ (if key_configured w "EXA_API_KEY" "VITE_EXA_API_KEY"
         then ["exa"] else [])
     ++ (if key_configured w "TAVILY_API_KEY" "VITE_TAVILY_API_KEY"
         then ["tavily"] else []))%list.
Proof.
  unfold attempted, aggregate_tasks.
  destruct (key_configured w "PERPLEXITY_API_KEY" "VITE_PERPLEXITY_API_KEY"),
           (key_configured w "EXA_API_KEY" "VITE_EXA_API_KEY"),
           (key_configured w "TAVILY_API_KEY" "VITE_TAVILY_API_KEY");
    reflexivity.
Qed.

Lemma attempted_nodup w request : NoDup (attempted w request).
Proof.
  rewrite attempted_names.
  destruct (key_configured w "PERPLEXITY_API_KEY" "VITE_PERPLEXITY_API_KEY"),
           (key_configured w "EXA_API_KEY" "VITE_EXA_API_KEY"),
           (key_configured w "TAVILY_API_KEY" "VITE_TAVILY_API_KEY");
    cbn [app]; repeat constructor; cbn [In]; intuition discriminate.
Qed.

(** A run of [aggregate_search]: it returns, and what it returns is built
    from the partition of the attempted providers. *)
Lemma aggregate_search_run w request p :
  exists succeeded failed p',
    aggregate_search w request p
    = (Ok {| agg_query := query request;
             sources := succeeded;
             errors := failed;
             combined_content := join divider (flat_map content_section succeeded);
             all_citations :=
               flat_map (fun entry => citations (snd entry)) succeeded;
             agg_timestamp := clock_ms w (List.length (trace p')) |}, p')
    /\ (forall k, In k (attempted w request)
                  <-> In k (keys succeeded) \/ In k (keys failed))
    /\ (forall k, In k (keys succeeded) -> ~ In k (keys failed))
    /\ NoDup (keys succeeded)
    /\ NoDup (keys failed).
Proof.
  destruct (run_tasks_inv (fun _ _ => True) (aggregate_tasks w request)
              [] [] p (attempted_nodup w request))
    as (succeeded & failed & p' & Hrun & _ & Hiff & Hdisj & Hnd1 & Hnd2).
  - intros k _. split; intros [].
  - trivial.
  - exists succeeded, failed, p'. cbn [app] in Hrun.
    split; [| auto].
    unfold aggregate_search. erewrite bind_step by exact Hrun. reflexivity.
Qed.

(** C1.  [aggregate_search] returns a response from every state, for every
    request and whatever the providers do.  No provider is a key of both
    [sources] and [errors]; the keys of the two are exactly the attempted
    providers, each once; PubMed is always attempted, so it is a key of one
    of the two. *)
Theorem C1_aggregate_partitions_attempted :
  forall w request p,
    exists response p',
      aggregate_search w request p = (Ok response, p')
      /\ (forall k, In k (keys (sources response)) ->
                    ~ In k (keys (errors response)))
      /\ (forall k, In k (attempted w request)
                    <-> In k (keys (sources response))
                        \/ In k (keys (errors response)))
      /\ NoDup (keys (sources response))
      /\ NoDup (keys (errors response))
      /\ In "pubmed" (attempted w request)
      /\ In "pubmed" (keys (sources response) ++ keys (errors response))%list.
Proof.
  intros w request p.
  destruct (aggregate_search_run w request p)
    as (succeeded & failed & p' & Hrun & Hiff & Hdisj & Hnd1 & Hnd2).
  assert (Hpubmed : In "pubmed" (attempted w request)).
  { rewrite attempted_names. now left. }
  eexists. exists p'. split; [exact Hrun |]. cbn [sources errors].
  split; [exact Hdisj |]. split; [exact Hiff |].
  split; [exact Hnd1 |]. split; [exact Hnd2 |]. split; [exact Hpubmed |].
  apply in_or_app. now apply Hiff.
Qed.
(** C1 at a process with no key and no network. *)
Lemma C1_aggregate_witness :
  exists response p',
    aggregate_search bare_world sample_request fresh = (Ok response, p')
    /\ (forall k, In k (keys (sources response)) ->
                  ~ In k (keys (errors response)))
    /\ (forall k, In k (attempted bare_world sample_request)
                  <-> In k (keys (sources response))
                      \/ In k (keys (errors response)))
    /\ NoDup (keys (sources response))
    /\ NoDup (keys (errors response))
    /\ In "pubmed" (attempted bare_world sample_request)
    /\ In "pubmed" (keys (sources response) ++ keys (errors response))%list.
Proof.
  exact (C1_aggregate_partitions_attempted bare_world sample_request fresh).
Defined.

(** ** Aggregation: who is attempted *)

(** A key is configured when one of its two variables is set to a
    non-empty value. *)
Lemma key_configured_iff w a b :
  key_configured w a b = true
  <-> (exists v, environ w a = Some v /\ v <> "")
      \/ (exists v, environ w b = Some v /\ v <> "").
Proof.
  unfold key_configured, env_or, env_truthy, getenv.
  destruct (environ w a) as [va |], (environ w b) as [vb |];
    try destruct (String.eqb_spec va ""); try destruct (String.eqb_spec vb "");
    cbn [negb]; subst;
    try destruct (String.eqb_spec va ""); try destruct (String.eqb_spec vb "");
    cbn [negb];
    (split; [intros H; try discriminate H; eauto
            | intros [(v & Hv & Hne) | (v & Hv & Hne)];
              try discriminate Hv; try (injection Hv as <-; try contradiction);
              try reflexivity; try congruence]).
Qed.

(** C3, as the code has it.  The attempted providers are PubMed followed by
    Perplexity, Exa and Tavily, each exactly when its key is configured
    (one of its two environment variables set to a non-empty value).
    UpToDate and MKSAP are never attempted by the aggregation, whatever the
    session flags.  A provider that is not attempted is a key of neither
    [sources] nor [errors]. *)
Theorem C3_attempted_providers :
  forall w request,
    In "pubmed" (attempted w request)
    /\ (In "perplexity" (attempted w request)
        <-> key_configured w "PERPLEXITY_API_KEY" "VITE_PERPLEXITY_API_KEY" = true)
    /\ (In "exa" (attempted w request)
        <-> key_configured w "EXA_API_KEY" "VITE_EXA_API_KEY" = true)
    /\ (In "tavily" (attempted w request)
        <-> key_configured w "TAVILY_API_KEY" "VITE_TAVILY_API_KEY" = true)
    /\ (forall a b,
           key_configured w a b = true
           <-> (exists v, environ w a = Some v /\ v <> "")
               \/ (exists v, environ w b = Some v /\ v <> ""))
    /\ (forall name, In name (attempted w request) ->
                     In name ["pubmed"; "perplexity"; "exa"; "tavily"])
    /\ ~ In "uptodate" (attempted w request)
    /\ ~ In "mksap" (attempted w request)
    /\ (forall p response p' name,
           aggregate_search w request p = (Ok response, p') ->
           ~ In name (attempted w request) ->
           ~ In name (keys (sources response))
           /\ ~ In name (keys (errors response))).
Proof.
  intros w request.
  assert (Hnames := attempted_names w request).
  repeat match goal with |- _ /\ _ => split end.
  - rewrite Hnames. now left.
  - rewrite Hnames.
    destruct (key_configured w "PERPLEXITY_API_KEY" "VITE_PERPLEXITY_API_KEY"),
             (key_configured w "EXA_API_KEY" "VITE_EXA_API_KEY"),
             (key_configured w "TAVILY_API_KEY" "VITE_TAVILY_API_KEY");
      cbn [app In]; intuition discriminate.
  - rewrite Hnames.
    destruct (key_configured w "PERPLEXITY_API_KEY" "VITE_PERPLEXITY_API_KEY"),
             (key_configured w "EXA_API_KEY" "VITE_EXA_API_KEY"),
             (key_configured w "TAVILY_API_KEY" "VITE_TAVILY_API_KEY");
      cbn [app In]; intuition discriminate.
  - rewrite Hnames.
    destruct (key_configured w "PERPLEXITY_API_KEY" "VITE_PERPLEXITY_API_KEY"),
             (key_configured w "EXA_API_KEY" "VITE_EXA_API_KEY"),
             (key_configured w "TAVILY_API_KEY" "VITE_TAVILY_API_KEY");
      cbn [app In]; intuition discriminate.
  - intros a b. apply key_configured_iff.
  - rewrite Hnames. intros name.
    destruct (key_configured w "PERPLEXITY_API_KEY" "VITE_PERPLEXITY_API_KEY"),
             (key_configured w "EXA_API_KEY" "VITE_EXA_API_KEY"),
             (key_configured w "TAVILY_API_KEY" "VITE_TAVILY_API_KEY");
      cbn [app In]; tauto.
  - rewrite Hnames.
    destruct (key_configured w "PERPLEXITY_API_KEY" "VITE_PERPLEXITY_API_KEY"),
             (key_configured w "EXA_API_KEY" "VITE_EXA_API_KEY"),
             (key_configured w "TAVILY_API_KEY" "VITE_TAVILY_API_KEY");
      cbn [app In]; intuition discriminate.
  - rewrite Hnames.
    destruct (key_configured w "PERPLEXITY_API_KEY" "VITE_PERPLEXITY_API_KEY"),
             (key_configured w "EXA_API_KEY" "VITE_EXA_API_KEY"),
             (key_configured w "TAVILY_API_KEY" "VITE_TAVILY_API_KEY");
      cbn [app In]; intuition discriminate.
  - intros p response p' name Hrun Hnot.
    destruct (aggregate_search_run w request p)
      as (succeeded & failed & q & Hrun' & Hiff & _).
    rewrite Hrun' in Hrun. injection Hrun as <- _. cbn [sources errors].
    split; intros Hin; apply Hnot, Hiff; tauto.
Qed.

(** C3 at a process whose only key is the one of Exa. *)
Lemma C3_attempted_witness :
  let w := with_environ (env_with "EXA_API_KEY" "key") bare_world in
  attempted w sample_request = ["pubmed"; "exa"]
  /\ forall response p',
       aggregate_search w sample_request fresh = (Ok response, p') ->
       ~ In "tavily" (keys (sources response))
       /\ ~ In "tavily" (keys (errors response)).
Proof.
  intros w. split; [reflexivity |].
  intros response p' Hrun.
  apply (proj2 (proj2 (proj2 (proj2 (proj2 (proj2 (proj2 (proj2
           (C3_attempted_providers w sample_request)))))))) fresh response p'
           "tavily" Hrun).
  vm_compute. intuition discriminate.
Defined.

(** C3 as stated fails for the providers that need a session: with the
    UpToDate session signed in, UpToDate is eligible by the rule of the
    specification and is not attempted. *)
Lemma C3_counterexample_signed_in_uptodate :
  ~ (forall w request s name,
        In name (attempted w request) <-> spec_eligible w s name = true).
Proof.
  intros claim.
  destruct (claim bare_world sample_request
              (scraper (snd (login_uptodate bare_world "user" "secret" fresh)))
              "uptodate") as [_ Hin].
  specialize (Hin eq_refl). vm_compute in Hin. intuition discriminate.
Qed.

(** ** Citation ids *)

Lemma str_nat_inj n m : str_nat n = str_nat m -> n = m.
Proof.
  unfold str_nat. intros H.
  apply DecimalNat.Unsigned.to_uint_inj.
  assert (Hs : Some (Nat.to_uint n) = Some (Nat.to_uint m)).
  { rewrite <- !NilEmpty.usu. now rewrite H. }
  now injection Hs.
Qed.

Lemma append_inj_l (a b c : string) : a ++ b = a ++ c -> b = c.
Proof.
  induction a as [| x a IH]; cbn; intros H.
  - exact H.
  - injection H as H. auto.
Qed.

Lemma NoDup_map_inj {A B} (f : A -> B) l :
  (forall x y, f x = f y -> x = y) -> NoDup l -> NoDup (map f l).
Proof.
  intros Hinj. induction 1 as [| x l Hx Hl IH]; cbn; constructor; auto.
  rewrite in_map_iff. intros (y & Hy & Hin). apply Hinj in Hy. now subst.
Qed.

Lemma Citation_new_id id_ title_ authors_ source_ year_ url_ pmid_ snippet_ c :
  Citation_new id_ title_ authors_ source_ year_ url_ pmid_ snippet_ = Ok c ->
  id c = id_.
Proof.
  unfold Citation_new. intros H.
  repeat match type of H with
         | obind ?o _ = _ =>
             destruct o; cbn [obind] in H; [| discriminate H]
         end.
  injection H as <-. reflexivity.
Qed.

(** The ids of an enumerated normalization are the prefix followed by the
    positions. *)
Lemma omap_enum_ids (prefix : string) (f : nat -> json -> outcome Citation) :
  (forall i x c, f i x = Ok c -> id c = prefix ++ str_nat i) ->
  forall xs i cs,
    omap_enum f i xs = Ok cs ->
    map id cs = map (fun j => prefix ++ str_nat j) (seq i (List.length xs)).
Proof.
  intros Hf. induction xs as [| x xs IH]; intros i cs H; cbn in H.
  - injection H as <-. reflexivity.
  - destruct (f i x) as [c | e] eqn:Ec; cbn [obind] in H; [| discriminate H].
    destruct (omap_enum f (S i) xs) as [cs' | e] eqn:Ecs; cbn [obind] in H;
      [| discriminate H].
    injection H as <-. cbn. f_equal; [eauto | eauto].
Qed.

Lemma enumerated_ids_namespaced (prefix : string) cs i n :
  map id cs = map (fun j => prefix ++ str_nat j) (seq i n) ->
  NoDup (map id cs)
  /\ Forall (fun c => exists rest, id c = prefix ++ rest) cs.
Proof.
  intros H. split.
  - rewrite H. apply NoDup_map_inj; [| apply seq_NoDup].
    intros x y Hxy. apply append_inj_l in Hxy. now apply str_nat_inj.
  - apply Forall_forall. intros c Hc.
    apply (in_map id) in Hc. rewrite H in Hc.
    apply in_map_iff in Hc as (j & Hj & _). eauto.
Qed.

Lemma perplexity_citation_id i x c :
  perplexity_citation i x = Ok c -> id c = "pplx-" ++ str_nat i.
Proof.
  unfold perplexity_citation. intros H.
  repeat match type of H with
         | obind ?o _ = _ =>
             destruct o; cbn [obind] in H; [| discriminate H]
         end.
  now apply Citation_new_id in H.
Qed.

Lemma exa_citation_id i x c :
  exa_citation i x = Ok c -> id c = "exa-" ++ str_nat i.
Proof.
  unfold exa_citation. intros H.
  repeat match type of H with
         | obind ?o _ = _ =>
             destruct o; cbn [obind] in H; [| discriminate H]
         end.
  now apply Citation_new_id in H.
Qed.

Lemma tavily_citation_id i x c :
  tavily_citation i x = Ok c -> id c = "tavily-" ++ str_nat i.
Proof.
  unfold tavily_citation. intros H.
  repeat match type of H with
         | obind ?o _ = _ =>
             destruct o; cbn [obind] in H; [| discriminate H]
         end.
  now apply Citation_new_id in H.
Qed.
Lemma try_except_ok_inv {A} (c : M A) (h : exn -> M A) p a p' :
  try_except c h p = (Ok a, p') ->
  c p = (Ok a, p')
  \/ exists e p1, c p = (Raise e, p1) /\ h e p1 = (Ok a, p').
Proof.
  unfold try_except. destruct (c p) as [[a' | e] p1]; intros H.
  - left. exact H.
  - right. exists e, p1. auto.
Qed.

Lemma lift_ok_inv {A} (o : outcome A) p a p' :
  lift o p = (Ok a, p') -> o = Ok a /\ p' = p.
Proof. unfold lift. intros H. injection H as -> ->. auto. Qed.

Ltac mrun_in H :=
  cbv beta iota zeta delta
    [bind try_except lift ret raise now emit print modify sleep time_ms
     http_send get_scraper set_scraper] in H;
  cbn [trace scraper fst snd obind] in H.

(** Take the first computation off a chain of binds that returned. *)
Tactic Notation "binv" hyp(H) "as" ident(a) ident(q) ident(Hstep) :=
  apply bind_ok_inv in H; destruct H as (a & q & Hstep & H).

(** Take the first computation off a chain of [obind] that returned. *)
Ltac oinv H :=
  repeat match type of H with
         | obind ?o _ = Ok _ =>
             let E := fresh "E" in
             destruct o eqn:E; cbn [obind] in H; [| discriminate H]
         end.

Lemma SearchResponse_new_citations provider_ query_ content_ cs ts r :
  SearchResponse_new provider_ query_ content_ cs ts = Ok r -> citations r = cs.
Proof.
  unfold SearchResponse_new. intros H. oinv H. injection H as <-. reflexivity.
Qed.

Lemma search_perplexity_namespaced w query_ medical_focus model p r p' :
  search_perplexity w query_ medical_focus model p = (Ok r, p') ->
  namespaced "perplexity" r.
Proof.
  unfold search_perplexity. intros H.
  destruct (env_or _ _) as [key |]; [| discriminate H].
  destruct (String.eqb key ""); [discriminate H |].
  apply try_except_ok_inv in H as [H | (e & p1 & _ & H)];
    [| destruct e; discriminate H].
  binv H as response q1 Hsend. destruct (negb _); [discriminate H |].
  binv H as data q2 Hdata. apply lift_ok_inv in Hdata as [_ ->].
  binv H as normalized q3 Hnorm. destruct normalized as [content_ citations_].
  apply lift_ok_inv in Hnorm as [Hnorm ->].
  binv H as ts q4 Hts. apply lift_ok_inv in H as [H _].
  apply SearchResponse_new_citations in H.
  unfold perplexity_normalize in Hnorm. oinv Hnorm. injection Hnorm as _ <-.
  unfold namespaced. rewrite H.
  eapply enumerated_ids_namespaced, omap_enum_ids; [| eassumption].
  exact perplexity_citation_id.
Qed.

Lemma search_exa_namespaced w query_ max_results_ p r p' :
  search_exa w query_ max_results_ p = (Ok r, p') -> namespaced "exa" r.
Proof.
  unfold search_exa. intros H.
  destruct (env_or _ _) as [key |]; [| discriminate H].
  destruct (String.eqb key ""); [discriminate H |].
  apply try_except_ok_inv in H as [H | (e & p1 & _ & H)];
    [| destruct e; discriminate H].
  binv H as response q1 Hsend. destruct (negb _); [discriminate H |].
  binv H as data q2 Hdata. apply lift_ok_inv in Hdata as [_ ->].
  binv H as normalized q3 Hnorm. destruct normalized as [content_ citations_].
  apply lift_ok_inv in Hnorm as [Hnorm ->].
  binv H as ts q4 Hts. apply lift_ok_inv in H as [H _].
  apply SearchResponse_new_citations in H.
  unfold exa_normalize in Hnorm. oinv Hnorm. injection Hnorm as _ <-.
  unfold namespaced. rewrite H.
  eapply enumerated_ids_namespaced, omap_enum_ids; [| eassumption].
  exact exa_citation_id.
Qed.

Lemma search_tavily_namespaced w query_ max_results_ p r p' :
  search_tavily w query_ max_results_ p = (Ok r, p') -> namespaced "tavily" r.
Proof.
  unfold search_tavily. intros H.
  destruct (env_or _ _) as [key |]; [| discriminate H].
  destruct (String.eqb key ""); [discriminate H |].
  apply try_except_ok_inv in H as [H | (e & p1 & _ & H)];
    [| destruct e; discriminate H].
  binv H as response q1 Hsend. destruct (negb _); [discriminate H |].
  binv H as data q2 Hdata. apply lift_ok_inv in Hdata as [_ ->].
  binv H as normalized q3 Hnorm. destruct normalized as [answer citations_].
  apply lift_ok_inv in Hnorm as [Hnorm ->].
  binv H as ts q4 Hts. apply lift_ok_inv in H as [H _].
  apply SearchResponse_new_citations in H.
  unfold tavily_normalize in Hnorm. oinv Hnorm. injection Hnorm as _ <-.
  unfold namespaced. rewrite H.
  eapply enumerated_ids_namespaced, omap_enum_ids; [| eassumption].
  exact tavily_citation_id.
Qed.
Lemma pubmed_article_inv w result_data acc pmid_ acc' :
  pubmed_article w result_data acc pmid_ = Ok acc' ->
  fst acc' = fst acc
  \/ exists c, id c = "pubmed-" ++ pmid_ /\ fst acc' = (fst acc ++ [c])%list.
Proof.
  unfold pubmed_article. intros H. oinv H.
  match type of H with
  | match ?article with JNull => _ | _ => _ end = _ =>
      destruct article as [| | | | | | [| item items]]
  end;
    try (injection H as <-; left; reflexivity).
  oinv H. injection H as <-. right. cbn [fst].
  eexists. split; [| reflexivity]. eapply Citation_new_id. eassumption.
Qed.

Lemma pubmed_fold_ids w result_data ids :
  forall acc acc',
    ofold (pubmed_article w result_data) ids acc = Ok acc' ->
    NoDup ids ->
    NoDup (map id (fst acc)) ->
    (forall c, In c (fst acc) ->
               exists x, id c = "pubmed-" ++ x /\ ~ In x ids) ->
    NoDup (map id (fst acc'))
    /\ Forall (fun c => exists rest, id c = "pubmed-" ++ rest) (fst acc').
Proof.
  induction ids as [| pmid_ rest IH]; intros acc acc' H Hids Hacc Hold; cbn in H.
  - injection H as <-. split; [exact Hacc |].
    apply Forall_forall. intros c Hc. destruct (Hold c Hc) as (x & Hx & _). eauto.
  - apply NoDup_cons_iff in Hids as [Hpmid Hrest].
    destruct (pubmed_article w result_data acc pmid_) as [acc1 | e] eqn:Estep;
      cbn [obind] in H; [| discriminate H].
    apply pubmed_article_inv in Estep as [Hsame | (c & Hc & Hadd)].
    + apply (IH acc1 acc' H Hrest); rewrite Hsame; [exact Hacc |].
      intros c Hc. destruct (Hold c Hc) as (x & Hx & Hnot).
      exists x. split; [exact Hx |]. intros Hin. apply Hnot. now right.
    + apply (IH acc1 acc' H Hrest); rewrite Hadd.
      * rewrite map_app. apply NoDup_app; [exact Hacc | |].
        { cbn. constructor; [intros [] | constructor]. }
        intros a Ha [Hb | []]. apply in_map_iff in Ha as (c0 & <- & Hc0).
        destruct (Hold c0 Hc0) as (x & Hx & Hnot).
        rewrite Hx, Hc in Hb. apply append_inj_l in Hb.
        apply Hnot. left. exact Hb.
      * intros c0 Hc0. apply in_app_or in Hc0 as [Hc0 | [<- | []]].
        { destruct (Hold c0 Hc0) as (x & Hx & Hnot).
          exists x. split; [exact Hx |]. intros Hin. apply Hnot. now right. }
        exists pmid_. split; [exact Hc | exact Hpmid].
Qed.

Lemma search_pubmed_namespaced w query_ max_results_ p r p' :
  search_pubmed w query_ max_results_ p = (Ok r, p') ->
  NoDup (pubmed_ids w query_ max_results_ p) ->
  namespaced "pubmed" r.
Proof.
  unfold search_pubmed, pubmed_ids. intros H Hids.
  apply try_except_ok_inv in H as [H | (e & p1 & _ & H)]; [| discriminate H].
  binv H as response q1 Hsend.
  unfold http_send in Hsend. mrun_in Hsend.
  destruct (http w _ _) as [response' | e]; [| discriminate Hsend].
  injection Hsend as -> <-.
  binv H as search_data q2 Hdata. apply lift_ok_inv in Hdata as [Hdata ->].
  binv H as ids q3 Hidlist. apply lift_ok_inv in Hidlist as [Hidlist ->].
  rewrite Hdata in Hids. cbn [obind] in Hids. rewrite Hidlist in Hids.
  destruct (truthy ids); cbn [negb] in H.
  - binv H as id_strings q4 Hjoin. apply lift_ok_inv in Hjoin as [Hjoin ->].
    rewrite Hjoin in Hids.
    binv H as fetch_response q5 Hfetch.
    binv H as fetch_data q6 Hsummary.
    binv H as normalized q7 Hnorm. destruct normalized as [citations_ parts].
    apply lift_ok_inv in Hnorm as [Hnorm ->].
    binv H as ts q8 Hts. injection H as <- _.
    unfold pubmed_normalize in Hnorm. oinv Hnorm.
    apply pubmed_fold_ids in Hnorm; cbn [fst map] in *; auto.
    + constructor.
    + intros c [].
  - binv H as ts q4 Hts. injection H as <- _.
    split; cbn; constructor.
Qed.
Lemma prefixes_disjoint k1 k2 a b :
  In k1 ["pubmed"; "perplexity"; "exa"; "tavily"] ->
  In k2 ["pubmed"; "perplexity"; "exa"; "tavily"] ->
  k1 <> k2 ->
  id_prefix k1 ++ a <> id_prefix k2 ++ b.
Proof.
  cbn [In]. intros H1 H2 Hne Heq.
  repeat match goal with
         | H : _ \/ _ |- _ => destruct H
         | H : False |- _ => destruct H
         end; subst; try contradiction; vm_compute in Heq; discriminate Heq.
Qed.

(** Responses of distinct providers, each with its namespace, have no id in
    common. *)
Lemma namespaced_flat_map (entries : list (string * SearchResponse)) :
  NoDup (keys entries) ->
  Forall (fun entry => namespaced (fst entry) (snd entry)) entries ->
  (forall k, In k (keys entries) ->
             In k ["pubmed"; "perplexity"; "exa"; "tavily"]) ->
  NoDup (map id (flat_map (fun entry => citations (snd entry)) entries)).
Proof.
  induction entries as [| [k r] entries IH]; intros Hkeys Hall Hnames.
  - constructor.
  - cbn [keys map fst] in Hkeys. apply NoDup_cons_iff in Hkeys as [Hk Hkeys].
    apply Forall_cons_iff in Hall as [[Hr Hprefix] Hall]. cbn [fst snd] in *.
    cbn [flat_map snd]. rewrite map_app. apply NoDup_app.
    + exact Hr.
    + apply IH; auto. intros k' Hk'. apply Hnames. now right.
    + intros a Ha Hb.
      apply in_map_iff in Ha as (c & <- & Hc).
      apply in_map_iff in Hb as (c' & Hid & Hc').
      apply in_flat_map in Hc' as ([k' r'] & Hentry & Hc'). cbn [snd] in Hc'.
      rewrite Forall_forall in Hprefix, Hall.
      destruct (Hprefix c Hc) as (x & Hx).
      destruct (Hall (k', r') Hentry) as [_ Hprefix']. cbn [fst snd] in Hprefix'.
      rewrite Forall_forall in Hprefix'. destruct (Hprefix' c' Hc') as (y & Hy).
      assert (Hin' : In k' (keys entries)).
      { apply in_map_iff. exists (k', r'). auto. }
      apply (@prefixes_disjoint k k' x y).
      * apply Hnames. now left.
      * apply Hnames. now right.
      * intros ->. contradiction.
      * congruence.
Qed.

Lemma run_tasks_cons k task rest results errors_ p :
  run_tasks ((k, task) :: rest) results errors_ p
  = match task p with
    | (Ok r, p1) => run_tasks rest (dict_set k r results) errors_ p1
    | (Raise e, p1) => run_tasks rest results (dict_set k (str_exn e) errors_) p1
    end.
Proof.
  cbn [run_tasks]. unfold bind at 1, try_except, bind at 1, ret.
  destruct (task p) as [[r | e] p1]; reflexivity.
Qed.

(** The tasks after PubMed. *)
Lemma other_tasks w request k task :
  In (k, task) (tl (aggregate_tasks w request)) ->
  In k ["perplexity"; "exa"; "tavily"]
  /\ forall q r q', task q = (Ok r, q') -> namespaced k r.
Proof.
  unfold aggregate_tasks. cbn [tl].
  destruct (key_configured w "PERPLEXITY_API_KEY" "VITE_PERPLEXITY_API_KEY"),
           (key_configured w "EXA_API_KEY" "VITE_EXA_API_KEY"),
           (key_configured w "TAVILY_API_KEY" "VITE_TAVILY_API_KEY");
    cbn [app In]; intros H;
    repeat match goal with
           | H : _ \/ _ |- _ => destruct H as [H | H]
           | H : False |- _ => destruct H
           | H : (_, _) = (_, _) |- _ => injection H as <- <-
           end;
    (split; [cbn [In]; tauto | intros q r q' Hrun]);
    eauto using search_perplexity_namespaced, search_exa_namespaced,
      search_tavily_namespaced.
Qed.

Lemma other_tasks_nodup w request :
  NoDup (map fst (tl (aggregate_tasks w request))).
Proof.
  pose proof (attempted_nodup w request) as H. unfold attempted in H.
  change (aggregate_tasks w request)
    with (("pubmed", search_pubmed w (query request) (max_results request))
          :: tl (aggregate_tasks w request)) in H.
  cbn [map fst] in H. now apply NoDup_cons_iff in H.
Qed.

(** C2, as the code has it.  When the identifier search of PubMed lists no
    identifier twice, the citation ids are pairwise distinct within every
    entry of [sources] and across [all_citations]: Perplexity, Exa and
    Tavily number their citations behind their own prefix and PubMed puts
    its prefix before the identifier. *)
Theorem C2_citation_ids_are_unique :
  forall w request p,
    NoDup (pubmed_ids w (query request) (max_results request) p) ->
    exists response p',
      aggregate_search w request p = (Ok response, p')
      /\ Forall (fun entry => NoDup (map id (citations (snd entry))))
                (sources response)
      /\ NoDup (map id (all_citations response)).
Proof.
  intros w request p Hids.
  set (good := fun k r =>
                 In k ["pubmed"; "perplexity"; "exa"; "tavily"] /\ namespaced k r).
  assert (Hothers : forall k task q r q',
             In (k, task) (tl (aggregate_tasks w request)) ->
             task q = (Ok r, q') -> good k r /\ k <> "pubmed").
  { intros k task q r q' Hin Hrun.
    destruct (other_tasks w request k task Hin) as [Hk Hns].
    unfold good. cbn [In] in *. split; [split; [tauto | eauto] |].
    intros ->. intuition discriminate. }
  assert (Hfinish : forall entries p1,
             NoDup (keys entries) ->
             Forall (fun entry => good (fst entry) (snd entry)) entries ->
             forall failed,
             run_tasks (aggregate_tasks w request) [] [] p
             = (Ok (entries, failed), p1) ->
             exists response p',
               aggregate_search w request p = (Ok response, p')
               /\ Forall (fun entry => NoDup (map id (citations (snd entry))))
                         (sources response)
               /\ NoDup (map id (all_citations response))).
  { intros entries p1 Hnd Hgood failed Hrun.
    eexists. eexists. split; [| split].
    - unfold aggregate_search. erewrite bind_step by exact Hrun.
      mrun. reflexivity.
    - cbn [sources]. eapply Forall_impl; [| exact Hgood].
      intros entry [_ [Hns _]]. exact Hns.
    - cbn [all_citations]. apply namespaced_flat_map; [exact Hnd | |].
      + eapply Forall_impl; [| exact Hgood]. intros entry [_ Hns]. exact Hns.
      + intros k Hk. apply in_map_iff in Hk as (entry & <- & Hentry).
        rewrite Forall_forall in Hgood. apply (Hgood entry Hentry). }
  change (aggregate_tasks w request)
    with (("pubmed", search_pubmed w (query request) (max_results request))
          :: tl (aggregate_tasks w request)) in Hfinish.
  destruct (search_pubmed w (query request) (max_results request) p)
    as [[r0 | e0] p1] eqn:Epubmed.
  - destruct (run_tasks_inv (fun k r => good k r /\ k <> "pubmed")
                (tl (aggregate_tasks w request)) [("pubmed", r0)] [] p1
                (other_tasks_nodup w request))
      as (succeeded & failed & p' & Hrun & Hall & Hiff & _ & Hnd & _).
    + intros k Hk. apply in_map_iff in Hk as ([k' task] & <- & Hin).
      destruct (other_tasks w request k' task Hin) as [Hk' _].
      cbn [In keys map fst] in *.
      destruct Hk' as [<- | [<- | [<- | []]]]; split; intuition discriminate.
    + exact Hothers.
    + apply (Hfinish (("pubmed", r0) :: succeeded) p') with (failed := failed).
      * cbn [keys map fst]. constructor; [| exact Hnd].
        intros Hin. apply in_map_iff in Hin as (entry & Hname & Hentry).
        rewrite Forall_forall in Hall. destruct (Hall entry Hentry) as [_ Hne].
        contradiction.
      * constructor.
        { cbn [fst snd]. split; [now left |].
          eapply search_pubmed_namespaced; eassumption. }
        eapply Forall_impl; [| exact Hall]. intros entry [Hg _]. exact Hg.
      * rewrite run_tasks_cons, Epubmed. cbn [dict_set]. exact Hrun.
  - destruct (run_tasks_inv (fun k r => good k r /\ k <> "pubmed")
                (tl (aggregate_tasks w request)) [] [("pubmed", str_exn e0)] p1
                (other_tasks_nodup w request))
      as (succeeded & failed & p' & Hrun & Hall & Hiff & _ & Hnd & _).
    + intros k Hk. apply in_map_iff in Hk as ([k' task] & <- & Hin).
      destruct (other_tasks w request k' task Hin) as [Hk' _].
      cbn [In keys map fst] in *.
      destruct Hk' as [<- | [<- | [<- | []]]]; split; intuition discriminate.
    + exact Hothers.
    + apply (Hfinish succeeded p')
        with (failed := ([("pubmed", str_exn e0)] ++ failed)%list).
      * exact Hnd.
      * eapply Forall_impl; [| exact Hall]. intros entry [Hg _]. exact Hg.
      * rewrite run_tasks_cons, Epubmed. cbn [dict_set]. exact Hrun.
Qed.
(** C2 at an identifier search that lists two distinct identifiers. *)
Lemma C2_citation_ids_witness :
  exists response p',
    aggregate_search (literature_world ["31452104"; "29562430"])
      sample_request fresh = (Ok response, p')
    /\ Forall (fun entry => NoDup (map id (citations (snd entry))))
              (sources response)
    /\ NoDup (map id (all_citations response)).
Proof.
  apply (C2_citation_ids_are_unique
           (literature_world ["31452104"; "29562430"]) sample_request fresh).
  vm_compute. repeat constructor; cbn [In]; intuition discriminate.
Defined.

(** C2 as stated fails when the identifier search lists an identifier
    twice: both citations of the article get the id [pubmed-31452104]. *)
Lemma C2_counterexample_repeated_identifier :
  ~ (forall w request p response p',
        aggregate_search w request p = (Ok response, p') ->
        NoDup (map id (all_citations response))).
Proof.
  intros claim.
  specialize (claim (literature_world ["31452104"; "31452104"])
                sample_request fresh _ _ eq_refl).
  vm_compute in claim.
  inversion claim as [| x l Hnotin Hrest]; subst.
  apply Hnotin. left. reflexivity.
Qed.

(** The ids behind the counterexample. *)
Lemma repeated_identifier_ids :
  match fst (aggregate_search (literature_world ["31452104"; "31452104"])
               sample_request fresh) with
  | Ok response =>
      map id (all_citations response)
      = ["pubmed-31452104"; "pubmed-31452104"; "pplx-0"; "pplx-1"]
  | Raise _ => False
  end.
Proof. vm_compute. reflexivity. Qed.

(** * Further properties of the service *)

(** ** The three keyed providers: key, request and error translation *)

Lemma configured_key_some w a b key :
  configured_key w a b = Some key ->
  env_or (environ w a) (environ w b) = Some key /\ String.eqb key "" = false.
Proof.
  unfold configured_key. destruct (env_or _ _) as [k |]; [| discriminate].
  destruct (String.eqb k "") eqn:E; [discriminate |].
  intros H. injection H as <-. auto.
Qed.

Lemma configured_key_none w a b :
  configured_key w a b = None <-> key_configured w a b = false.
Proof.
  unfold configured_key, key_configured, getenv, env_or, env_truthy.
  destruct (environ w a) as [va |]; [destruct (String.eqb va "") eqn:Ea |];
    cbn [negb]; try rewrite Ea; cbn [negb];
    try (destruct (environ w b) as [vb |];
         [destruct (String.eqb vb "") eqn:Eb |]; cbn [negb]);
    split; intros H; try reflexivity; try discriminate H.
Qed.

(** A keyed provider that has its key issues its one request and then only
    computes; what it returns follows from the answer. *)
Lemma search_perplexity_run w query_ medical_focus model p key :
  configured_key w "PERPLEXITY_API_KEY" "VITE_PERPLEXITY_API_KEY" = Some key ->
  let request := perplexity_request key query_ medical_focus model in
  search_perplexity w query_ medical_focus model p
  = (translate_transport "Perplexity request failed: "
       (obind (http w (List.length (trace p)) request) (fun response =>
        if negb (resp_status response =? 200)%Z
        then Raise (HTTPException (resp_status response) "Perplexity API error")
        else
          obind (response_json response) (fun data =>
          obind (perplexity_normalize data) (fun normalized =>
          SearchResponse_new "perplexity" query_ (fst normalized)
            (snd normalized) (clock_ms w (S (List.length (trace p)))))))),
     after p [EvHttp request]).
Proof.
  intros Hkey request. apply configured_key_some in Hkey as [Hkey Hne].
  unfold search_perplexity, getenv. rewrite Hkey, Hne. fold request.
  unfold after. mrun.
  destruct (http w _ request) as [response | e]; cbn [obind translate_transport].
  - destruct (negb _); [reflexivity |]. unfold response_json.
    destruct (resp_json response) as [data |]; cbn [obind]; [| reflexivity].
    destruct (perplexity_normalize data) as [[content_ citations_] | e];
      cbn [obind fst snd]; [| destruct e; reflexivity].
    cbn [trace]. rewrite length_app. cbn [List.length]. rewrite Nat.add_1_r.
    destruct (SearchResponse_new _ _ _ _ _) as [r | e];
      [reflexivity | destruct e; reflexivity].
  - destruct e; reflexivity.
Qed.

Lemma search_exa_run w query_ max_results_ p key :
  configured_key w "EXA_API_KEY" "VITE_EXA_API_KEY" = Some key ->
  let request := exa_request key query_ max_results_ in
  search_exa w query_ max_results_ p
  = (translate_transport "Exa request failed: "
       (obind (http w (List.length (trace p)) request) (fun response =>
        if negb (resp_status response =? 200)%Z
        then Raise (HTTPException (resp_status response) "Exa API error")
        else
          obind (response_json response) (fun data =>
          obind (exa_normalize w data) (fun normalized =>
          SearchResponse_new "exa" query_ (JStr (fst normalized))
            (snd normalized) (clock_ms w (S (List.length (trace p)))))))),
     after p [EvHttp request]).
Proof.
  intros Hkey request. apply configured_key_some in Hkey as [Hkey Hne].
  unfold search_exa, getenv. rewrite Hkey, Hne. fold request.
  unfold after. mrun.
  destruct (http w _ request) as [response | e]; cbn [obind translate_transport].
  - destruct (negb _); [reflexivity |]. unfold response_json.
    destruct (resp_json response) as [data |]; cbn [obind]; [| reflexivity].
    destruct (exa_normalize w data) as [[content_ citations_] | e];
      cbn [obind fst snd]; [| destruct e; reflexivity].
    cbn [trace]. rewrite length_app. cbn [List.length]. rewrite Nat.add_1_r.
    reflexivity.
  - destruct e; reflexivity.
Qed.

Lemma search_tavily_run w query_ max_results_ p key :
  configured_key w "TAVILY_API_KEY" "VITE_TAVILY_API_KEY" = Some key ->
  let request := tavily_request key query_ max_results_ in
  search_tavily w query_ max_results_ p
  = (translate_transport "Tavily request failed: "
       (obind (http w (List.length (trace p)) request) (fun response =>
        if negb (resp_status response =? 200)%Z
        then Raise (HTTPException (resp_status response) "Tavily API error")
        else
          obind (response_json response) (fun data =>
          obind (tavily_normalize data) (fun normalized =>
          SearchResponse_new "tavily" query_ (fst normalized)
            (snd normalized) (clock_ms w (S (List.length (trace p)))))))),
     after p [EvHttp request]).
Proof.
  intros Hkey request. apply configured_key_some in Hkey as [Hkey Hne].
  unfold search_tavily, getenv. rewrite Hkey, Hne. fold request.
  unfold after. mrun.
  destruct (http w _ request) as [response | e]; cbn [obind translate_transport].
  - destruct (negb _); [reflexivity |]. unfold response_json.
    destruct (resp_json response) as [data |]; cbn [obind]; [| reflexivity].
    destruct (tavily_normalize data) as [[answer citations_] | e];
      cbn [obind fst snd]; [| destruct e; reflexivity].
    cbn [trace]. rewrite length_app. cbn [List.length]. rewrite Nat.add_1_r.
    destruct (SearchResponse_new _ _ _ _ _) as [r | e];
      [reflexivity | destruct e; reflexivity].
  - destruct e; reflexivity.
Qed.

Lemma after_one_differs p e : after p [e] <> p.
Proof.
  unfold after. intros H. apply (f_equal (fun q => List.length (trace q))) in H.
  cbn [trace] in H. rewrite length_app in H. cbn in H. lia.
Qed.

Lemma unconfigured_cases w a b :
  key_configured w a b = false ->
  env_or (environ w a) (environ w b) = None
  \/ env_or (environ w a) (environ w b) = Some "".
Proof.
  unfold key_configured, getenv, env_truthy.
  destruct (env_or _ _) as [key |]; [| auto].
  destruct (String.eqb_spec key ""); [subst; auto | discriminate].
Qed.

(** X1.  A keyed provider whose key is not configured (neither variable set
    to a non-empty value) raises the 400 error with the detail naming its
    key and leaves the process as it was, so it sends nothing; and that is
    the only way it raises this error without touching the process: when the
    key is configured the run always issues a request. *)
Theorem X1_missing_key_is_a_400_without_request :
  forall w query_ medical_focus model max_results_ p,
    (key_configured w "PERPLEXITY_API_KEY" "VITE_PERPLEXITY_API_KEY" = false
     <-> search_perplexity w query_ medical_focus model p
         = (Raise (HTTPException 400 "PERPLEXITY_API_KEY not configured"), p))
    /\ (key_configured w "EXA_API_KEY" "VITE_EXA_API_KEY" = false
        <-> search_exa w query_ max_results_ p
            = (Raise (HTTPException 400 "EXA_API_KEY not configured"), p))
    /\ (key_configured w "TAVILY_API_KEY" "VITE_TAVILY_API_KEY" = false
        <-> search_tavily w query_ max_results_ p
            = (Raise (HTTPException 400 "TAVILY_API_KEY not configured"), p)).
Proof.
  intros w query_ medical_focus model max_results_ p.
  split; [| split]; split.
  - intros H. unfold search_perplexity, getenv.
    destruct (unconfigured_cases _ _ _ H) as [-> | ->]; reflexivity.
  - intros H. apply configured_key_none.
    destruct (configured_key w _ _) as [key |] eqn:E; [| reflexivity].
    rewrite (search_perplexity_run _ _ _ _ _ E) in H.
    injection H as _ H. now apply after_one_differs in H.
  - intros H. unfold search_exa, getenv.
    destruct (unconfigured_cases _ _ _ H) as [-> | ->]; reflexivity.
  - intros H. apply configured_key_none.
    destruct (configured_key w _ _) as [key |] eqn:E; [| reflexivity].
    rewrite (search_exa_run _ _ _ _ E) in H.
    injection H as _ H. now apply after_one_differs in H.
  - intros H. unfold search_tavily, getenv.
    destruct (unconfigured_cases _ _ _ H) as [-> | ->]; reflexivity.
  - intros H. apply configured_key_none.
    destruct (configured_key w _ _) as [key |] eqn:E; [| reflexivity].
    rewrite (search_tavily_run _ _ _ _ E) in H.
    injection H as _ H. now apply after_one_differs in H.
Qed.
(** X1 at a process with no key. *)
Lemma X1_missing_key_witness :
  search_perplexity bare_world "sepsis" true "sonar-pro" fresh
  = (Raise (HTTPException 400 "PERPLEXITY_API_KEY not configured"), fresh).
Proof.
  apply (proj1 (proj1 (X1_missing_key_is_a_400_without_request
                         bare_world "sepsis" true "sonar-pro" 5 fresh))).
  reflexivity.
Defined.

Lemma configured_key_iff w a b key :
  configured_key w a b = Some key
  <-> key <> ""
      /\ (environ w a = Some key
          \/ (environ w a = None \/ environ w a = Some "")
             /\ environ w b = Some key).
Proof.
  unfold configured_key, env_or, env_truthy.
  destruct (environ w a) as [va |];
    [destruct (String.eqb_spec va "") |]; cbn [negb];
    (destruct (environ w b) as [vb |];
     [destruct (String.eqb_spec vb "") |]);
    repeat match goal with
           | |- context [String.eqb ?x ""] => destruct (String.eqb_spec x "")
           end;
    subst; try contradiction;
    (split;
     [ intros H;
       first [ discriminate H
             | injection H as <-; split; [assumption | auto] ]
     | intros [Hne [H | [[H | H] H']]]; try discriminate;
       repeat match goal with
              | H : Some _ = Some _ |- _ => injection H as H; subst
              end;
       try contradiction; try reflexivity; try congruence ]).
Qed.

(** X2.  The key a keyed provider uses is the value of its plain variable
    when that is set and non-empty, otherwise the value of its
    [VITE_]-prefixed variable.  With a key, every run issues exactly one
    effect, the POST that carries the key (as bearer token for Perplexity
    and Exa, in the body for Tavily), and leaves the scraper object
    untouched, whatever the answer is. *)
Theorem X2_keyed_provider_sends_one_request :
  forall w query_ medical_focus model max_results_ p,
    (forall a b key,
        configured_key w a b = Some key
        <-> key <> ""
            /\ (environ w a = Some key
                \/ (environ w a = None \/ environ w a = Some "")
                   /\ environ w b = Some key))
    /\ (forall key,
           configured_key w "PERPLEXITY_API_KEY" "VITE_PERPLEXITY_API_KEY"
           = Some key ->
           let request := perplexity_request key query_ medical_focus model in
           snd (search_perplexity w query_ medical_focus model p)
           = after p [EvHttp request]
           /\ req_method request = POST
           /\ assoc "Authorization" (req_headers request)
              = Some ("Bearer " ++ key))
    /\ (forall key,
           configured_key w "EXA_API_KEY" "VITE_EXA_API_KEY" = Some key ->
           let request := exa_request key query_ max_results_ in
           snd (search_exa w query_ max_results_ p) = after p [EvHttp request]
           /\ req_method request = POST
           /\ assoc "Authorization" (req_headers request)
              = Some ("Bearer " ++ key))
    /\ (forall key,
           configured_key w "TAVILY_API_KEY" "VITE_TAVILY_API_KEY" = Some key ->
           let request := tavily_request key query_ max_results_ in
           snd (search_tavily w query_ max_results_ p) = after p [EvHttp request]
           /\ req_method request = POST
           /\ exists body,
               req_json request = Some (JObj body)
               /\ assoc "api_key" body = Some (JStr key)).
Proof.
  intros w query_ medical_focus model max_results_ p.
  split; [intros a b key; apply configured_key_iff |].
  split; [| split]; intros key Hkey request.
  - unfold request. rewrite (search_perplexity_run _ _ _ _ _ Hkey).
    repeat split.
  - unfold request. rewrite (search_exa_run _ _ _ _ Hkey). repeat split.
  - unfold request. rewrite (search_tavily_run _ _ _ _ Hkey).
    split; [reflexivity |]. split; [reflexivity |].
    eexists. split; reflexivity.
Qed.

(** X2 at a process whose Exa key sits in the prefixed variable. *)
Lemma X2_keyed_provider_witness :
  let w := with_environ (env_with "VITE_EXA_API_KEY" "vkey") bare_world in
  snd (search_exa w "sepsis" 5 fresh)
  = after fresh [EvHttp (exa_request "vkey" "sepsis" 5)].
Proof.
  intros w.
  apply (proj1 (proj2 (proj2 (X2_keyed_provider_sends_one_request
                                w "sepsis" true "sonar-pro" 5 fresh)))
           "vkey").
  reflexivity.
Defined.



(** ** PubMed: requests, errors and what it does not look at *)

(** The three shapes of a run of [search_pubmed]. *)
Lemma search_pubmed_run w query_ max_results_ p :
  let n := List.length (trace p) in
  let search := pubmed_search_request query_ max_results_ in
  let label := "PubMed search failed: " in
  search_pubmed w query_ max_results_ p
  = match obind (http w n search) (fun response =>
          obind (response_json response) pubmed_idlist) with
    | Raise e => (wrap_500 label (Raise e), after p [EvHttp search])
    | Ok ids =>
        if negb (truthy ids) then
          (Ok {| provider := "pubmed"; sr_query := query_;
                 content := "No results found."; citations := [];
                 timestamp := clock_ms w (S n) |},
           after p [EvHttp search])
        else
          match py_join_items ids with
          | Raise e => (wrap_500 label (Raise e), after p [EvHttp search])
          | Ok id_strings =>
              let fetch := pubmed_fetch_request id_strings in
              (wrap_500 label
                 (obind (http w (S n) fetch) (fun response =>
                  obind (response_json response) (fun fetch_data =>
                  obind (pubmed_normalize w fetch_data id_strings)
                    (fun normalized =>
                       Ok {| provider := "pubmed"; sr_query := query_;
                             content := join (nl ++ nl) (snd normalized);
                             citations := fst normalized;
                             timestamp := clock_ms w (S (S n)) |})))),
               after p [EvHttp search; EvHttp fetch])
          end
    end.
Proof.
  intros n search label. unfold search_pubmed. fold search. unfold after. mrun.
  fold n.
  assert (Hn1 : List.length (trace p ++ [EvHttp search]) = S n).
  { rewrite length_app. cbn. unfold n. lia. }
  destruct (http w n search) as [response | e]; cbn [obind wrap_500];
    [| reflexivity].
  unfold response_json.
  destruct (resp_json response) as [search_data |]; cbn [obind];
    [| reflexivity].
  destruct (pubmed_idlist search_data) as [ids | e]; cbn [obind];
    [| reflexivity].
  destruct (truthy ids); cbn [negb].
  - destruct (py_join_items ids) as [id_strings | e]; cbn [obind wrap_500];
      [| reflexivity].
    mrun. rewrite Hn1.
    assert (Hn2 : List.length
                    ((trace p ++ [EvHttp search])
                     ++ [EvHttp (pubmed_fetch_request id_strings)]) = S (S n)).
    { rewrite length_app, Hn1. cbn. lia. }
    rewrite <- app_assoc. cbn [app].
    destruct (http w (S n) _) as [response2 | e]; cbn [obind wrap_500];
      [| reflexivity].
    unfold response_json.
    destruct (resp_json response2) as [fetch_data |]; cbn [obind wrap_500];
      [| reflexivity].
    destruct (pubmed_normalize w fetch_data id_strings) as [[cs parts] | e];
      cbn [obind wrap_500 fst snd]; [| reflexivity].
    rewrite <- app_assoc in Hn2. cbn [app] in Hn2. cbn [trace]. rewrite Hn2.
    reflexivity.
  - cbn [trace]. rewrite Hn1. reflexivity.
Qed.

Lemma py_join_items_length v items :
  py_join_items v = Ok items ->
  exists elements, py_iter v = Ok elements
                   /\ List.length items = List.length elements.
Proof.
  unfold py_join_items. destruct (py_iter v) as [elements | e]; cbn [obind];
    [| discriminate].
  intros H. exists elements. split; [reflexivity |].
  assert (Hgrow : forall xs acc r,
             ofold (fun acc x =>
                      match x with
                      | JStr s => Ok (acc ++ [s])%list
                      | _ => TypeError
                               ("sequence item: expected str instance, "
                                ++ type_name x ++ " found")
                      end) xs acc = Ok r ->
             List.length r = (List.length acc + List.length xs)%nat).
  { induction xs as [| x xs IH]; intros acc r Hr; cbn in Hr.
    - injection Hr as <-. cbn. lia.
    - destruct x; cbn in Hr; try discriminate Hr.
      apply IH in Hr. rewrite length_app in Hr. cbn in *. lia. }
  apply Hgrow in H. exact H.
Qed.

Lemma py_join_items_nonempty v items :
  truthy v = true -> py_join_items v = Ok items -> items <> [].
Proof.
  intros Htruthy Hjoin.
  apply py_join_items_length in Hjoin as (elements & Hiter & Hlen).
  intros ->. cbn in Hlen.
  destruct v as [| | | | s | l | d]; cbn in Hiter; try discriminate Hiter;
    injection Hiter as <-.
  - destruct s; [discriminate Htruthy | discriminate Hlen].
  - destruct l; [discriminate Htruthy | discriminate Hlen].
  - destruct d; [discriminate Htruthy | discriminate Hlen].
Qed.

(** X4.  [search_pubmed] raises nothing but an [HTTPException] 500 whose
    detail starts with [PubMed search failed: ].  The scraper object is
    never touched; the first effect is always the identifier request for
    the query and [max_results], and it is followed by at most one more,
    the summary request for exactly the identifiers that were listed. *)
Theorem X4_pubmed_errors_and_requests :
  forall w query_ max_results_ p,
    (forall e,
        fst (search_pubmed w query_ max_results_ p) = Raise e ->
        exists message,
          e = HTTPException 500 ("PubMed search failed: " ++ message))
    /\ (snd (search_pubmed w query_ max_results_ p)
        = after p [EvHttp (pubmed_search_request query_ max_results_)]
        \/ pubmed_ids w query_ max_results_ p <> []
           /\ snd (search_pubmed w query_ max_results_ p)
              = after p [EvHttp (pubmed_search_request query_ max_results_);
                         EvHttp (pubmed_fetch_request
                                   (pubmed_ids w query_ max_results_ p))]).
Proof.
  intros w query_ max_results_ p.
  rewrite search_pubmed_run. unfold pubmed_ids.
  destruct (http w _ _) as [response | e0]; cbn [obind].
  - destruct (obind (response_json response) pubmed_idlist) as [ids | e0].
    + destruct (truthy ids) eqn:Etruthy; cbn [negb fst snd].
      * destruct (py_join_items ids) as [id_strings | e0] eqn:Ejoin;
          cbn [fst snd].
        -- split.
           ++ intros e. destruct (obind _ _); cbn; intros H;
                [discriminate H | injection H as <-; eexists; reflexivity].
           ++ right. split; [| reflexivity].
              eapply py_join_items_nonempty; eassumption.
        -- split; [| now left].
           intros e H. injection H as <-. eexists. reflexivity.
      * split; [discriminate | now left].
    + cbn [fst snd wrap_500]. split; [| now left].
      intros e H. injection H as <-. eexists. reflexivity.
  - cbn [fst snd wrap_500]. split; [| now left].
    intros e H. injection H as <-. eexists. reflexivity.
Qed.

(** X4 at an unreachable network. *)
Lemma X4_pubmed_errors_witness :
  exists message,
    HTTPException 500 "PubMed search failed: All connection attempts failed"
    = HTTPException 500 ("PubMed search failed: " ++ message).
Proof.
  apply (proj1 (X4_pubmed_errors_and_requests bare_world "sepsis" 5 fresh)).
  vm_compute. reflexivity.
Defined.

(** X5.  [search_pubmed] never looks at the HTTP status of an answer: with
    the status of every answer replaced by any other, the run is the same.
    An error page with a JSON body is read like a normal answer. *)
Theorem X5_pubmed_ignores_http_status :
  forall w status query_ max_results_ p,
    search_pubmed (with_every_status status w) query_ max_results_ p
    = search_pubmed w query_ max_results_ p.
Proof.
  intros w status query_ max_results_ p.
  rewrite !search_pubmed_run.
  cbn [http with_every_status with_http clock_ms].
  destruct (http w (List.length (trace p)) _) as [response | e];
    cbn [obind]; [| reflexivity].
  unfold response_json at 1 3. cbn [resp_json].
  destruct (resp_json response) as [data |]; cbn [obind]; [| reflexivity].
  destruct (pubmed_idlist data) as [ids | e]; [| reflexivity].
  destruct (truthy ids); cbn [negb]; [| reflexivity].
  destruct (py_join_items ids) as [id_strings | e]; [| reflexivity].
  f_equal. f_equal.
  destruct (http w (S _) _) as [response2 | e]; cbn [obind]; [| reflexivity].
  unfold response_json. cbn [resp_json].
  destruct (resp_json response2) as [fetch_data |]; cbn [obind]; reflexivity.
Qed.

(** ** Aggregation: effects and order *)

Lemma after_nil p : after p [] = p.
Proof. destruct p as [s t]. unfold after. cbn. now rewrite app_nil_r. Qed.

Lemma after_after p a b : after (after p a) b = after p (a ++ b)%list.
Proof. unfold after. cbn. now rewrite app_assoc. Qed.

Lemma search_perplexity_unconfigured w query_ medical_focus model p :
  configured_key w "PERPLEXITY_API_KEY" "VITE_PERPLEXITY_API_KEY" = None ->
  search_perplexity w query_ medical_focus model p
  = (Raise (HTTPException 400 "PERPLEXITY_API_KEY not configured"), p).
Proof.
  intros H. apply configured_key_none, unconfigured_cases in H.
  unfold search_perplexity, getenv. destruct H as [-> | ->]; reflexivity.
Qed.

Lemma search_exa_unconfigured w query_ max_results_ p :
  configured_key w "EXA_API_KEY" "VITE_EXA_API_KEY" = None ->
  search_exa w query_ max_results_ p
  = (Raise (HTTPException 400 "EXA_API_KEY not configured"), p).
Proof.
  intros H. apply configured_key_none, unconfigured_cases in H.
  unfold search_exa, getenv. destruct H as [-> | ->]; reflexivity.
Qed.

Lemma search_tavily_unconfigured w query_ max_results_ p :
  configured_key w "TAVILY_API_KEY" "VITE_TAVILY_API_KEY" = None ->
  search_tavily w query_ max_results_ p
  = (Raise (HTTPException 400 "TAVILY_API_KEY not configured"), p).
Proof.
  intros H. apply configured_key_none, unconfigured_cases in H.
  unfold search_tavily, getenv. destruct H as [-> | ->]; reflexivity.
Qed.

Lemma only_requests_perplexity w query_ medical_focus model :
  only_requests 1 (search_perplexity w query_ medical_focus model).
Proof.
  intros p.
  destruct (configured_key w "PERPLEXITY_API_KEY" "VITE_PERPLEXITY_API_KEY")
    as [key |] eqn:E.
  - rewrite (search_perplexity_run _ _ _ _ _ E). eexists [_]. split; [reflexivity | cbn; lia].
  - rewrite (search_perplexity_unconfigured _ _ _ _ _ E). exists [].
    cbn [snd map]. rewrite after_nil. split; [reflexivity | cbn; lia].
Qed.

Lemma only_requests_exa w query_ max_results_ :
  only_requests 1 (search_exa w query_ max_results_).
Proof.
  intros p.
  destruct (configured_key w "EXA_API_KEY" "VITE_EXA_API_KEY") as [key |] eqn:E.
  - rewrite (search_exa_run _ _ _ _ E). eexists [_]. split; [reflexivity | cbn; lia].
  - rewrite (search_exa_unconfigured _ _ _ _ E). exists [].
    cbn [snd map]. rewrite after_nil. split; [reflexivity | cbn; lia].
Qed.

Lemma only_requests_tavily w query_ max_results_ :
  only_requests 1 (search_tavily w query_ max_results_).
Proof.
  intros p.
  destruct (configured_key w "TAVILY_API_KEY" "VITE_TAVILY_API_KEY")
    as [key |] eqn:E.
  - rewrite (search_tavily_run _ _ _ _ E). eexists [_]. split; [reflexivity | cbn; lia].
  - rewrite (search_tavily_unconfigured _ _ _ _ E). exists [].
    cbn [snd map]. rewrite after_nil. split; [reflexivity | cbn; lia].
Qed.

Lemma pubmed_requests w query_ max_results_ p :
  exists rest,
    snd (search_pubmed w query_ max_results_ p)
    = after p (map EvHttp (pubmed_search_request query_ max_results_ :: rest))
    /\ (List.length rest <= 1)%nat.
Proof.
  rewrite search_pubmed_run.
  destruct (obind _ _) as [ids | e]; [| exists []; split; [reflexivity | cbn; lia]].
  destruct (negb (truthy ids)); [exists []; split; [reflexivity | cbn; lia] |].
  destruct (py_join_items ids) as [id_strings | e];
    [| exists []; split; [reflexivity | cbn; lia]].
  eexists [_]. split; [reflexivity | cbn; lia].
Qed.

Lemma run_tasks_only_requests tasks :
  (forall k task, In (k, task) tasks -> only_requests 1 task) ->
  forall results errors_,
    only_requests (List.length tasks) (run_tasks tasks results errors_).
Proof.
  induction tasks as [| [k task] rest IH]; intros Htasks results errors_ p.
  - exists []. cbn [map run_tasks]. unfold ret. cbn [snd].
    rewrite after_nil. split; [reflexivity | cbn; lia].
  - rewrite run_tasks_cons.
    destruct (Htasks k task (or_introl eq_refl) p) as (r1 & H1 & L1).
    destruct (task p) as [[r | e] p1]; cbn [snd] in H1.
    + destruct (IH (fun k' t' Hin => Htasks k' t' (or_intror Hin))
                  (dict_set k r results) errors_ p1) as (r2 & H2 & L2).
      exists (r1 ++ r2)%list. rewrite H2, H1, after_after, map_app.
      split; [reflexivity |]. rewrite length_app. cbn [List.length]. lia.
    + destruct (IH (fun k' t' Hin => Htasks k' t' (or_intror Hin))
                  results (dict_set k (str_exn e) errors_) p1) as (r2 & H2 & L2).
      exists (r1 ++ r2)%list. rewrite H2, H1, after_after, map_app.
      split; [reflexivity |]. rewrite length_app. cbn [List.length]. lia.
Qed.

Lemma other_tasks_only_requests w request k task :
  In (k, task) (tl (aggregate_tasks w request)) -> only_requests 1 task.
Proof.
  unfold aggregate_tasks. cbn [tl].
  destruct (key_configured w "PERPLEXITY_API_KEY" "VITE_PERPLEXITY_API_KEY"),
           (key_configured w "EXA_API_KEY" "VITE_EXA_API_KEY"),
           (key_configured w "TAVILY_API_KEY" "VITE_TAVILY_API_KEY");
    cbn [app In]; intros H;
    repeat match goal with
           | H : _ \/ _ |- _ => destruct H as [H | H]
           | H : False |- _ => destruct H
           | H : (_, _) = (_, _) |- _ => injection H as <- <-
           end;
    auto using only_requests_perplexity, only_requests_exa,
      only_requests_tavily.
Qed.

(** X6.  [aggregate_search] never touches the scraper object (no browser
    is started, no session flag changes) and its only effects are HTTP
    requests: the PubMed identifier request first, then at most one more
    for PubMed and at most one for each further attempted provider. *)
Theorem X6_aggregate_issues_only_requests :
  forall w request p,
    exists rest,
      snd (aggregate_search w request p)
      = after p (map EvHttp
                   (pubmed_search_request (query request) (max_results request)
                    :: rest))
      /\ (List.length rest <= List.length (attempted w request))%nat
      /\ scraper (snd (aggregate_search w request p)) = scraper p.
Proof.
  intros w request p.
  assert (Hrun : exists rest,
             snd (run_tasks (aggregate_tasks w request) [] [] p)
             = after p (map EvHttp
                          (pubmed_search_request (query request)
                                                 (max_results request) :: rest))
             /\ (List.length rest <= List.length (attempted w request))%nat).
  { unfold attempted.
    change (aggregate_tasks w request)
      with (("pubmed", search_pubmed w (query request) (max_results request))
            :: tl (aggregate_tasks w request)).
    rewrite run_tasks_cons.
    destruct (pubmed_requests w (query request) (max_results request) p)
      as (rest1 & H1 & L1).
    destruct (search_pubmed w (query request) (max_results request) p)
      as [[r | e] p1]; cbn [snd] in H1.
    - destruct (run_tasks_only_requests (tl (aggregate_tasks w request))
                  (other_tasks_only_requests w request)
                  (dict_set "pubmed" r []) [] p1) as (r2 & H2 & L2).
      exists (rest1 ++ r2)%list. rewrite H2, H1, after_after, <- map_app.
      split; [reflexivity |]. rewrite length_app. cbn [map List.length]. 
      rewrite length_map. lia.
    - destruct (run_tasks_only_requests (tl (aggregate_tasks w request))
                  (other_tasks_only_requests w request)
                  [] (dict_set "pubmed" (str_exn e) []) p1) as (r2 & H2 & L2).
      exists (rest1 ++ r2)%list. rewrite H2, H1, after_after, <- map_app.
      split; [reflexivity |]. rewrite length_app. cbn [map List.length].
      rewrite length_map. lia. }
  destruct Hrun as (rest & Hrest & Hlen).
  assert (Hsnd : snd (aggregate_search w request p)
                 = snd (run_tasks (aggregate_tasks w request) [] [] p)).
  { unfold aggregate_search, bind.
    destruct (run_tasks (aggregate_tasks w request) [] [] p)
      as [[[rs es] | e] p1]; reflexivity. }
  exists rest. rewrite Hsnd, Hrest.
  split; [reflexivity | split; [exact Hlen | reflexivity]].
Qed.
Lemma subsequence_refl_nil {A} (l : list A) : subsequence [] l.
Proof. induction l; constructor; auto. Qed.

(** The loop keeps the order of the tasks in both dicts. *)
Lemma run_tasks_order tasks :
  forall results errors_ p,
    NoDup (map fst tasks) ->
    (forall k, In k (map fst tasks) ->
               ~ In k (keys results) /\ ~ In k (keys errors_)) ->
    exists succeeded failed p',
      run_tasks tasks results errors_ p
      = (Ok ((results ++ succeeded)%list, (errors_ ++ failed)%list), p')
      /\ subsequence (keys succeeded) (map fst tasks)
      /\ subsequence (keys failed) (map fst tasks).
Proof.
  induction tasks as [| [k task] rest IH]; intros results errors_ p Hnodup Hfresh.
  - exists [], [], p. cbn. rewrite !app_nil_r. repeat split; constructor.
  - cbn [map fst] in Hnodup. apply NoDup_cons_iff in Hnodup as [Hk Hrest].
    destruct (Hfresh k (or_introl eq_refl)) as [Hkr Hke].
    rewrite run_tasks_cons.
    destruct (task p) as [[r | e] p1].
    + rewrite dict_set_fresh by exact Hkr.
      destruct (IH (results ++ [(k, r)])%list errors_ p1 Hrest)
        as (succeeded & failed & p' & Hrun & Hs & Hf).
      * intros k' Hk'. destruct (Hfresh k' (or_intror Hk')) as [H1 H2].
        split; [| exact H2]. rewrite keys_app, in_app_iff. cbn.
        intros [? | [-> | []]]; [tauto | contradiction].
      * exists ((k, r) :: succeeded), failed, p'.
        rewrite Hrun, <- app_assoc. cbn [app keys map fst].
        split; [reflexivity |]. split; constructor; assumption.
    + rewrite dict_set_fresh by exact Hke.
      destruct (IH results (errors_ ++ [(k, str_exn e)])%list p1 Hrest)
        as (succeeded & failed & p' & Hrun & Hs & Hf).
      * intros k' Hk'. destruct (Hfresh k' (or_intror Hk')) as [H1 H2].
        split; [exact H1 |]. rewrite keys_app, in_app_iff. cbn.
        intros [? | [-> | []]]; [tauto | contradiction].
      * exists succeeded, ((k, str_exn e) :: failed), p'.
        rewrite Hrun, <- app_assoc. cbn [app keys map fst].
        split; [reflexivity |]. split; constructor; assumption.
Qed.

(** X7.  The keys of [sources] and the keys of [errors] each come in the
    order in which the providers are attempted (PubMed, Perplexity, Exa,
    Tavily), whatever the providers answer; [combined_content] and
    [all_citations] are built by walking [sources] in that order. *)
Theorem X7_aggregate_keeps_attempt_order :
  forall w request p,
    exists response p',
      aggregate_search w request p = (Ok response, p')
      /\ subsequence (keys (sources response)) (attempted w request)
      /\ subsequence (keys (errors response)) (attempted w request)
      /\ subsequence (attempted w request)
                     ["pubmed"; "perplexity"; "exa"; "tavily"]
      /\ all_citations response
         = flat_map (fun entry => citations (snd entry)) (sources response)
      /\ combined_content response
         = join divider (flat_map content_section (sources response)).
Proof.
  intros w request p.
  destruct (run_tasks_order (aggregate_tasks w request) [] [] p
              (attempted_nodup w request))
    as (succeeded & failed & p' & Hrun & Hs & Hf).
  { intros k _. split; intros []. }
  cbn [app] in Hrun. eexists. exists p'.
  split.
  { unfold aggregate_search. erewrite bind_step by exact Hrun. mrun.
    reflexivity. }
  cbn [sources errors all_citations combined_content].
  split; [exact Hs | split; [exact Hf | split; [| split; reflexivity]]].
  rewrite attempted_names.
  destruct (key_configured w "PERPLEXITY_API_KEY" "VITE_PERPLEXITY_API_KEY"),
           (key_configured w "EXA_API_KEY" "VITE_EXA_API_KEY"),
           (key_configured w "TAVILY_API_KEY" "VITE_TAVILY_API_KEY");
    cbn [app];
    repeat first [ apply subsequence_take | apply subsequence_skip
                 | apply subsequence_nil ].
Qed.
Lemma SearchResponse_new_fields provider_ query_ content_ cs ts r :
  SearchResponse_new provider_ query_ content_ cs ts = Ok r ->
  provider r = provider_ /\ sr_query r = query_ /\ citations r = cs
  /\ timestamp r = ts /\ content_ = JStr (content r).
Proof.
  unfold SearchResponse_new. destruct content_; cbn; try discriminate.
  intros H. injection H as <-. auto.
Qed.

Lemma translate_transport_ok {A} label (o : outcome A) a :
  translate_transport label o = Ok a -> o = Ok a.
Proof. destruct o as [a' | e]; [auto | destruct e; discriminate]. Qed.

Lemma wrap_500_ok {A} label (o : outcome A) a :
  wrap_500 label o = Ok a -> o = Ok a.
Proof. destruct o as [a' | e]; [auto | discriminate]. Qed.

Lemma search_pubmed_echo w query_ max_results_ p r p' :
  search_pubmed w query_ max_results_ p = (Ok r, p') ->
  provider r = "pubmed" /\ sr_query r = query_.
Proof.
  rewrite search_pubmed_run.
  destruct (obind _ _) as [ids | e]; [| discriminate].
  destruct (negb (truthy ids)).
  - intros H. injection H as <- _. auto.
  - destruct (py_join_items ids) as [id_strings | e]; [| discriminate].
    intros H. injection H as H _. apply wrap_500_ok in H. oinv H.
    injection H as <-. auto.
Qed.

Lemma search_perplexity_echo w query_ medical_focus model p r p' :
  search_perplexity w query_ medical_focus model p = (Ok r, p') ->
  provider r = "perplexity" /\ sr_query r = query_.
Proof.
  destruct (configured_key w "PERPLEXITY_API_KEY" "VITE_PERPLEXITY_API_KEY")
    as [key |] eqn:E.
  - rewrite (search_perplexity_run _ _ _ _ _ E). intros H. injection H as H _.
    apply translate_transport_ok in H. oinv H.
    destruct (negb _); [discriminate H |]. oinv H.
    apply SearchResponse_new_fields in H. tauto.
  - rewrite (search_perplexity_unconfigured _ _ _ _ _ E). discriminate.
Qed.

Lemma search_exa_echo w query_ max_results_ p r p' :
  search_exa w query_ max_results_ p = (Ok r, p') ->
  provider r = "exa" /\ sr_query r = query_.
Proof.
  destruct (configured_key w "EXA_API_KEY" "VITE_EXA_API_KEY") as [key |] eqn:E.
  - rewrite (search_exa_run _ _ _ _ E). intros H. injection H as H _.
    apply translate_transport_ok in H. oinv H.
    destruct (negb _); [discriminate H |]. oinv H.
    apply SearchResponse_new_fields in H. tauto.
  - rewrite (search_exa_unconfigured _ _ _ _ E). discriminate.
Qed.

Lemma search_tavily_echo w query_ max_results_ p r p' :
  search_tavily w query_ max_results_ p = (Ok r, p') ->
  provider r = "tavily" /\ sr_query r = query_.
Proof.
  destruct (configured_key w "TAVILY_API_KEY" "VITE_TAVILY_API_KEY")
    as [key |] eqn:E.
  - rewrite (search_tavily_run _ _ _ _ E). intros H. injection H as H _.
    apply translate_transport_ok in H. oinv H.
    destruct (negb _); [discriminate H |]. oinv H.
    apply SearchResponse_new_fields in H. tauto.
  - rewrite (search_tavily_unconfigured _ _ _ _ E). discriminate.
Qed.

(** X8.  Every entry of [sources] is filed under the name its response
    carries and echoes the query of the request: [sources[k].provider] is
    [k] and [sources[k].query] is the query, as is the query of the
    aggregate response. *)
Theorem X8_sources_are_filed_under_their_provider :
  forall w request p,
    exists response p',
      aggregate_search w request p = (Ok response, p')
      /\ agg_query response = query request
      /\ Forall (fun entry =>
                   provider (snd entry) = fst entry
                   /\ sr_query (snd entry) = query request)
                (sources response).
Proof.
  intros w request p.
  destruct (run_tasks_inv
              (fun k r => provider r = k /\ sr_query r = query request)
              (aggregate_tasks w request) [] [] p (attempted_nodup w request))
    as (succeeded & failed & p' & Hrun & Hall & _).
  - intros k _. split; intros [].
  - intros k task q r q' Hin Hok. unfold aggregate_tasks in Hin.
    destruct Hin as [Hin | Hin].
    + injection Hin as <- <-. eapply search_pubmed_echo. exact Hok.
    + destruct (key_configured w "PERPLEXITY_API_KEY" "VITE_PERPLEXITY_API_KEY"),
               (key_configured w "EXA_API_KEY" "VITE_EXA_API_KEY"),
               (key_configured w "TAVILY_API_KEY" "VITE_TAVILY_API_KEY");
        cbn [app In] in Hin;
        repeat match goal with
               | H : _ \/ _ |- _ => destruct H as [H | H]
               | H : False |- _ => destruct H
               | H : (_, _) = (_, _) |- _ => injection H as <- <-
               end;
        eauto using search_perplexity_echo, search_exa_echo, search_tavily_echo.
  - cbn [app] in Hrun. eexists. exists p'. split.
    { unfold aggregate_search. erewrite bind_step by exact Hrun. mrun.
      reflexivity. }
    cbn [agg_query sources]. split; [reflexivity | exact Hall].
Qed.

(** ** Exa and Tavily: the source of a hit *)

Lemma split_on_length sep s :
  List.length (split_on sep s) = S (count_char sep s).
Proof.
  induction s as [| x s IH]; cbn; [reflexivity |].
  destruct (Ascii.eqb x sep); cbn.
  - now rewrite IH.
  - destruct (split_on sep s) as [| piece pieces]; cbn in *; [discriminate | exact IH].
Qed.

Lemma split_on_no_separator sep s :
  count_char sep s = 0%nat -> split_on sep s = [s].
Proof.
  induction s as [| x s IH]; cbn; [reflexivity |].
  destruct (Ascii.eqb x sep); cbn; [discriminate |].
  intros H. now rewrite (IH H).
Qed.

Lemma split_on_app sep a b :
  count_char sep a = 0%nat ->
  split_on sep (a ++ String sep b) = a :: split_on sep b.
Proof.
  induction a as [| x a IH]; cbn.
  - intros _. now rewrite Ascii.eqb_refl.
  - destruct (Ascii.eqb x sep); cbn; [discriminate |].
    intros H. now rewrite (IH H).
Qed.

Lemma url_source_of_string d fallback u :
  assoc "url" d = Some (JStr u) -> u <> "" ->
  url_source (JObj d) fallback = list_index (split_on "/" u) 2.
Proof.
  intros Hurl Hne. unfold url_source. cbn [py_get obind]. rewrite Hurl.
  cbn [truthy]. destruct (String.eqb_spec u ""); [contradiction |].
  reflexivity.
Qed.

Lemma Citation_new_fields id_ title_ authors_ source_ year_ url_ pmid_ snippet_ c :
  Citation_new id_ title_ authors_ source_ year_ url_ pmid_ snippet_ = Ok c ->
  id c = id_ /\ title_ = JStr (title c) /\ source_ = JStr (source c)
  /\ year c = year_ /\ pmid c = pmid_
  /\ validate_opt_str "url" url_ = Ok (url c)
  /\ validate_opt_str "snippet" snippet_ = Ok (snippet c)
  /\ match authors_ with
     | None => authors c = None
     | Some l => exists names, validate_str_list "authors" l = Ok names
                               /\ authors c = Some names
     end.
Proof.
  unfold Citation_new. intros H.
  destruct title_; cbn [validate_str obind] in H; try discriminate H.
  destruct authors_ as [l |].
  - destruct (validate_str_list "authors" l) as [names | e] eqn:El;
      cbn [obind] in H; [| discriminate H].
    destruct source_; cbn [validate_str obind] in H; try discriminate H.
    destruct (validate_opt_str "url" url_) as [u | e]; cbn [obind] in H;
      [| discriminate H].
    destruct (validate_opt_str "snippet" snippet_) as [sn | e]; cbn [obind] in H;
      [| discriminate H].
    injection H as <-. cbn. repeat split; eauto.
  - cbn [obind] in H.
    destruct source_; cbn [validate_str obind] in H; try discriminate H.
    destruct (validate_opt_str "url" url_) as [u | e]; cbn [obind] in H;
      [| discriminate H].
    destruct (validate_opt_str "snippet" snippet_) as [sn | e]; cbn [obind] in H;
      [| discriminate H].
    injection H as <-. cbn. repeat split; eauto.
Qed.

Lemma exa_citation_source i r c :
  exa_citation i r = Ok c -> url_source r "Exa" = Ok (source c).
Proof.
  unfold exa_citation. intros H. oinv H.
  apply Citation_new_fields in H as (_ & _ & Hs & _).
  injection Hs as ->. reflexivity.
Qed.

Lemma tavily_citation_source i r c :
  tavily_citation i r = Ok c -> url_source r "Tavily" = Ok (source c).
Proof.
  unfold tavily_citation. intros H. oinv H.
  apply Citation_new_fields in H as (_ & _ & Hs & _).
  injection Hs as ->. reflexivity.
Qed.

(** X9.  For a hit whose [url] is a non-empty string, the Exa and the
    Tavily normalization take as source the third piece of the URL split at
    the slashes.  They raise [IndexError] exactly when the URL has fewer
    than two slashes; whenever a citation is built, the URL has at least
    two and the source is that third piece. *)
Theorem X9_hit_source_needs_two_slashes :
  forall i d u,
    assoc "url" d = Some (JStr u) -> u <> "" ->
    ((count_char "/" u < 2)%nat ->
     exa_citation i (JObj d)
     = Raise (PyError "IndexError" "list index out of range")
     /\ tavily_citation i (JObj d)
        = Raise (PyError "IndexError" "list index out of range"))
    /\ (forall c,
           exa_citation i (JObj d) = Ok c \/ tavily_citation i (JObj d) = Ok c ->
           (2 <= count_char "/" u)%nat
           /\ nth_error (split_on "/" u) 2 = Some (source c)).
Proof.
  intros i d u Hurl Hne.
  assert (Hindex : forall fallback,
             url_source (JObj d) fallback = list_index (split_on "/" u) 2).
  { intros fallback. now apply url_source_of_string. }
  pose proof (split_on_length "/" u) as Hlen.
  split.
  - intros Hfew.
    assert (Hnone : nth_error (split_on "/" u) 2 = None).
    { apply nth_error_None. lia. }
    unfold exa_citation, tavily_citation. cbn [py_get obind].
    rewrite !Hindex. unfold list_index. rewrite Hnone. split; reflexivity.
  - intros c [H | H];
      [apply exa_citation_source in H | apply tavily_citation_source in H];
      rewrite Hindex in H; unfold list_index in H;
      destruct (nth_error (split_on "/" u) 2) as [piece |] eqn:En;
      try discriminate H; injection H as <-;
      (split; [| reflexivity]);
      assert (Hsome : nth_error (split_on "/" u) 2 <> None) by congruence;
      apply nth_error_Some in Hsome; lia.
Qed.

(** X9 at a URL with a scheme. *)
Lemma X9_hit_source_witness :
  exa_citation 0 (JObj [("url", JStr "example.com")])
  = Raise (PyError "IndexError" "list index out of range")
  /\ tavily_citation 0 (JObj [("url", JStr "example.com")])
     = Raise (PyError "IndexError" "list index out of range").
Proof.
  apply (proj1 (@X9_hit_source_needs_two_slashes 0
                  [("url", JStr "example.com")] "example.com"
                  eq_refl ltac:(discriminate))).
  cbn. lia.
Defined.

Lemma split_on_scheme_host scheme host path :
  count_char "/" scheme = 0%nat ->
  count_char "/" host = 0%nat ->
  path = "" \/ (exists rest, path = String "/" rest) ->
  exists pieces,
    split_on "/" (scheme ++ "//" ++ host ++ path) = scheme :: "" :: host :: pieces.
Proof.
  intros Hscheme Hhost Hpath.
  change (scheme ++ "//" ++ host ++ path)
    with (scheme ++ String "/" (String "/" (host ++ path))).
  rewrite split_on_app by exact Hscheme.
  change (String "/" (host ++ path)) with ("" ++ String "/" (host ++ path)).
  rewrite split_on_app by reflexivity.
  destruct Hpath as [-> | [rest ->]].
  - replace (host ++ "") with host.
    + rewrite split_on_no_separator by exact Hhost. now exists [].
    + clear. induction host; cbn; congruence.
  - rewrite split_on_app by exact Hhost. eauto.
Qed.

(** X10.  For a hit whose URL is a scheme, two slashes, a host and a path
    that is empty or starts with a slash (neither scheme nor host holding a
    slash), every citation that Exa or Tavily builds has the host as its
    source. *)
Theorem X10_hit_source_is_the_host :
  forall i d scheme host path c,
    assoc "url" d = Some (JStr (scheme ++ "//" ++ host ++ path)) ->
    count_char "/" scheme = 0%nat ->
    count_char "/" host = 0%nat ->
    path = "" \/ (exists rest, path = String "/" rest) ->
    exa_citation i (JObj d) = Ok c \/ tavily_citation i (JObj d) = Ok c ->
    source c = host.
Proof.
  intros i d scheme host path c Hurl Hscheme Hhost Hpath Hc.
  assert (Hne : scheme ++ "//" ++ host ++ path <> "").
  { destruct scheme; cbn; discriminate. }
  destruct (@split_on_scheme_host scheme host path Hscheme Hhost Hpath)
    as [pieces Hsplit].
  assert (Hsource : forall fallback,
             url_source (JObj d) fallback = Ok host).
  { intros fallback. rewrite (@url_source_of_string d fallback _ Hurl Hne).
    rewrite Hsplit. reflexivity. }
  destruct Hc as [H | H];
    [apply exa_citation_source in H | apply tavily_citation_source in H];
    rewrite Hsource in H; now injection H.
Qed.
(** X10 at a hit of the New England Journal. *)
Lemma X10_hit_source_witness :
  exists c,
    exa_citation 0 (JObj [("url", JStr "https://www.nejm.org/doi/1")]) = Ok c
    /\ source c = "www.nejm.org".
Proof.
  eexists. split; [vm_compute; reflexivity |].
  eapply (@X10_hit_source_is_the_host 0
            [("url", JStr "https://www.nejm.org/doi/1")]
            "https:" "www.nejm.org" "/doi/1");
    try reflexivity.
  - right. eexists. reflexivity.
  - left. vm_compute. reflexivity.
Defined.

(** ** Exa and Tavily: fallbacks and bounds *)

Lemma substring_length_le n s : (String.length (substring 0 n s) <= n)%nat.
Proof.
  revert s. induction n as [| n IH]; intros [| c s]; cbn; try lia.
  specialize (IH s). lia.
Qed.

Lemma py_get_dict d k default :
  py_get (JObj d) k default
  = Ok (match assoc k d with Some x => x | None => default end).
Proof. reflexivity. Qed.

Lemma validate_opt_str_slice v n a s :
  py_slice_to v n = Ok a ->
  validate_opt_str "snippet" a = Ok s ->
  exists text, s = Some text /\ (String.length text <= n)%nat.
Proof.
  destruct v; cbn; try discriminate;
    intros H; injection H as <-; cbn; intros H; try discriminate H.
  injection H as <-.
  eexists. split; [reflexivity |]. apply substring_length_le.
Qed.

(** X11.  Whenever Exa or Tavily builds a citation from a hit, the id is
    the provider's tag and the position, authors, year and PubMed id are
    absent, a missing title becomes [Untitled] and a missing URL gives the
    provider's name as source and the empty string as URL.  A Tavily
    snippet always exists and has at most 300 characters; an Exa snippet
    has that bound when the hit has no highlights. *)
Theorem X11_hit_fallbacks_and_bounds :
  forall i d c,
    (tavily_citation i (JObj d) = Ok c ->
     id c = "tavily-" ++ str_nat i
     /\ authors c = None /\ year c = None /\ pmid c = None
     /\ (assoc "title" d = None -> title c = "Untitled")
     /\ (assoc "url" d = None -> source c = "Tavily" /\ url c = Some "")
     /\ exists text, snippet c = Some text /\ (String.length text <= 300)%nat)
    /\ (exa_citation i (JObj d) = Ok c ->
        id c = "exa-" ++ str_nat i
        /\ authors c = None /\ year c = None /\ pmid c = None
        /\ (assoc "title" d = None -> title c = "Untitled")
        /\ (assoc "url" d = None -> source c = "Exa" /\ url c = Some "")
        /\ (assoc "highlights" d = None ->
            exists text, snippet c = Some text
                         /\ (String.length text <= 300)%nat)).
Proof.
  intros i d c. split; intros H.
  - unfold tavily_citation, url_source in H. rewrite !py_get_dict in H.
    cbn [obind] in H. oinv H.
    apply Citation_new_fields in H as (Hid & Ht & Hs & Hy & Hp & Hu & Hsn & Ha).
    injection Hs as <-.
    split; [exact Hid |]. split; [exact Ha |]. split; [exact Hy |].
    split; [exact Hp |]. split; [| split].
    + intros Hnone. rewrite Hnone in Ht. now injection Ht.
    + intros Hnone. rewrite Hnone in E, Hu. cbn in E, Hu.
      injection E as <-. injection Hu as <-. auto.
    + eapply validate_opt_str_slice; eassumption.
  - unfold exa_citation, url_source in H. rewrite !py_get_dict in H.
    cbn [obind] in H. oinv H.
    apply Citation_new_fields in H as (Hid & Ht & Hs & Hy & Hp & Hu & Hsn & Ha).
    injection Hs as <-.
    split; [exact Hid |]. split; [exact Ha |]. split; [exact Hy |].
    split; [exact Hp |]. split; [| split].
    + intros Hnone. rewrite Hnone in Ht. now injection Ht.
    + intros Hnone. rewrite Hnone in E, Hu. cbn in E, Hu.
      injection E as <-. injection Hu as <-. auto.
    + intros Hnone. rewrite Hnone in E0. cbn [truthy obind] in E0.
      eapply validate_opt_str_slice; eassumption.
Qed.
(** X11 at a Tavily hit that has only a content. *)
Lemma X11_hit_fallbacks_witness :
  exists c,
    tavily_citation 0 (JObj [("content", JStr "Early antibiotics")]) = Ok c
    /\ title c = "Untitled" /\ source c = "Tavily" /\ url c = Some "".
Proof.
  eexists. split; [vm_compute; reflexivity |].
  match goal with
  | |- title ?c = _ /\ _ =>
      destruct (proj1 (X11_hit_fallbacks_and_bounds 0
                         [("content", JStr "Early antibiotics")] c) eq_refl)
        as (_ & _ & _ & _ & Htitle & Hurl & _)
  end.
  split; [exact (Htitle eq_refl) | exact (Hurl eq_refl)].
Defined.

(** ** Perplexity: the answer and its links *)

Lemma perplexity_links links :
  forall i,
    omap_enum perplexity_citation i (map JStr links)
    = Ok (map_enum link_citation i links).
Proof.
  induction links as [| link links IH]; intros i; cbn; [reflexivity |].
  rewrite IH. reflexivity.
Qed.

(** X12.  The Perplexity normalization reads a body without [choices] as
    the empty answer and a body without [citations] as no citation; a list
    of links becomes one citation per link, in order, each with the link as
    title and URL, [Perplexity] as source and [pplx-<position>] as id.  A
    body whose [choices] is the empty list makes it raise [IndexError]. *)
Theorem X12_perplexity_normalization :
  forall d,
    (assoc "choices" d = None ->
     (assoc "citations" d = None ->
      perplexity_normalize (JObj d) = Ok (JStr "", []))
     /\ (forall links,
            assoc "citations" d = Some (JArr (map JStr links)) ->
            perplexity_normalize (JObj d)
            = Ok (JStr "", map_enum link_citation 0 links)))
    /\ (forall answer links,
           assoc "choices" d
           = Some (JArr [JObj [("message", JObj [("content", answer)])]]) ->
           assoc "citations" d = Some (JArr (map JStr links)) ->
           perplexity_normalize (JObj d)
           = Ok (answer, map_enum link_citation 0 links))
    /\ (assoc "choices" d = Some (JArr []) ->
        perplexity_normalize (JObj d)
        = Raise (PyError "IndexError" "list index out of range")).
Proof.
  intros d. unfold perplexity_normalize. rewrite !py_get_dict. cbn [obind].
  split; [| split].
  - intros Hchoices. rewrite Hchoices. cbn [py_index nth_error py_get assoc obind].
    split.
    + intros ->. reflexivity.
    + intros links ->. cbn [py_iter obind]. rewrite perplexity_links. reflexivity.
  - intros answer links -> ->.
    cbn [py_index nth_error py_get assoc obind String.eqb Ascii.eqb Bool.eqb py_iter].
    rewrite perplexity_links. reflexivity.
  - intros ->. reflexivity.
Qed.

(** X12 at a body with an answer and two links. *)
Lemma X12_perplexity_normalization_witness :
  perplexity_normalize
    (JObj [("choices",
            JArr [JObj [("message", JObj [("content", JStr "Sepsis is ...")])]]);
           ("citations", JArr (map JStr ["https://www.nejm.org/a";
                                          "https://jamanetwork.com/b"]))])
  = Ok (JStr "Sepsis is ...",
        map_enum link_citation 0 ["https://www.nejm.org/a";
                                  "https://jamanetwork.com/b"]).
Proof.
  apply (proj1 (proj2 (X12_perplexity_normalization _))); reflexivity.
Defined.

(** ** PubMed: the normalization of the summaries *)

Lemma chars_length s : List.length (chars s) = String.length s.
Proof. induction s; cbn; congruence. Qed.

Lemma slice_iter_length v n a l :
  py_slice_to v n = Ok a -> py_iter a = Ok l -> (List.length l <= n)%nat.
Proof.
  destruct v; cbn; try discriminate; intros H; injection H as <-; cbn;
    intros H; injection H as <-.
  - rewrite length_map, chars_length. apply substring_length_le.
  - apply firstn_le_length.
Qed.

Lemma pubmed_article_shape w result_data acc pmid_ acc' :
  pubmed_article w result_data acc pmid_ = Ok acc' ->
  has_summary result_data pmid_ = false /\ acc' = acc
  \/ has_summary result_data pmid_ = true
     /\ exists c block,
          acc' = ((fst acc ++ [c])%list, (snd acc ++ [block])%list)
          /\ pmid c = Some pmid_ /\ pubmed_shaped c.
Proof.
  unfold pubmed_article, has_summary. intros H.
  destruct (py_get result_data pmid_ (JObj [])) as [article | e];
    cbn [obind] in H; [| discriminate H].
  destruct article as [| | | | | | [| item items]];
    try (injection H as <-; left; split; reflexivity).
  oinv H. injection H as <-. right. split; [reflexivity |].
  match goal with
  | Hc : Citation_new _ _ _ _ _ _ _ _ = Ok ?c |- _ =>
      apply Citation_new_fields in Hc
        as (Hid & _ & _ & _ & Hp & Hu & Hsn & (names & Hnames & Ha));
      exists c
  end.
  eexists. split; [reflexivity |]. split; [exact Hp |].
  exists pmid_. cbn in Hu, Hsn. injection Hu as <-. injection Hsn as <-.
  repeat split; auto.
  exists names. split; [exact Ha |].
  unfold validate_str_list, omap in Hnames.
  apply omap_enum_length in Hnames. rewrite Hnames.
  match goal with
  | Ho : omap _ _ = Ok _ |- _ =>
      unfold omap in Ho; apply omap_enum_length in Ho; rewrite Ho
  end.
  eapply slice_iter_length; eassumption.
Qed.

Lemma pubmed_fold_shape w result_data ids :
  forall acc acc',
    ofold (pubmed_article w result_data) ids acc = Ok acc' ->
    exists cs parts,
      acc' = ((fst acc ++ cs)%list, (snd acc ++ parts)%list)
      /\ List.length cs = List.length parts
      /\ map pmid cs = map Some (filter (has_summary result_data) ids)
      /\ Forall pubmed_shaped cs.
Proof.
  induction ids as [| pmid_ rest IH]; intros acc acc' H; cbn in H.
  - injection H as <-. exists [], []. rewrite !app_nil_r.
    destruct acc. repeat split; constructor.
  - destruct (pubmed_article w result_data acc pmid_) as [acc1 | e] eqn:Estep;
      cbn [obind] in H; [| discriminate H].
    destruct (IH _ _ H) as (cs & parts & -> & Hlen & Hsub & Hall).
    apply pubmed_article_shape in Estep
      as [[Hno ->] | (Hyes & c & block & -> & Hp & Hshape)];
      cbn [filter]; [rewrite Hno | rewrite Hyes].
    + exists cs, parts. repeat split; auto.
    + exists (c :: cs), (block :: parts). cbn [fst snd].
      rewrite <- !app_assoc. cbn [app map List.length].
      repeat split; auto. now rewrite Hp, Hsub.
Qed.

(** X13.  When the PubMed normalization returns, it has built one content
    block per citation and one citation, in order, for exactly the listed
    identifiers under which the [result] of the body holds a non-empty
    summary; the others are passed over.  Each citation is made around its
    identifier ([pubmed-<id>] as id, the article's PubMed page as URL), has
    at most three authors and no snippet. *)
Theorem X13_pubmed_normalization_shape :
  forall w fetch_data ids cs parts,
    pubmed_normalize w fetch_data ids = Ok (cs, parts) ->
    exists result_data,
      py_get fetch_data "result" (JObj []) = Ok result_data
      /\ List.length cs = List.length parts
      /\ map pmid cs = map Some (filter (has_summary result_data) ids)
      /\ Forall pubmed_shaped cs.
Proof.
  intros w fetch_data ids cs parts H. unfold pubmed_normalize in H.
  destruct (py_get fetch_data "result" (JObj [])) as [result_data | e];
    cbn [obind] in H; [| discriminate H].
  exists result_data. split; [reflexivity |].
  apply pubmed_fold_shape in H as (cs' & parts' & Heq & Hlen & Hsub & Hall).
  cbn [fst snd app] in Heq. injection Heq as -> ->. auto.
Qed.

(** X13 at the summaries of two identifiers of which one is known. *)
Lemma X13_pubmed_normalization_witness :
  exists cs parts,
    pubmed_normalize bare_world
      (JObj [("result",
              JObj [("31452104",
                     JObj [("title", JStr "Sepsis and septic shock");
                           ("authors",
                            JArr [JObj [("name", JStr "A")];
                                  JObj [("name", JStr "B")];
                                  JObj [("name", JStr "C")];
                                  JObj [("name", JStr "D")]])])])])
      ["29562430"; "31452104"] = Ok (cs, parts)
    /\ map pmid cs = [Some "31452104"]
    /\ Forall pubmed_shaped cs.
Proof.
  eexists. eexists. split; [vm_compute; reflexivity |].
  match goal with
  | |- map pmid ?cs = _ /\ _ =>
      destruct (@X13_pubmed_normalization_shape bare_world
                  (JObj [("result",
                          JObj [("31452104",
                                 JObj [("title", JStr "Sepsis and septic shock");
                                       ("authors",
                                        JArr [JObj [("name", JStr "A")];
                                              JObj [("name", JStr "B")];
                                              JObj [("name", JStr "C")];
                                              JObj [("name", JStr "D")]])])])])
                  ["29562430"; "31452104"] cs _ eq_refl)
        as (rd & Hrd & _ & Hmap & Hall)
  end.
  split; [reflexivity | exact Hall].
Defined.

(** ** UpToDate and MKSAP: what a search returns and how it fails *)

Lemma prefix_app_r a b c :
  String.prefix a b = true -> String.prefix a (b ++ c) = true.
Proof.
  revert b. induction a as [| x a IH]; intros b H.
  - destruct (b ++ c); reflexivity.
  - destruct b as [| y b]; cbn [String.prefix] in H; [discriminate H |].
    cbn [append String.prefix].
    destruct (ascii_dec x y); [now apply IH | discriminate H].
Qed.

Lemma absolute_cases base link :
  startswith "http" base = true ->
  absolute base link = ""
  \/ startswith "http" (absolute base link) = true.
Proof.
  intros Hbase. unfold absolute.
  destruct (String.eqb_spec link "") as [-> | Hne]; cbn [negb andb]; [now left |].
  destruct (startswith "http" link) eqn:E; cbn [negb]; [now right |].
  right. now apply prefix_app_r.
Qed.

Lemma map_enum_length {A B} (f : nat -> A -> B) xs :
  forall i, List.length (map_enum f i xs) = List.length xs.
Proof. induction xs; intros i; cbn; auto. Qed.

Lemma map_enum_Forall {A B} (P : B -> Prop) (f : nat -> A -> B) xs :
  (forall i x, P (f i x)) -> forall i, Forall P (map_enum f i xs).
Proof. intros Hf. induction xs; intros i; cbn; constructor; auto. Qed.

Lemma map_enum_seq {A B} (f : nat -> A -> B) (g : B -> string) label xs :
  (forall i x, g (f i x) = label ++ str_nat i) ->
  forall i, map g (map_enum f i xs)
            = map (fun j => label ++ str_nat j) (seq i (List.length xs)).
Proof.
  intros Hf. induction xs as [| x xs IH]; intros i; cbn; [reflexivity |].
  now rewrite Hf, IH.
Qed.

Lemma list_slice_to_length {A} (n : Z) (l : list A) :
  (0 <= n)%Z -> (List.length (list_slice_to n l) <= Z.to_nat n)%nat.
Proof.
  intros Hn. unfold list_slice_to.
  destruct (Z.leb_spec 0 n); [apply firstn_le_length | lia].
Qed.

Lemma uptodate_hit_shaped i result : site_shaped "UpToDate" (fst (uptodate_hit i result)).
Proof.
  unfold uptodate_hit, site_shaped. cbn [fst source title url snippet authors year pmid].
  repeat split; auto using substring_length_le.
  - eexists. split; [reflexivity |]. now apply absolute_cases.
  - eexists. split; [reflexivity |]. apply substring_length_le.
Qed.

Lemma mksap_hit_shaped i result : site_shaped "MKSAP 19" (fst (mksap_hit i result)).
Proof.
  unfold mksap_hit, site_shaped. cbn [fst source title url snippet authors year pmid].
  repeat split; auto using substring_length_le.
  - eexists. split; [reflexivity |]. now apply absolute_cases.
  - destruct (tag_parent_text result) as [text |]; eexists;
      (split; [reflexivity |]).
    + apply substring_length_le.
    + pose proof (substring_length_le 200 (tag_text result)).
      unfold str_slice_to. lia.
Qed.

Lemma BeautifulSoup_ok w html soup :
  BeautifulSoup w html = Ok soup -> SCRAPING_LIBS_AVAILABLE w = true /\ soup = html.
Proof.
  unfold BeautifulSoup. destruct (SCRAPING_LIBS_AVAILABLE w); [| discriminate].
  intros H. injection H as <-. auto.
Qed.

Lemma uptodate_hits_inv w query_ max_results_ p cs parts p' :
  uptodate_hits w query_ max_results_ p = (Ok (cs, parts), p') ->
  SCRAPING_LIBS_AVAILABLE w = true
  /\ exists tags,
       cs = map fst (map_enum uptodate_hit 0 (list_slice_to max_results_ tags))
       /\ parts = map snd (map_enum uptodate_hit 0
                             (list_slice_to max_results_ tags)).
Proof.
  unfold uptodate_hits. intros H.
  binv H as u1 q1 Hgoto. binv H as u2 q2 Hwait. binv H as u3 q3 Hsleep.
  binv H as content_html q4 Hcontent. binv H as soup q5 Hsoup.
  apply lift_ok_inv in Hsoup as [Hsoup ->].
  apply BeautifulSoup_ok in Hsoup as [Hlibs ->].
  unfold ret in H. injection H as <- <- _.
  split; [exact Hlibs |]. eexists. split; reflexivity.
Qed.

Lemma uptodate_first_content_total w cs p :
  exists text p', uptodate_first_content w cs p = (Ok text, p').
Proof.
  unfold uptodate_first_content.
  destruct cs as [| c rest]; [eexists; eexists; reflexivity |].
  destruct (url c) as [target |]; [| eexists; eexists; reflexivity].
  destruct (String.eqb target ""); [eexists; eexists; reflexivity |].
  unfold try_except.
  destruct (uptodate_article w target p) as [[text | e] p1];
    eexists; eexists; reflexivity.
Qed.

Lemma search_uptodate_ok_inv w query_ max_results_ p r p' :
  search_uptodate w query_ max_results_ p = (Ok r, p') ->
  logged_in_uptodate (scraper p) = true
  /\ exists p1 p2 cs parts text,
       start_browser w true p = (Ok true, p1)
       /\ uptodate_hits w query_ max_results_ p1 = (Ok (cs, parts), p2)
       /\ uptodate_first_content w cs p2 = (Ok text, p')
       /\ r = {| provider := "uptodate"; sr_query := query_;
                 content := if negb (String.eqb text "") then text
                            else join divider parts;
                 citations := cs;
                 timestamp := clock_ms w (List.length (trace p')) |}.
Proof.
  unfold search_uptodate. intros H.
  binv H as s q0 Hs. unfold get_scraper in Hs. injection Hs as <- <-.
  destruct (logged_in_uptodate (scraper p)); cbn [negb] in H; [| discriminate H].
  split; [reflexivity |].
  binv H as started p1 Hstart.
  destruct started; cbn [negb] in H; [| discriminate H].
  apply try_except_ok_inv in H as [H | (e & q & _ & H)]; [| discriminate H].
  binv H as hits p2 Hhits. destruct hits as [cs parts].
  binv H as text p3 Htext. binv H as ts p4 Hts.
  unfold time_ms, bind, now, ret in Hts. injection Hts as <- <-.
  unfold ret in H. injection H as <- <-.
  exists p1, p2, cs, parts, text. auto.
Qed.

Lemma search_mksap_ok_inv w query_ max_results_ p r p' :
  search_mksap w query_ max_results_ p = (Ok r, p') ->
  logged_in_mksap (scraper p) = true
  /\ SCRAPING_LIBS_AVAILABLE w = true
  /\ exists tags,
       let hits := map_enum mksap_hit 0 (list_slice_to max_results_ tags) in
       r = {| provider := "mksap"; sr_query := query_;
              content := join divider (map snd hits);
              citations := map fst hits;
              timestamp := clock_ms w (List.length (trace p')) |}.
Proof.
  unfold search_mksap. intros H.
  binv H as s q0 Hs. unfold get_scraper in Hs. injection Hs as <- <-.
  destruct (logged_in_mksap (scraper p)); cbn [negb] in H; [| discriminate H].
  split; [reflexivity |].
  binv H as started p1 Hstart.
  destruct started; cbn [negb] in H; [| discriminate H].
  apply try_except_ok_inv in H as [H | (e & q & _ & H)]; [| discriminate H].
  binv H as u1 q1 Hgoto. binv H as u2 q2 Hwait. binv H as u3 q3 Hsleep.
  binv H as content_html q4 Hcontent. binv H as soup q5 Hsoup.
  apply lift_ok_inv in Hsoup as [Hsoup ->].
  apply BeautifulSoup_ok in Hsoup as [Hlibs ->].
  binv H as ts p4 Hts.
  unfold time_ms, bind, now, ret in Hts. injection Hts as <- <-.
  unfold ret in H. injection H as <- <-.
  split; [exact Hlibs |]. eexists. reflexivity.
Qed.


#[warnings="-abstract-large-number"] Lemma uptodate_article_length w target p text p' :
  uptodate_article w target p = (Ok text, p') ->
  (String.length text <= 8000)%nat.
Proof.
  unfold uptodate_article. intros H.
  binv H as u1 q1 Hgoto. binv H as u2 q2 Hwait. binv H as u3 q3 Hsleep.
  binv H as article_html q4 Hcontent. binv H as soup q5 Hsoup.
  match type of H with
  | (match ?m with Some _ => _ | None => _ end) _ = _ => destruct m
  end; unfold ret in H; injection H as <- _.
  - apply substring_length_le.
  - cbn. lia.
Qed.

(** X15.  In a signed-in process with a running browser, when the search
    page yields hits, the first of them has a URL and the fetch of its
    article returns a text, the content of the response is that text, which
    has at most 8000 characters, unless it is empty: then the content is the
    snippet blocks joined by the divider.  The citations are the hits in
    both cases. *)
#[warnings="-abstract-large-number"] Theorem X15_uptodate_prefers_the_article :
  forall w query_ max_results_ p p1 c rest content_parts p2 target text p3,
    logged_in_uptodate (scraper p) = true ->
    start_browser w true p = (Ok true, p1) ->
    uptodate_hits w query_ max_results_ p1 = (Ok (c :: rest, content_parts), p2) ->
    url c = Some target ->
    target <> "" ->
    uptodate_article w target p2 = (Ok text, p3) ->
    search_uptodate w query_ max_results_ p
    = (Ok {| provider := "uptodate"; sr_query := query_;
             content := if String.eqb text "" then join divider content_parts
                        else text;
             citations := c :: rest;
             timestamp := clock_ms w (List.length (trace p3)) |}, p3)
    /\ (String.length text <= 8000)%nat.
Proof.
  intros w query_ max_results_ p p1 c rest content_parts p2 target text p3
         Hflag Hstart Hhits Hurl Htarget Harticle.
  split; [| eapply uptodate_article_length; eassumption].
  unfold search_uptodate.
  unfold bind at 1, get_scraper. rewrite Hflag. cbn [negb].
  erewrite bind_step by exact Hstart. cbn [negb].
  unfold try_except at 1.
  erewrite bind_step by exact Hhits.
  unfold uptodate_first_content. rewrite Hurl.
  destruct (String.eqb_spec target ""); [contradiction |].
  unfold bind at 1, try_except. rewrite Harticle.
  mrun. destruct (String.eqb text ""); reflexivity.
Qed.

(** X15 at a search with one hit whose article is served. *)
Lemma X15_uptodate_article_witness :
  exists r,
    fst (search_uptodate article_world "sepsis" 5 signed_in_uptodate) = Ok r
    /\ content r = "<article>Sepsis is a syndrome.</article>".
Proof.
  set (w := article_world).
  pose (p1 := snd (start_browser w true signed_in_uptodate)).
  pose (p2 := snd (uptodate_hits w "sepsis" 5 p1)).
  pose (target := "https://www.uptodate.com/contents/sepsis-in-adults").
  pose (p3 := snd (uptodate_article w target p2)).
  eexists.
  rewrite (proj1 (@X15_uptodate_prefers_the_article w "sepsis" 5
                    signed_in_uptodate p1
                    {| id := "uptodate-0"; title := "Sepsis in adults";
                       authors := None; source := "UpToDate"; year := None;
                       url := Some target; pmid := None;
                       snippet := Some "Sepsis in adults: evaluation and management" |}
                    []
                    ["**Sepsis in adults**" ++ nl
                     ++ "Sepsis in adults: evaluation and management"]
                    p2 target "<article>Sepsis is a syndrome.</article>" p3
                    eq_refl eq_refl eq_refl eq_refl
                    ltac:(discriminate) eq_refl)).
  split; reflexivity.
Defined.
Lemma site_search_raises {A} w (flag : bool) (denied : string) (label : string)
      (body : M A) p e :
  fst (bind get_scraper (fun _ =>
         if negb flag then raise (HTTPException 401 denied)
         else bind (start_browser w true) (fun started =>
                if negb started
                then raise (HTTPException 500 "Browser not available")
                else try_except body
                       (fun e => raise (HTTPException 500 (label ++ str_exn e)))))
         p) = Raise e ->
  e = HTTPException 401 denied /\ flag = false
  \/ flag = true
     /\ (e = HTTPException 500 "Browser not available"
         \/ exists message, e = HTTPException 500 (label ++ message)).
Proof.
  unfold bind at 1, get_scraper. destruct flag; cbn [negb].
  - intros H. right. split; [reflexivity |]. unfold bind in H.
    destruct (total_start_browser w true p) as [started Hstarted].
    destruct (start_browser w true p) as [o p1]. cbn [fst] in Hstarted.
    subst o. destruct started; cbn [negb] in H.
    + right. unfold try_except in H.
      destruct (body p1) as [[a | e0] p2]; cbn in H; [discriminate H |].
      injection H as <-. eauto.
    + left. cbn in H. now injection H as <-.
  - intros H. cbn in H. injection H as <-. auto.
Qed.



(** ** The browser *)

Lemma start_browser_started w headless p :
  browser (scraper p) = true ->
  PLAYWRIGHT_AVAILABLE w = true ->
  start_browser w headless p = (Ok true, p).
Proof.
  intros Hb Hpw. unfold start_browser. rewrite Hpw. cbn [negb].
  unfold bind, get_scraper. rewrite Hb. reflexivity.
Qed.

Lemma browser_do_state w c p r p' :
  browser_do w c p = (r, p') -> scraper p' = scraper p.
Proof.
  unfold browser_do. mrun. destruct (browser_call w _ c); intros H;
    injection H as _ <-; reflexivity.
Qed.

Lemma start_browser_true w headless p p' :
  start_browser w headless p = (Ok true, p') ->
  PLAYWRIGHT_AVAILABLE w = true
  /\ browser (scraper p') = true
  /\ (browser (scraper p) = true -> p' = p)
  /\ (browser (scraper p) = false -> page (scraper p') = true).
Proof.
  unfold start_browser.
  destruct (PLAYWRIGHT_AVAILABLE w); cbn [negb]; [| discriminate].
  unfold bind at 1, get_scraper.
  destruct (browser (scraper p)) eqn:Hb.
  - intros H. injection H as <-. repeat split; auto. discriminate.
  - intros H. split; [reflexivity |].
    apply try_except_ok_inv in H as [H | (e & q & _ & H)].
    + binv H as u1 q1 H1. apply browser_do_state in H1.
      binv H as u2 q2 H2. binv H as u3 q3 H3. apply browser_do_state in H3.
      binv H as u4 q4 H4. binv H as n q5 H5. binv H as u6 q6 H6.
      apply browser_do_state in H6.
      binv H as u7 q7 H7. binv H as u8 q8 H8. apply browser_do_state in H8.
      binv H as u9 q9 H9.
      unfold modify in *. unfold now in H5. unfold ret in H.
      injection H as <-. injection H9 as <-. injection H7 as <-.
      injection H5 as _ <-. injection H4 as <-. injection H2 as <-.
      subst.
      cbn [scraper browser page with_page with_context with_browser].
      rewrite H8. cbn [scraper browser page with_page with_context with_browser].
      rewrite H6. cbn [scraper browser page with_page with_context with_browser].
      repeat split; auto. discriminate.
    + binv H as u q1 Hprint. unfold ret in H. discriminate H.
Qed.

(** X17.  [start_browser] never raises.  Without Playwright it returns
    [False] and does nothing.  When it returns [True] the browser attribute
    is set, and from then on every call returns [True] again without
    issuing any effect or changing any attribute; a call that found no
    browser and returned [True] has also opened a page. *)
Theorem X17_start_browser_is_idempotent :
  forall w headless p,
    (exists started p', start_browser w headless p = (Ok started, p'))
    /\ (PLAYWRIGHT_AVAILABLE w = false ->
        start_browser w headless p = (Ok false, p))
    /\ (forall p',
           start_browser w headless p = (Ok true, p') ->
           browser (scraper p') = true
           /\ (browser (scraper p) = false -> page (scraper p') = true)
           /\ forall again, start_browser w again p' = (Ok true, p')).
Proof.
  intros w headless p. split; [| split].
  - destruct (total_start_browser w headless p) as [started H].
    destruct (start_browser w headless p) as [o p']. cbn in H. subst o. eauto.
  - intros Hpw. unfold start_browser. rewrite Hpw. reflexivity.
  - intros p' H. apply start_browser_true in H as (Hpw & Hb & _ & Hpage).
    split; [exact Hb |]. split; [exact Hpage |].
    intros again. now apply start_browser_started.
Qed.

(** X17 at a browser that does whatever it is asked. *)
Lemma X17_start_browser_witness :
  let p' := snd (start_browser bare_world true fresh) in
  browser (scraper p') = true
  /\ (browser (scraper fresh) = false -> page (scraper p') = true)
  /\ forall again, start_browser bare_world again p' = (Ok true, p').
Proof.
  intros p'.
  apply (proj2 (proj2 (X17_start_browser_is_idempotent bare_world true fresh))).
  vm_compute. reflexivity.
Defined.

Lemma page_do_without_page w c p :
  page (scraper p) = false ->
  page_do w c p
  = (Raise (PyError "AttributeError"
              ("'NoneType' object has no attribute '" ++ method_name c ++ "'")),
     p).
Proof.
  intros Hpage. unfold page_do, on_page, bind, get_scraper. rewrite Hpage.
  reflexivity.
Qed.

Lemma login_without_page w (body : M bool) (label : string) (k : unit -> M bool) p :
  PLAYWRIGHT_AVAILABLE w = true ->
  browser (scraper p) = true ->
  page (scraper p) = false ->
  body = bind (page_do w (Goto label)) k ->
  forall prefix,
    bind (start_browser w true) (fun started =>
      if negb started then ret false
      else try_except body
             (fun e => bind (print (prefix ++ str_exn e)) (fun _ => ret false))) p
    = (Ok false,
       after p [EvPrint (prefix ++ "'NoneType' object has no attribute 'goto'")]).
Proof.
  intros Hpw Hb Hpage -> prefix.
  erewrite bind_step by (now apply start_browser_started).
  cbn [negb]. unfold try_except, bind at 1.
  rewrite page_do_without_page by exact Hpage. reflexivity.
Qed.

(** X18.  A start of the browser that fails after the launch (the launch
    succeeds and the new context raises) returns [False] but leaves the
    browser attribute set and no page.  From such a state every later
    [start_browser] returns [True] without doing anything, so every later
    login, for any credentials, fails at its first page call: it returns
    [False], prints the failure and leaves the state as stuck as it was. *)
Theorem X18_half_started_browser_stays_broken :
  forall w,
    PLAYWRIGHT_AVAILABLE w = true ->
    (forall headless p e,
        browser (scraper p) = false ->
        let n := List.length (trace p) in
        browser_call w n PlaywrightStart = None ->
        browser_call w (S n) (Launch headless) = None ->
        browser_call w (S (S n))
          (NewContext (nth (random_index w (S (S n)) (List.length USER_AGENTS)
                            mod List.length USER_AGENTS) USER_AGENTS ""))
        = Some e ->
        exists p',
          start_browser w headless p = (Ok false, p')
          /\ browser (scraper p') = true
          /\ page (scraper p') = page (scraper p)
          /\ flags p' = flags p)
    /\ (forall p,
           browser (scraper p) = true -> page (scraper p) = false ->
           (forall headless, start_browser w headless p = (Ok true, p))
           /\ (forall username password,
                  login_uptodate w username password p
                  = (Ok false,
                     after p [EvPrint ("UpToDate login failed: "
                                       ++ "'NoneType' object has no attribute 'goto'")]))
           /\ (forall username password,
                  login_mksap w username password p
                  = (Ok false,
                     after p [EvPrint ("MKSAP login failed: "
                                       ++ "'NoneType' object has no attribute 'goto'")]))
           /\ forall events,
               browser (scraper (after p events)) = true
               /\ page (scraper (after p events)) = false).
Proof.
  intros w Hpw. split.
  - intros headless p e Hb n Hstart Hlaunch Hcontext.
    unfold start_browser. rewrite Hpw. cbn [negb].
    unfold bind at 1, get_scraper. rewrite Hb.
    unfold try_except, browser_do. mrun. fold n. rewrite Hstart. mrun.
    rewrite length_app. cbn [List.length]. rewrite Nat.add_1_r. fold n.
    rewrite Hlaunch. mrun.
    rewrite !length_app. cbn [List.length]. rewrite !Nat.add_1_r. fold n.
    rewrite Hcontext. mrun.
    eexists. split; [reflexivity |]. cbn. auto.
  - intros p Hb Hpage. split; [| split; [| split]].
    + intros headless. now apply start_browser_started.
    + intros username password. unfold login_uptodate.
      eapply login_without_page;
        [exact Hpw | exact Hb | exact Hpage | reflexivity].
    + intros username password. unfold login_mksap.
      eapply login_without_page;
        [exact Hpw | exact Hb | exact Hpage | reflexivity].
    + intros events. cbn. auto.
Qed.

(** X18 at a first start whose context cannot be opened. *)
Lemma X18_half_started_browser_witness :
  let w := context_failure_world in
  let p' := snd (start_browser w true fresh) in
  fst (start_browser w true fresh) = Ok false
  /\ login_uptodate w "user" "secret" p'
     = (Ok false,
        after p' [EvPrint ("UpToDate login failed: "
                           ++ "'NoneType' object has no attribute 'goto'")]).
Proof.
  intros w p'. split; [vm_compute; reflexivity |].
  apply (proj1 (proj2 (proj2 (X18_half_started_browser_stays_broken
                                w eq_refl) p' eq_refl eq_refl))).
Defined.

(** ** The login endpoint *)

(** X19.  [POST /login] with a target other than [uptodate] and [mksap]
    raises the 400 error naming the target and does nothing.  For the two
    targets it either answers [logged_in] with the target, and then the
    session flag of that target is set, or raises the 401 error
    [Login failed], and then both session flags are what they were; it
    raises nothing else. *)
Theorem X19_login_endpoint :
  forall w credentials p,
    (target credentials <> "uptodate" -> target credentials <> "mksap" ->
     endpoint_login w credentials p
     = (Raise (HTTPException 400 ("Unknown target: " ++ target credentials)), p))
    /\ (target credentials = "uptodate" \/ target credentials = "mksap" ->
        exists p',
          (endpoint_login w credentials p
           = (Ok (logged_in_answer credentials), p')
           /\ (if String.eqb (target credentials) "uptodate"
               then logged_in_uptodate (scraper p') = true
                    /\ logged_in_mksap (scraper p') = logged_in_mksap (scraper p)
               else logged_in_mksap (scraper p') = true
                    /\ logged_in_uptodate (scraper p')
                       = logged_in_uptodate (scraper p)))
          \/ (endpoint_login w credentials p
              = (Raise (HTTPException 401 "Login failed"), p')
              /\ flags p' = flags p)).
Proof.
  intros w credentials p. split.
  - intros Hu Hm. unfold endpoint_login.
    destruct (String.eqb_spec (target credentials) "uptodate"); [contradiction |].
    destruct (String.eqb_spec (target credentials) "mksap"); [contradiction |].
    reflexivity.
  - intros Htarget. unfold endpoint_login.
    destruct (String.eqb_spec (target credentials) "uptodate") as [Hu | Hu].
    + destruct (login_wrapper w "UpToDate login failed: " p
                  (login_body_uptodate w (username credentials)
                     (password credentials)))
        as (b & p' & Hrun & Hflags & _).
      exists p'. unfold bind.
      change (login_uptodate w (username credentials) (password credentials) p
              = (Ok b, p')) in Hrun.
      rewrite Hrun. destruct b; cbn [negb].
      * left. split; [reflexivity |]. unfold flags in Hflags. cbn in Hflags.
        injection Hflags as -> ->. auto.
      * right. split; [reflexivity | exact Hflags].
    + destruct Htarget as [Hyes | Hm]; [contradiction |].
      destruct (String.eqb_spec (target credentials) "mksap"); [| contradiction].
      destruct (login_wrapper w "MKSAP login failed: " p
                  (login_body_mksap w (username credentials)
                     (password credentials)))
        as (b & p' & Hrun & Hflags & _).
      exists p'. unfold bind.
      change (login_mksap w (username credentials) (password credentials) p
              = (Ok b, p')) in Hrun.
      rewrite Hrun. destruct b; cbn [negb].
      * left. split; [reflexivity |]. unfold flags in Hflags. cbn in Hflags.
        injection Hflags as -> ->. auto.
      * right. split; [reflexivity | exact Hflags].
Qed.

(** X19 at an unknown target. *)
Lemma X19_login_endpoint_witness :
  endpoint_login bare_world
    {| username := "user"; password := "secret"; target := "pubmed" |} fresh
  = (Raise (HTTPException 400 "Unknown target: pubmed"), fresh).
Proof.
  apply (proj1 (X19_login_endpoint bare_world
                  {| username := "user"; password := "secret";
                     target := "pubmed" |} fresh)); discriminate.
Defined.

(** ** A search after a login *)

Lemma appends_ret {A} (a : A) : appends (ret a).
Proof. intros p. exists []. now rewrite after_nil. Qed.

Lemma appends_lift {A} (o : outcome A) : appends (lift o).
Proof. intros p. exists []. now rewrite after_nil. Qed.

Lemma appends_raise {A} (e : exn) : appends (@raise A e).
Proof. intros p. exists []. now rewrite after_nil. Qed.

Lemma appends_now : appends now.
Proof. intros p. exists []. now rewrite after_nil. Qed.

Lemma appends_get_scraper : appends get_scraper.
Proof. intros p. exists []. now rewrite after_nil. Qed.

Lemma appends_emit e : appends (emit e).
Proof. intros p. exists [e]. reflexivity. Qed.

Lemma appends_print line : appends (print line).
Proof. apply appends_emit. Qed.

Lemma appends_sleep n : appends (sleep n).
Proof. intros p. exists []. now rewrite after_nil. Qed.

Lemma appends_bind {A B} (c : M A) (k : A -> M B) :
  appends c -> (forall a, appends (k a)) -> appends (bind c k).
Proof.
  intros Hc Hk p. unfold bind. destruct (Hc p) as [e1 H1].
  destruct (c p) as [[a | e] p1]; cbn [snd] in H1.
  - destruct (Hk a p1) as [e2 H2]. exists (e1 ++ e2)%list.
    now rewrite H2, H1, after_after.
  - exists e1. exact H1.
Qed.

Lemma appends_try_except {A} (c : M A) (h : exn -> M A) :
  appends c -> (forall e, appends (h e)) -> appends (try_except c h).
Proof.
  intros Hc Hh p. unfold try_except. destruct (Hc p) as [e1 H1].
  destruct (c p) as [[a | e] p1]; cbn [snd] in H1.
  - exists e1. exact H1.
  - destruct (Hh e p1) as [e2 H2]. exists (e1 ++ e2)%list.
    now rewrite H2, H1, after_after.
Qed.

Create HintDb appends.
#[local] Hint Resolve appends_ret appends_lift appends_raise appends_now
  appends_get_scraper appends_emit appends_print appends_sleep : appends.

Ltac appending :=
  repeat first
    [ progress auto with appends
    | apply appends_bind; [| intros ?]
    | apply appends_try_except; [| intros ?]
    | match goal with
      | |- appends (if ?b then _ else _) => destruct b
      | |- appends (match ?o with Some _ => _ | None => _ end) => destruct o
      | |- appends (match ?l with [] => _ | _ :: _ => _ end) => destruct l
      | |- appends (let '(_, _) := ?x in _) => destruct x
      end ].

Lemma appends_browser_do w c : appends (browser_do w c).
Proof. unfold browser_do. appending. Qed.

Lemma appends_on_page {A} c (call : M A) :
  appends call -> appends (on_page c call).
Proof. intros H. unfold on_page, AttributeError. appending. Qed.

Lemma appends_page_do w c : appends (page_do w c).
Proof. apply appends_on_page, appends_browser_do. Qed.

Lemma appends_page_is_visible w selector : appends (page_is_visible w selector).
Proof. apply appends_on_page. appending. Qed.

Lemma appends_page_count w selector : appends (page_count w selector).
Proof. apply appends_on_page. appending. Qed.

Lemma appends_page_content w : appends (page_content w).
Proof. apply appends_on_page. appending. Qed.

Lemma appends_page_url w : appends (page_url w).
Proof. unfold page_url, AttributeError. appending. Qed.

Lemma appends_time_ms w : appends (time_ms w).
Proof. unfold time_ms. appending. Qed.

#[local] Hint Resolve appends_browser_do appends_page_do appends_page_is_visible
  appends_page_count appends_page_content appends_page_url appends_time_ms
  : appends.

Lemma appends_first_matching w act selectors :
  (forall selector, appends (act selector)) ->
  appends (first_matching w act selectors).
Proof.
  intros Hact. induction selectors as [| selector rest IH]; cbn [first_matching].
  - appending.
  - appending.
Qed.

Lemma appends_scraper {A} (c : M A) p :
  appends c -> scraper (snd (c p)) = scraper p.
Proof. intros H. destruct (H p) as [events ->]. reflexivity. Qed.

Lemma login_sets_bind {A} set (c : M A) (k : A -> M bool) :
  appends c -> (forall a, login_sets set (k a)) -> login_sets set (bind c k).
Proof.
  intros Hc Hk p. unfold bind. pose proof (appends_scraper p Hc) as Hs.
  destruct (c p) as [[a | e] p1]; cbn [snd] in Hs.
  - specialize (Hk a p1). rewrite Hs in Hk. exact Hk.
  - exact Hs.
Qed.

Lemma login_sets_uptodate w username password :
  login_sets with_logged_in_uptodate (login_uptodate_body w username password).
Proof.
  unfold login_uptodate_body.
  repeat (apply login_sets_bind; [solve [appending] | intros ?]).
  intros p. reflexivity.
Qed.

Lemma login_sets_mksap w username password :
  login_sets with_logged_in_mksap (login_mksap_body w username password).
Proof.
  unfold login_mksap_body.
  repeat (apply login_sets_bind;
          [first [ solve [appending]
                 | apply appends_first_matching; intros ?; solve [appending] ]
          | intros ?]).
  match goal with |- login_sets _ (if ?b then _ else _) => destruct b end;
    intros p; reflexivity.
Qed.

Lemma begins_bind {A B} e (c : M A) (k : A -> M B) p :
  begins e c p -> (forall a, appends (k a)) -> begins e (bind c k) p.
Proof.
  intros [r1 H1] Hk. unfold begins, bind.
  destruct (c p) as [[a | x] p1]; cbn [snd] in H1.
  - destruct (Hk a p1) as [r2 H2]. exists (r1 ++ r2)%list.
    now rewrite H2, H1, after_after.
  - exists r1. exact H1.
Qed.

Lemma begins_try_except {A} e (c : M A) (h : exn -> M A) p :
  begins e c p -> (forall x, appends (h x)) -> begins e (try_except c h) p.
Proof.
  intros [r1 H1] Hh. unfold begins, try_except.
  destruct (c p) as [[a | x] p1]; cbn [snd] in H1.
  - exists r1. exact H1.
  - destruct (Hh x p1) as [r2 H2]. exists (r1 ++ r2)%list.
    now rewrite H2, H1, after_after.
Qed.

Lemma begins_goto {A} w target (k : unit -> M A) p :
  page (scraper p) = true ->
  (forall u, appends (k u)) ->
  begins (EvBrowser (Goto target)) (bind (page_do w (Goto target)) k) p.
Proof.
  intros Hpage Hk. apply begins_bind; [| exact Hk].
  unfold begins, page_do, on_page, bind, get_scraper. rewrite Hpage.
  unfold browser_do. mrun.
  destruct (browser_call w _ _); exists []; reflexivity.
Qed.

Lemma appends_uptodate_first_content w citations_ :
  appends (uptodate_first_content w citations_).
Proof.
  unfold uptodate_first_content, uptodate_article. appending.
Qed.

(** A login that returned [True] has a browser with a page, and changed
    nothing of the scraper but what the start of the browser and the flag
    account for. *)
Lemma login_success w set (body : M bool) (label target : string)
      (k : unit -> M bool) p p1 :
  login_sets set body ->
  body = bind (page_do w (Goto target)) k ->
  bind (start_browser w true) (fun started =>
    if negb started then ret false
    else try_except body
           (fun e => bind (print (label ++ str_exn e)) (fun _ => ret false))) p
  = (Ok true, p1) ->
  PLAYWRIGHT_AVAILABLE w = true
  /\ exists p0,
      start_browser w true p = (Ok true, p0)
      /\ browser (scraper p0) = true
      /\ page (scraper p0) = true
      /\ scraper p1 = set (scraper p0).
Proof.
  intros Hsets Hbody H. unfold bind at 1 in H.
  destruct (start_browser w true p) as [[started | e] p0] eqn:Es;
    [| discriminate H].
  destruct started; cbn [negb] in H; [| discriminate H].
  pose proof Es as Hs. apply start_browser_true in Hs as (Hpw & Hb & _ & _).
  split; [exact Hpw |]. exists p0. split; [reflexivity |].
  split; [exact Hb |].
  apply try_except_ok_inv in H as [H | (e & q & _ & H)].
  - split.
    + destruct (page (scraper p0)) eqn:Hpage; [reflexivity |].
      rewrite Hbody in H. unfold bind in H.
      rewrite page_do_without_page in H by exact Hpage. discriminate H.
    + specialize (Hsets p0). rewrite H in Hsets. exact Hsets.
  - unfold bind, print, emit, ret in H. discriminate H.
Qed.

Lemma search_uptodate_signed_in w query_ max_results_ p :
  PLAYWRIGHT_AVAILABLE w = true ->
  browser (scraper p) = true ->
  page (scraper p) = true ->
  logged_in_uptodate (scraper p) = true ->
  begins (EvBrowser (Goto (uptodate_search_url query_)))
         (search_uptodate w query_ max_results_) p
  /\ forall e, fst (search_uptodate w query_ max_results_ p) = Raise e ->
               is_500 "UpToDate search failed: " e.
Proof.
  intros Hpw Hb Hpage Hflag.
  assert (Hrun : search_uptodate w query_ max_results_ p
                 = try_except
                     (bind (uptodate_hits w query_ max_results_)
                        (fun x => match x with
                                  | (citations_, content_parts) =>
                                      bind (uptodate_first_content w citations_)
                                        (fun first_content =>
                                           bind (time_ms w) (fun ts =>
                                             ret {| provider := "uptodate";
                                                    sr_query := query_;
                                                    content :=
                                                      if negb (String.eqb first_content "")
                                                      then first_content
                                                      else join divider content_parts;
                                                    citations := citations_;
                                                    timestamp := ts |}))
                                  end))
                     (fun e => raise (HTTPException 500
                                        ("UpToDate search failed: " ++ str_exn e)))
                     p).
  { unfold search_uptodate. unfold bind at 1, get_scraper. rewrite Hflag.
    cbn [negb]. erewrite bind_step by (now apply start_browser_started).
    reflexivity. }
  split.
  - unfold begins. rewrite Hrun. apply begins_try_except; [| intros; appending].
    apply begins_bind.
    + unfold uptodate_hits. apply begins_goto; [exact Hpage |].
      intros u. cbv zeta. appending.
    + intros [citations_ content_parts].
      pose proof (appends_uptodate_first_content w citations_). appending.
  - intros e. rewrite Hrun. unfold try_except.
    match goal with |- context [match ?c p with _ => _ end] =>
      destruct (c p) as [[a | e0] p2] end; cbn; intros H; [discriminate H |].
    injection H as <-. eexists. reflexivity.
Qed.

Lemma search_mksap_signed_in w query_ max_results_ p :
  PLAYWRIGHT_AVAILABLE w = true ->
  browser (scraper p) = true ->
  page (scraper p) = true ->
  logged_in_mksap (scraper p) = true ->
  begins (EvBrowser (Goto (mksap_search_url query_)))
         (search_mksap w query_ max_results_) p
  /\ forall e, fst (search_mksap w query_ max_results_ p) = Raise e ->
               is_500 "MKSAP search failed: " e.
Proof.
  intros Hpw Hb Hpage Hflag. split.
  - unfold begins, search_mksap. unfold bind at 1, get_scraper. rewrite Hflag.
    cbn [negb]. erewrite bind_step by (now apply start_browser_started).
    cbn [negb]. cbv zeta.
    apply begins_try_except; [| intros; appending].
    apply begins_goto; [exact Hpage |]. intros u. appending.
  - intros e. unfold search_mksap. unfold bind at 1, get_scraper. rewrite Hflag.
    cbn [negb]. erewrite bind_step by (now apply start_browser_started).
    cbn [negb]. unfold try_except.
    match goal with |- context [match ?c p with _ => _ end] =>
      destruct (c p) as [[a | e0] p2] end; cbn; intros H; [discriminate H |].
    injection H as <-. eexists. reflexivity.
Qed.

(** X20.  A login that returned [True] leaves the scraper with a browser,
    a page and the flag of its target set, the other flag as it was.  A
    search of that target from there never answers 401 and never reports
    a missing browser: it starts no browser, its first effect is the
    navigation to the search address, and whatever it raises is the 500
    error of the failed search. *)
Theorem X20_search_after_login :
  forall w username password p p1,
    (login_uptodate w username password p = (Ok true, p1) ->
     (browser (scraper p1) = true /\ page (scraper p1) = true
      /\ logged_in_uptodate (scraper p1) = true
      /\ logged_in_mksap (scraper p1) = logged_in_mksap (scraper p))
     /\ forall query_ max_results_,
         begins (EvBrowser (Goto (uptodate_search_url query_)))
                (search_uptodate w query_ max_results_) p1
         /\ forall e,
             fst (search_uptodate w query_ max_results_ p1) = Raise e ->
             is_500 "UpToDate search failed: " e)
    /\ (login_mksap w username password p = (Ok true, p1) ->
        (browser (scraper p1) = true /\ page (scraper p1) = true
         /\ logged_in_mksap (scraper p1) = true
         /\ logged_in_uptodate (scraper p1) = logged_in_uptodate (scraper p))
        /\ forall query_ max_results_,
            begins (EvBrowser (Goto (mksap_search_url query_)))
                   (search_mksap w query_ max_results_) p1
            /\ forall e,
                fst (search_mksap w query_ max_results_ p1) = Raise e ->
                is_500 "MKSAP search failed: " e).
Proof.
  intros w username password p p1. split; intros H.
  - unfold login_uptodate in H.
    eapply login_success in H as (Hpw & p0 & Hs & Hb & Hpage & Hset);
      [| apply login_sets_uptodate | reflexivity].
    pose proof (keeps_start_browser w true p) as Hflags.
    rewrite Hs in Hflags. cbn [snd] in Hflags. unfold flags in Hflags.
    injection Hflags as _ Hm.
    assert (Hstate : browser (scraper p1) = true /\ page (scraper p1) = true
                     /\ logged_in_uptodate (scraper p1) = true
                     /\ logged_in_mksap (scraper p1) = logged_in_mksap (scraper p)).
    { rewrite Hset. cbn. auto. }
    split; [exact Hstate |]. destruct Hstate as (B & P & F & _).
    intros query_ max_results_. now apply search_uptodate_signed_in.
  - unfold login_mksap in H.
    eapply login_success in H as (Hpw & p0 & Hs & Hb & Hpage & Hset);
      [| apply login_sets_mksap | reflexivity].
    pose proof (keeps_start_browser w true p) as Hflags.
    rewrite Hs in Hflags. cbn [snd] in Hflags. unfold flags in Hflags.
    injection Hflags as Hu _.
    assert (Hstate : browser (scraper p1) = true /\ page (scraper p1) = true
                     /\ logged_in_mksap (scraper p1) = true
                     /\ logged_in_uptodate (scraper p1)
                        = logged_in_uptodate (scraper p)).
    { rewrite Hset. cbn. auto. }
    split; [exact Hstate |]. destruct Hstate as (B & P & F & _).
    intros query_ max_results_. now apply search_mksap_signed_in.
Qed.

(** X20 at a browser that does whatever it is asked. *)
Lemma X20_search_after_login_witness :
  let p1 := snd (login_uptodate bare_world "user" "secret" fresh) in
  (browser (scraper p1) = true /\ page (scraper p1) = true
   /\ logged_in_uptodate (scraper p1) = true
   /\ logged_in_mksap (scraper p1) = logged_in_mksap (scraper fresh))
  /\ forall query_ max_results_,
      begins (EvBrowser (Goto (uptodate_search_url query_)))
             (search_uptodate bare_world query_ max_results_) p1
      /\ forall e,
          fst (search_uptodate bare_world query_ max_results_ p1) = Raise e ->
          is_500 "UpToDate search failed: " e.
Proof.
  intros p1.
  apply (proj1 (X20_search_after_login bare_world "user" "secret" fresh p1)).
  vm_compute. reflexivity.
Defined.

(** ** Scraping of a page *)

Lemma map_enum_nth {A B} (f : nat -> A -> B) xs :
  forall k i b,
    nth_error (map_enum f k xs) i = Some b ->
    exists a, nth_error xs i = Some a /\ b = f (k + i)%nat a.
Proof.
  induction xs as [| x xs IH]; intros k i b H.
  - destruct i; discriminate H.
  - destruct i as [| i]; cbn in H.
    + injection H as <-. exists x. rewrite Nat.add_0_r. auto.
    + apply IH in H as (a & Ha & ->). exists a.
      replace (k + S i)%nat with (S k + i)%nat by lia. auto.
Qed.

Lemma appends_sleep_uniform a b : appends (sleep_uniform a b).
Proof. intros p. exists []. now rewrite after_nil. Qed.

Lemma keeps_sleep_uniform a b : keeps_flags (sleep_uniform a b).
Proof. intros p. reflexivity. Qed.

Lemma keeps_page_content w : keeps_flags (page_content w).
Proof. apply keeps_on_page. keeps. Qed.

Lemma keeps_scrape_url w cleaned url_ : keeps_flags (scrape_url w cleaned url_).
Proof.
  unfold scrape_url.
  pose proof (keeps_start_browser w true).
  pose proof keeps_sleep_uniform. pose proof (keeps_page_content w).
  keeps.
Qed.


